(** * era-5g-interface: the [Channels] data-channel layer

    A shallow embedding of [era_5g_interface/channels.py], the class behind
    [ClientChannels], followed by the properties of the send pipeline, the
    back-pressure check and the receive/decode pipeline.

    Python objects become records, [Dict[str, Any]] becomes a [gmap string
    Value], exceptions become the [Raise] branch of [Result], and the methods
    of [Channels] are functions in a state-and-exception monad over the
    [Channels] record.  The only loop of the file (waiting for reconnection)
    is bounded by a fuel argument. *)

From Stdlib Require Import ZArith Lia.
From stdpp Require Import gmap strings list fin_maps pretty.

#[local] Set Warnings "-register-all".
#[local] Open Scope Z_scope.

(** ** Python values *)

(** [np.ndarray]: only [shape] is read by the code; the pixel buffer is
    carried along for the codecs. *)
Record ndarray := { shape : list Z; pixels : list Byte.byte }.

(** The values that travel in envelopes.  [float] is not represented. *)
Inductive Value :=
| VNone
| VBool (b : bool)
| VInt (z : Z)
| VStr (s : string)
| VBytes (b : list Byte.byte)
| VImage (a : ndarray)
| VDict (d : gmap string Value).

Abbreviation Dict := (gmap string Value).

(** Exceptions, by class.  [OtherException] stands for any class raised by an
    external library that the code never names. *)
Inductive Exn :=
| BackPressureException
| UnknownChannelTypeUsed
| ValueError (msg : string)
| ConnectionError (msg : string)
| KeyError
| IndexError
| TypeError
| AssertionError
| H264EncoderError (msg : string)
| H264DecoderError (msg : string)
| OtherException (msg : string).

Inductive Result (A : Type) :=
| Ok (a : A)
| Raise (e : Exn).
Arguments Ok {A} a.
Arguments Raise {A} e.

(** [str(e)] and [repr(e)] of an exception. *)
Definition exn_class (e : Exn) : string :=
  match e with
  | BackPressureException => "BackPressureException"
  | UnknownChannelTypeUsed => "UnknownChannelTypeUsed"
  | ValueError _ => "ValueError"
  | ConnectionError _ => "ConnectionError"
  | KeyError => "KeyError"
  | IndexError => "IndexError"
  | TypeError => "TypeError"
  | AssertionError => "AssertionError"
  | H264EncoderError _ => "H264EncoderError"
  | H264DecoderError _ => "H264DecoderError"
  | OtherException _ => "Exception"
  end.

Definition py_str_exn (e : Exn) : string :=
  match e with
  | ValueError m | ConnectionError m | H264EncoderError m
  | H264DecoderError m | OtherException m => m
  | _ => ""
  end.

(** [repr(e)] in the shape [Class('message')]: enough to carry the message
    of an error along; the properties do not rest on the exact text. *)
Definition py_repr_exn (e : Exn) : string :=
  exn_class e +:+ "('" +:+ py_str_exn e +:+ "')".

(** [str(x)] for an optional string: [str(None)] is ["None"]. *)
Definition py_str_opt (o : option string) : string := default "None" o.

(** Numeric reading of a value ([bool] is a subclass of [int]). *)
Definition as_int (v : Value) : option Z :=
  match v with
  | VInt z => Some z
  | VBool b => Some (if b then 1 else 0)
  | _ => None
  end.

(** [a - b]; anything that is not a number raises [TypeError]. *)
Definition py_sub (a b : Value) : Result Z :=
  match as_int a, as_int b with
  | Some x, Some y => Ok (x - y)
  | _, _ => Raise TypeError
  end.

(** [{v}] inside an f-string, for the values that reach one. *)
Definition py_format (v : Value) : string :=
  match v with
  | VNone => "None"
  | VBool b => if b then "True" else "False"
  | VInt z => pretty z
  | VStr s => s
  | _ => "<object>"
  end.

(** ** Constants of [channels.py] *)

Definition DATA_NAMESPACE : string := "/data".
Definition DATA_ERROR_EVENT : string := "data_error".

Inductive ChannelType := JSON | JPEG | H264 | JSON_LZ4.

#[global] Instance ChannelType_eq_dec : EqDecision ChannelType.
Proof. solve_decision. Defined.

(** [CallbackInfoClient] / [CallbackInfoServer]; the user callback itself is
    never called by [Channels]. *)
Record CallbackInfo := { type : ChannelType; error_event : string }.

(** ** The transport (socketio) as seen from [Channels] *)

(** What the client reads in one turn of the reconnection loop:
    [sio.connected], the truth value of [sio.eio.state], and
    [sio._reconnect_task] ([None], or a task that is alive or not). *)
Record ConnStatus :=
  { connected : bool; eio_state : bool; reconnect_task : option bool }.

(** One call of [sio.emit(event, data, namespace=..., to=...)]. *)
Record Emission :=
  { em_event : string; em_data : Value; em_namespace : string;
    em_to : option string }.

(** [socketio.Client]: its sid, the depth of [eio.queue], the connection
    status at each second, the seconds slept so far, and the emit calls. *)
Record ClientSio :=
  { c_sid : option string;
    c_qsize : Z;
    c_status : nat -> ConnStatus;
    c_clock : nat;
    c_emitted : list Emission }.

(** [socketio.Server]: [manager.eio_sid_from_sid], the depth of
    [eio.sockets[eio_sid].queue], [manager.is_connected], and the emit
    calls. *)
Record ServerSio :=
  { s_eio_sid_from_sid : gmap (string * string) string;
    s_sockets : gmap string Z;
    s_is_connected : gset (string * string);
    s_emitted : list Emission }.

Inductive Sio :=
| Client (c : ClientSio)
| Server (s : ServerSio).

Definition emitted (s : Sio) : list Emission :=
  match s with
  | Client c => c_emitted c
  | Server s => s_emitted s
  end.

(** ** External libraries

    PyAV, OpenCV, lz4 and ujson are outside the repository: each call is a
    function that returns a value or raises. *)
Class External := {
  NativeEncoder : Type;
  NativeDecoder : Type;
  av_encoder_open :
    Z -> Z -> option (gmap string string) -> Result NativeEncoder;
  av_encoder_reopen : NativeEncoder -> NativeEncoder;
  av_encode :
    NativeEncoder -> ndarray ->
    Result (list Byte.byte * bool) * NativeEncoder;
  av_decoder_open : Value -> Value -> Result NativeDecoder;
  av_decoder_reopen : NativeDecoder -> NativeDecoder;
  av_decode : NativeDecoder -> Value -> Result Value * NativeDecoder;
  cv2_imencode : ndarray -> Result (list Byte.byte);
  cv2_imdecode : Value -> Result Value;
  lz4_compress : list Byte.byte -> list Byte.byte;
  lz4_decompress : list Byte.byte -> Result (list Byte.byte);
  ujson_dumps : Dict -> Result string;
  ujson_loads : list Byte.byte -> Result Value
}.

Section Channels.
Context `{Ext : External}.

(** ** Codec adapters ([h264_encoder.py], [h264_decoder.py]) *)

(** Modelled from the spec: the [H264Encoder] class of [h264_encoder.py],
    which is not among the sources.  Section 4.3: it wraps one native encoder,
    exposes [encode], whether the last encoded frame is a keyframe, and a
    re-initialisation that rebuilds the native state in place and increments
    the init counter (section 3: not incremented by the first creation). *)
Record H264Encoder :=
  { enc_width : Z;
    enc_height : Z;
    enc_options : option (gmap string string);
    enc_init_count : Z;
    enc_keyframe : bool;
    enc_native : NativeEncoder }.

(** Modelled from the spec: the constructor [H264Encoder(width, height,
    options=...)]; construction failure is propagated (section 4.2). *)
Definition H264Encoder_new (w h : Z) (options : option (gmap string string))
  : Result H264Encoder :=
  match av_encoder_open w h options with
  | Ok n => Ok {| enc_width := w; enc_height := h; enc_options := options;
                  enc_init_count := 0; enc_keyframe := false; enc_native := n |}
  | Raise e => Raise e
  end.

(** Modelled from the spec: [H264Encoder.encode_ndarray]. *)
Definition encode_ndarray (enc : H264Encoder) (frame : ndarray)
  : Result (list Byte.byte) * H264Encoder :=
  match av_encode (enc_native enc) frame with
  | (Ok (b, kf), n) =>
      (Ok b, {| enc_width := enc_width enc; enc_height := enc_height enc;
                enc_options := enc_options enc;
                enc_init_count := enc_init_count enc;
                enc_keyframe := kf; enc_native := n |})
  | (Raise e, n) =>
      (Raise e, {| enc_width := enc_width enc; enc_height := enc_height enc;
                   enc_options := enc_options enc;
                   enc_init_count := enc_init_count enc;
                   enc_keyframe := enc_keyframe enc; enc_native := n |})
  end.

(** Modelled from the spec: [H264Encoder.encoder_init] (the re-init of
    section 4.3). *)
Definition encoder_init (enc : H264Encoder) : H264Encoder :=
  {| enc_width := enc_width enc; enc_height := enc_height enc;
     enc_options := enc_options enc;
     enc_init_count := enc_init_count enc + 1;
     enc_keyframe := enc_keyframe enc;
     enc_native := av_encoder_reopen (enc_native enc) |}.

(** Modelled from the spec: the [H264Decoder] class of [h264_decoder.py],
    which is not among the sources: the native decoder, the public attribute
    [last_timestamp] and the init counter. *)
Record H264Decoder :=
  { last_timestamp : Value;
    dec_init_count : Z;
    dec_native : NativeDecoder }.

Definition set_last_timestamp (v : Value) (d : H264Decoder) : H264Decoder :=
  {| last_timestamp := v; dec_init_count := dec_init_count d;
     dec_native := dec_native d |}.

(** The value of [last_timestamp] in a fresh decoder is not fixed by the
    sources at hand: it is a parameter. *)
Context (initial_last_timestamp : Z).

(** Modelled from the spec: the constructor [H264Decoder(width, height)]. *)
Definition H264Decoder_new (w h : Value) : Result H264Decoder :=
  match av_decoder_open w h with
  | Ok n => Ok {| last_timestamp := VInt initial_last_timestamp;
                  dec_init_count := 0; dec_native := n |}
  | Raise e => Raise e
  end.

(** Modelled from the spec: [H264Decoder.decode_packet_data]. *)
Definition decode_packet_data (d : H264Decoder) (packet : Value)
  : Result Value * H264Decoder :=
  let '(r, n) := av_decode (dec_native d) packet in
  (r, {| last_timestamp := last_timestamp d;
         dec_init_count := dec_init_count d; dec_native := n |}).

(** Modelled from the spec: [H264Decoder.decoder_init] (the re-init of
    section 4.3). *)
Definition decoder_init (d : H264Decoder) : H264Decoder :=
  {| last_timestamp := last_timestamp d;
     dec_init_count := dec_init_count d + 1;
     dec_native := av_decoder_reopen (dec_native d) |}.

(** ** The [Channels] object *)

Record Channels :=
  { _sio : Sio;
    _back_pressure_size : option Z;
    _recreate_h264_attempts_count : Z;
    _stats : bool;
    _sizes : list Z;
    _callbacks_info : gmap string CallbackInfo;
    _decoders : gmap (string * string) H264Decoder;
    _encoders : gmap (string * string) H264Encoder }.

Definition set_sio (s : Sio) (self : Channels) : Channels :=
  {| _sio := s; _back_pressure_size := _back_pressure_size self;
     _recreate_h264_attempts_count := _recreate_h264_attempts_count self;
     _stats := _stats self; _sizes := _sizes self;
     _callbacks_info := _callbacks_info self;
     _decoders := _decoders self; _encoders := _encoders self |}.

Definition set_sizes (l : list Z) (self : Channels) : Channels :=
  {| _sio := _sio self; _back_pressure_size := _back_pressure_size self;
     _recreate_h264_attempts_count := _recreate_h264_attempts_count self;
     _stats := _stats self; _sizes := l;
     _callbacks_info := _callbacks_info self;
     _decoders := _decoders self; _encoders := _encoders self |}.

Definition set_decoders (m : gmap (string * string) H264Decoder)
  (self : Channels) : Channels :=
  {| _sio := _sio self; _back_pressure_size := _back_pressure_size self;
     _recreate_h264_attempts_count := _recreate_h264_attempts_count self;
     _stats := _stats self; _sizes := _sizes self;
     _callbacks_info := _callbacks_info self;
     _decoders := m; _encoders := _encoders self |}.

Definition set_encoders (m : gmap (string * string) H264Encoder)
  (self : Channels) : Channels :=
  {| _sio := _sio self; _back_pressure_size := _back_pressure_size self;
     _recreate_h264_attempts_count := _recreate_h264_attempts_count self;
     _stats := _stats self; _sizes := _sizes self;
     _callbacks_info := _callbacks_info self;
     _decoders := _decoders self; _encoders := m |}.

(** [Channels.__init__]. *)
Definition Channels_init (sio : Sio) (callbacks_info : gmap string CallbackInfo)
  (back_pressure_size : option Z) (recreate_h264_attempts_count : Z)
  (stats : bool) : Result Channels :=
  match back_pressure_size with
  | Some n =>
      if n <? 1 then Raise (ValueError "Invalid value for back_pressure_size.")
      else Ok {| _sio := sio; _back_pressure_size := Some n;
                 _recreate_h264_attempts_count := recreate_h264_attempts_count;
                 _stats := stats; _sizes := [];
                 _callbacks_info := callbacks_info;
                 _decoders := ∅; _encoders := ∅ |}
  | None =>
      Ok {| _sio := sio; _back_pressure_size := None;
            _recreate_h264_attempts_count := recreate_h264_attempts_count;
            _stats := stats; _sizes := [];
            _callbacks_info := callbacks_info;
            _decoders := ∅; _encoders := ∅ |}
  end.

(** ** The monad of the methods

    A method takes the object, and returns its result (a value or a raised
    exception) with the object as the method left it; [None] only when the
    reconnection loop was cut by the fuel. *)
Definition M (A : Type) : Type := Channels -> option (Result A * Channels).

Definition ret {A} (a : A) : M A := fun self => Some (Ok a, self).
Definition raise {A} (e : Exn) : M A := fun self => Some (Raise e, self).
Definition bind {A B} (m : M A) (k : A -> M B) : M B :=
  fun self =>
    match m self with
    | Some (Ok a, self') => k a self'
    | Some (Raise e, self') => Some (Raise e, self')
    | None => None
    end.
Definition get : M Channels := fun self => Some (Ok self, self).
Definition modify (f : Channels -> Channels) : M unit :=
  fun self => Some (Ok tt, f self).
Definition lift {A} (r : Result A) : M A :=
  fun self => Some (r, self).

(** [try: body except cls as e: handler e], where [handles e] tells whether
    [e] is an instance of [cls]. *)
Definition try_except {A} (body : M A) (handles : Exn -> bool)
  (handler : Exn -> M A) : M A :=
  fun self =>
    match body self with
    | Some (Raise e, self') =>
        if handles e then handler e self' else Some (Raise e, self')
    | r => r
    end.

#[local] Notation "x <- c ;; k" := (bind c (fun x => k))
  (at level 100, c at next level, right associativity).
#[local] Notation "c ;;; k" := (bind c (fun _ => k))
  (at level 100, right associativity).

(** ** [Channels.get_client_eio_sid] *)
Definition get_client_eio_sid (sid : option string) (namespace : string)
  : M string :=
  self <- get ;;
  match _sio self with
  | Client c => ret (py_str_opt (c_sid c))
  | Server s =>
      match sid with
      | None => raise (ValueError "'sid' has to be set for server.")
      | Some x => ret (py_str_opt (s_eio_sid_from_sid s !! (x, namespace)))
      end
  end.

(** ** [Channels._apply_back_pressure] *)
Definition _apply_back_pressure (sid : option string) : M unit :=
  self <- get ;;
  match _back_pressure_size self with
  | None => ret tt
  | Some size =>
      match _sio self with
      | Client c =>
          if c_qsize c >? size then raise BackPressureException else ret tt
      | Server s =>
          match sid with
          | None => raise (ValueError "'sid' has to be set for server.")
          | Some x =>
              eio_sid <- get_client_eio_sid (Some x) DATA_NAMESPACE ;;
              match s_sockets s !! eio_sid with
              | None => raise KeyError
              | Some qsize =>
                  if qsize >? size then raise BackPressureException
                  else ret tt
              end
          end
      end
  end.

(** ** [Channels.send_data] *)

(** The [while] loop of [send_data]: it goes on while the client is not
    connected, leaves when no reconnection task is alive, and sleeps one
    second per turn. *)
Definition not_connected (s : ConnStatus) : bool :=
  negb (connected s) || negb (eio_state s).

Definition no_reconnect_task (s : ConnStatus) : bool :=
  match reconnect_task s with
  | None => true
  | Some alive => negb alive
  end.

Definition sleep (c : ClientSio) : ClientSio :=
  {| c_sid := c_sid c; c_qsize := c_qsize c; c_status := c_status c;
     c_clock := S (c_clock c); c_emitted := c_emitted c |}.

Fixpoint wait_for_reconnection_loop (fuel : nat) (c : ClientSio)
  : option ClientSio :=
  let s := c_status c (c_clock c) in
  if not_connected s then
    if no_reconnect_task s then Some c
    else match fuel with
         | O => None
         | S fuel' => wait_for_reconnection_loop fuel' (sleep c)
         end
  else Some c.

Definition client_emit (e : Emission) (c : ClientSio) : ClientSio :=
  {| c_sid := c_sid c; c_qsize := c_qsize c; c_status := c_status c;
     c_clock := c_clock c; c_emitted := c_emitted c ++ [e] |}.

Definition server_emit (e : Emission) (s : ServerSio) : ServerSio :=
  {| s_eio_sid_from_sid := s_eio_sid_from_sid s; s_sockets := s_sockets s;
     s_is_connected := s_is_connected s; s_emitted := s_emitted s ++ [e] |}.

(** [bytes(s, "utf-8")]: a [string] is held as its UTF-8 bytes. *)
Definition utf8 (s : string) : list Byte.byte := String.list_byte_of_string s.

(** Lines 236-238: the payload given to [emit]. *)
Definition encode_payload (data : Dict) (channel_type : ChannelType)
  : Result Value :=
  if bool_decide (channel_type = JSON_LZ4) then
    match ujson_dumps data with
    | Ok s => Ok (VBytes (lz4_compress (utf8 s)))
    | Raise e => Raise e
    end
  else Ok (VDict data).

(** Lines 240-253: the emit, on a client or on a server.  The call of
    [sio.emit] is recorded; what the transport does with it, how the depth
    of its queue moves, and what the library itself may raise from the call,
    is the transport's own business and is not modelled. *)
Definition emit_data (fuel : nat) (event : string) (new_data : Value)
  (sid : option string) (wait_for_reconnection : bool) : M unit :=
  fun self =>
    match _sio self with
    | Client c =>
        match (if wait_for_reconnection
               then wait_for_reconnection_loop fuel c else Some c) with
        | None => None
        | Some c' =>
            Some (Ok tt,
                  set_sio (Client (client_emit
                    {| em_event := event; em_data := new_data;
                       em_namespace := DATA_NAMESPACE; em_to := None |} c'))
                    self)
        end
    | Server s =>
        match sid with
        | None =>
            Some (Raise (ValueError "'sid' has to be set for server."), self)
        | Some x =>
            if bool_decide ((x, DATA_NAMESPACE) ∈ s_is_connected s) then
              Some (Ok tt,
                    set_sio (Server (server_emit
                      {| em_event := event; em_data := new_data;
                         em_namespace := DATA_NAMESPACE; em_to := Some x |} s))
                      self)
            else
              Some (Raise (ConnectionError
                      ("Client with " +:+ DATA_NAMESPACE +:+ " sid " +:+ x
                       +:+ " is not connected to server.")), self)
        end
    end.

(** Lines 233-234: the back-pressure check of a send (the admission decision of
    section 4.1 of the specification). *)
Definition back_pressure_check (sid : option string) (can_be_dropped : bool)
  : M unit :=
  if can_be_dropped then _apply_back_pressure sid else ret tt.

Definition send_data (fuel : nat) (data : Dict) (event : string)
  (channel_type : ChannelType) (sid : option string)
  (can_be_dropped wait_for_reconnection : bool) : M unit :=
  if negb (bool_decide (channel_type = JSON))
     && negb (bool_decide (channel_type = JSON_LZ4))
  then raise UnknownChannelTypeUsed
  else
    back_pressure_check sid can_be_dropped ;;;
    new_data <- lift (encode_payload data channel_type) ;;
    emit_data fuel event new_data sid wait_for_reconnection.

(** ** [Channels.send_image] *)

Definition is_H264EncoderError (e : Exn) : bool :=
  match e with H264EncoderError _ => true | _ => false end.

Definition is_H264DecoderError (e : Exn) : bool :=
  match e with H264DecoderError _ => true | _ => false end.

(** [if metadata:] holds for a dictionary that is given and not empty. *)
Definition with_metadata (metadata : option Dict) (data : Dict) : Dict :=
  match metadata with
  | Some md => if bool_decide (size md = 0%nat) then data
               else <["metadata" := VDict md]> data
  | None => data
  end.

(** Lines 168-175: the encoder of the stream is created when the key is not
    in [_encoders] yet; a failure is logged and raised again. *)
Definition create_encoder (frame : ndarray) (encoder_id : string * string)
  (encoding_options : option (gmap string string)) : M unit :=
  self <- get ;;
  match _encoders self !! encoder_id with
  | Some _ => ret tt
  | None =>
      match shape frame !! 1%nat, shape frame !! 0%nat with
      | Some w, Some h =>
          enc <- lift (H264Encoder_new w h encoding_options) ;;
          modify (fun self =>
                    set_encoders (<[encoder_id := enc]> (_encoders self)) self)
      | _, _ => raise IndexError
      end
  end.

(** Lines 177-188: the frame is encoded and the envelope completed; the
    result is the encoded frame, the envelope and [is_key_frame]. *)
Definition encode_frame (frame : ndarray) (channel_type : ChannelType)
  (data : Dict) (encoder_id : string * string)
  : M (list Byte.byte * Dict * bool) :=
  if bool_decide (channel_type = H264) then
    self <- get ;;
    match _encoders self !! encoder_id with
    | None => raise KeyError
    | Some enc =>
        let '(res, enc') := encode_ndarray enc frame in
        modify (fun self =>
                  set_encoders (<[encoder_id := enc']> (_encoders self))
                    self) ;;;
        frame_encoded <- lift res ;;
        ret (frame_encoded,
             <["frame" := VBytes frame_encoded]>
               (<["height" := VInt (enc_height enc')]>
                  (<["width" := VInt (enc_width enc')]>
                     (<["h264" := VBool true]> data))),
             enc_keyframe enc')
    end
  else
    frame_encoded <- lift (cv2_imencode frame) ;;
    ret (frame_encoded, <["frame" := VBytes frame_encoded]> data, false).

(** Lines 176-198: the body of the [try]. *)
Definition encode_and_send (fuel : nat) (frame : ndarray) (event : string)
  (channel_type : ChannelType) (data : Dict) (sid : option string)
  (can_be_dropped : bool) (encoder_id : string * string) : M unit :=
  r <- encode_frame frame channel_type data encoder_id ;;
  let '(frame_encoded, data, is_key_frame) := r in
  self <- get ;;
  (if _stats self
   then modify (fun self =>
          set_sizes (_sizes self ++ [Z.of_nat (length frame_encoded)]) self)
   else ret tt) ;;;
  send_data fuel data event JSON sid (can_be_dropped && negb is_key_frame) true.

(** Lines 199-206: the handler of [H264EncoderError]. *)
Definition recreate_encoder (encoder_id : string * string) (e : Exn) : M unit :=
  self <- get ;;
  match _encoders self !! encoder_id with
  | None => raise KeyError
  | Some enc =>
      if enc_init_count enc <? _recreate_h264_attempts_count self then
        modify (fun self =>
                  set_encoders
                    (<[encoder_id := encoder_init enc]> (_encoders self)) self)
      else raise e
  end.

(** [perf_counter_ns] is what [time.perf_counter_ns()] returns at the call.
    [wait_for_reconnection] is accepted and, as in the source, not used. *)
Definition send_image (fuel : nat) (perf_counter_ns : Z) (frame : ndarray)
  (event : string) (channel_type : ChannelType) (timestamp : option Z)
  (metadata : option Dict) (sid : option string)
  (can_be_dropped wait_for_reconnection : bool)
  (encoding_options : option (gmap string string)) : M unit :=
  if negb (bool_decide (channel_type = JPEG))
     && negb (bool_decide (channel_type = H264))
  then raise UnknownChannelTypeUsed
  else
    let timestamp := default perf_counter_ns timestamp in
    let data := with_metadata metadata {["timestamp" := VInt timestamp]} in
    eio_sid <- get_client_eio_sid sid DATA_NAMESPACE ;;
    let encoder_id := (eio_sid, event) in
    (if bool_decide (channel_type = H264)
     then create_encoder frame encoder_id encoding_options
     else ret tt) ;;;
    try_except
      (encode_and_send fuel frame event channel_type data sid can_be_dropped
         encoder_id)
      is_H264EncoderError
      (recreate_encoder encoder_id).

(** ** [Channels.image_decode] *)

(** [self._callbacks_info[event]]. *)
Definition callback_info (event : string) : M CallbackInfo :=
  self <- get ;;
  match _callbacks_info self !! event with
  | Some info => ret info
  | None => raise KeyError
  end.

Definition error_envelope (timestamp : Value) (msg : string) : Dict :=
  <["error" := VStr msg]> {["timestamp" := timestamp]}.

(** The error branches of [image_decode]: the envelope goes to the error
    event of the channel and the method returns [None]. *)
Definition send_error (fuel : nat) (timestamp : Value) (msg : string)
  (event : string) (sid : option string) : M (option Dict) :=
  info <- callback_info event ;;
  send_data fuel (error_envelope timestamp msg) (error_event info) JSON sid
    false true ;;;
  ret None.

Definition older_timestamp_msg (timestamp last : Value) (diff : Z) : string :=
  "Received frame with older timestamp: " +:+ py_format timestamp
  +:+ ", last_timestamp: " +:+ py_format last
  +:+ ", diff: " +:+ pretty diff.

(** Lines 379-383. *)
Definition decoded_record (data : Dict) (frame_decoded timestamp : Value)
  : Dict :=
  let decoded_data : Dict :=
    <["timestamp" := timestamp]> {["frame" := frame_decoded]} in
  match data !! "metadata" with
  | Some md => <["metadata" := md]> decoded_data
  | None => decoded_data
  end.

(** Lines 352-383: decoding, by the decoder of the stream when there is one
    and as a still image otherwise. *)
Definition decode_frame (fuel : nat) (data : Dict) (frame timestamp : Value)
  (event : string) (sid : option string) (decoder_id : string * string)
  : M (option Dict) :=
  self <- get ;;
  match _decoders self !! decoder_id with
  | Some dec =>
      let '(res, dec') := decode_packet_data dec frame in
      modify (fun self =>
                set_decoders (<[decoder_id := dec']> (_decoders self)) self) ;;;
      match res with
      | Ok frame_decoded =>
          ret (Some (decoded_record data frame_decoded timestamp))
      | Raise e =>
          if is_H264DecoderError e then
            (if dec_init_count dec' <? _recreate_h264_attempts_count self
             then modify (fun self =>
                    set_decoders
                      (<[decoder_id := decoder_init dec']> (_decoders self))
                      self)
             else ret tt) ;;;
            send_error fuel timestamp
              ("H.264 decoder error: " +:+ py_str_exn e) event sid
          else raise e
      end
  | None =>
      match cv2_imdecode frame with
      | Ok frame_decoded =>
          ret (Some (decoded_record data frame_decoded timestamp))
      | Raise e =>
          send_error fuel timestamp
            ("Failed to decode frame data: " +:+ py_repr_exn e) event sid
      end
  end.

(** Lines 333-350: the timestamp of the frame against [last_timestamp]. *)
Definition check_timestamp (fuel : nat) (data : Dict) (frame timestamp : Value)
  (event : string) (sid : option string) (decoder_id : string * string)
  : M (option Dict) :=
  self <- get ;;
  match _decoders self !! decoder_id with
  | Some dec =>
      diff <- lift (py_sub timestamp (last_timestamp dec)) ;;
      if diff <? 0 then
        send_error fuel timestamp
          (older_timestamp_msg timestamp (last_timestamp dec) diff) event sid
      else
        modify (fun self =>
                  set_decoders
                    (<[decoder_id := set_last_timestamp timestamp dec]>
                       (_decoders self)) self) ;;;
        decode_frame fuel data frame timestamp event sid decoder_id
  | None => decode_frame fuel data frame timestamp event sid decoder_id
  end.

Definition no_geometry_msg : string :=
  "Data does not contain width or height, it is mandatory for H.264.".

Definition image_decode (fuel : nat) (data : Dict) (event : string)
  (sid : option string) : M (option Dict) :=
  let timestamp := default (VInt 0) (data !! "timestamp") in
  match data !! "frame" with
  | None => send_error fuel timestamp "Data does not contain frame." event sid
  | Some frame =>
      eio_sid <- get_client_eio_sid sid DATA_NAMESPACE ;;
      let decoder_id := (eio_sid, event) in
      info <- callback_info event ;;
      self <- get ;;
      match type info, _decoders self !! decoder_id with
      | H264, None =>
          match data !! "width", data !! "height" with
          | Some w, Some h =>
              match H264Decoder_new w h with
              | Ok dec =>
                  modify (fun self =>
                            set_decoders
                              (<[decoder_id := dec]> (_decoders self)) self) ;;;
                  check_timestamp fuel data frame timestamp event sid
                    decoder_id
              | Raise e =>
                  send_error fuel timestamp
                    ("Cannot create H.264 decoder: " +:+ py_repr_exn e)
                    event sid
              end
          | _, _ => send_error fuel timestamp no_geometry_msg event sid
          end
      | _, _ =>
          check_timestamp fuel data frame timestamp event sid decoder_id
      end
  end.

(** ** [Channels.data_lz4_decode]

    The result is the parsed value, or [VNone] for Python's [None]. *)
Definition lz4_loads (b : list Byte.byte) : Result Value :=
  match lz4_decompress b with
  | Ok raw => ujson_loads raw
  | Raise e => Raise e
  end.

Definition data_lz4_decode (fuel : nat) (data : Value) (event : string)
  (sid : option string) : M Value :=
  match data with
  | VBytes b =>
      match lz4_loads b with
      | Ok new_data => ret new_data
      | Raise e =>
          info <- callback_info event ;;
          send_data fuel
            {["error" := VStr ("Failed to decode LZ4 JSON data: "
                                +:+ py_repr_exn e)]}
            (error_event info) JSON sid false true ;;;
          ret VNone
      end
  | _ => raise AssertionError
  end.

End Channels.

Arguments H264Encoder {Ext}.
Arguments H264Decoder {Ext}.
Arguments Channels {Ext}.
Arguments M {Ext} A.

(** ** What the properties speak about *)

Section Observations.
Context `{Ext : External}.

(** The depth of the outbound queue of the connection, as
    [_apply_back_pressure] reads it; [None] when the transport has no queue
    for it (a server without [sid], or without a socket for it). *)
Definition queue_depth (self : Channels) (sid : option string) : option Z :=
  match _sio self with
  | Client c => Some (c_qsize c)
  | Server s =>
      match sid with
      | Some x =>
          s_sockets s
            !! py_str_opt (s_eio_sid_from_sid s !! (x, DATA_NAMESPACE))
      | None => None
      end
  end.

(** The connection accepts an emit: the client's wait ends within the fuel,
    the server knows the target as connected. *)
Definition transport_ready (fuel : nat) (wait_for_reconnection : bool)
  (sid : option string) (self : Channels) : bool :=
  match _sio self with
  | Client c =>
      if wait_for_reconnection
      then bool_decide (is_Some (wait_for_reconnection_loop fuel c))
      else true
  | Server s =>
      match sid with
      | Some x => bool_decide ((x, DATA_NAMESPACE) ∈ s_is_connected s)
      | None => false
      end
  end.

(** The emit call that [send_data] makes for a payload. *)
Definition emission (self : Channels) (event : string) (payload : Value)
  (sid : option string) : Emission :=
  {| em_event := event; em_data := payload; em_namespace := DATA_NAMESPACE;
     em_to := match _sio self with Client _ => None | Server _ => sid end |}.

(** The key of a stream: [(eio_sid, event)]. *)
Definition stream_key (self : Channels) (event : string) (sid : option string)
  : option (string * string) :=
  match _sio self with
  | Client c => Some (py_str_opt (c_sid c), event)
  | Server s =>
      match sid with
      | Some x =>
          Some (py_str_opt (s_eio_sid_from_sid s !! (x, DATA_NAMESPACE)), event)
      | None => None
      end
  end.

(** The envelope of an H.264 frame, as [send_image] completes it. *)
Definition h264_envelope (data : Dict) (enc : H264Encoder)
  (frame_encoded : list Byte.byte) : Dict :=
  <["frame" := VBytes frame_encoded]>
    (<["height" := VInt (enc_height enc)]>
       (<["width" := VInt (enc_width enc)]> (<["h264" := VBool true]> data))).

(** Lines 189-192: the size of the encoded frame is kept when [stats] is
    on. *)
Definition record_size (frame_encoded : list Byte.byte) (self : Channels)
  : Channels :=
  if _stats self
  then set_sizes (_sizes self ++ [Z.of_nat (length frame_encoded)]) self
  else self.

(** The first fields of the envelope of [send_image]. *)
Definition envelope_head (perf_counter_ns : Z) (timestamp : option Z)
  (metadata : option Dict) : Dict :=
  with_metadata metadata
    {["timestamp" := VInt (default perf_counter_ns timestamp)]}.

(** Two states of the transport that name connections alike: only the
    traffic (emit calls, seconds slept) may differ. *)
Definition same_connection (s s' : Sio) : Prop :=
  match s, s' with
  | Client c, Client c' => c_sid c' = c_sid c /\ c_status c' = c_status c
  | Server a, Server b => s_eio_sid_from_sid b = s_eio_sid_from_sid a
  | _, _ => False
  end.

(** A transport on which [send_data] never waits: a server, or a client that
    is connected at every second. *)
Definition stays_connected (self : Channels) : Prop :=
  match _sio self with
  | Client c => forall t, not_connected (c_status c t) = false
  | Server _ => True
  end.

(** The outcome that section 4.4 of the specification words as a silent
    drop: the call returns normally and the object is as before. *)
Definition dropped_silently (fuel : nat) (data : Dict) (event : string)
  (channel_type : ChannelType) (sid : option string)
  (wait_for_reconnection : bool) (self : Channels) : Prop :=
  send_data fuel data event channel_type sid true wait_for_reconnection self
  = Some (Ok tt, self).

End Observations.

(** ** A small stand-in for the external libraries

    Enough of PyAV, OpenCV, lz4 and ujson to run the methods on concrete
    inputs: an empty buffer is what the codecs reject. *)
(** ** Streams of received frames *)

Section Streams.
Context `{Ext : External}.
Variable initial_last_timestamp : Z.

(** The timestamp that [image_decode] reads from an envelope. *)
Definition envelope_timestamp (data : Dict) : Value :=
  default (VInt 0) (data !! "timestamp").

(** An error outcome of [image_decode]: it returns [None], the envelope
    with [msg] goes to the error event of the channel, and the decoders are
    as before. *)
Definition rejected_with (fuel : nat) (data : Dict) (event : string)
  (sid : option string) (error_event msg : string) (self : Channels) : Prop :=
  exists self',
    image_decode initial_last_timestamp fuel data event sid self
    = Some (Ok None, self')
    /\ emitted (_sio self')
       = emitted (_sio self)
         ++ [emission self error_event
               (VDict (error_envelope (envelope_timestamp data) msg)) sid]
    /\ _decoders self' = _decoders self.

(** The outcome of the ordering check on a late frame: the error is the
    ordering error. *)
Definition rejected_as_out_of_order (fuel : nat) (data : Dict)
  (event : string) (sid : option string) (error_event : string)
  (last : Value) (self : Channels) : Prop :=
  exists diff,
    py_sub (envelope_timestamp data) last = Ok diff
    /\ rejected_with fuel data event sid error_event
         (older_timestamp_msg (envelope_timestamp data) last diff) self.

(** The ordering check as section 4.5 of the specification words it, for a
    stream whose decoder [dec] is in the registry under [key]: a frame older
    than [last_timestamp] is rejected as out of order, any other frame moves
    [last_timestamp] to its own timestamp. *)
Definition ordering_check (fuel : nat) (data : Dict) (event : string)
  (sid : option string) (error_event : string) (key : string * string)
  (dec : H264Decoder) (self : Channels) : Prop :=
  forall t l,
    as_int (envelope_timestamp data) = Some t ->
    as_int (last_timestamp dec) = Some l ->
    (t < l ->
     rejected_as_out_of_order fuel data event sid error_event
       (last_timestamp dec) self)
    /\ (l <= t ->
        exists r self' dec',
          image_decode initial_last_timestamp fuel data event sid self
          = Some (r, self')
          /\ _decoders self' !! key = Some dec'
          /\ last_timestamp dec' = envelope_timestamp data).

(** A call that ends by raising [e] to its caller. *)
Definition raises {A} (e : Exn) (outcome : option (Result A * Channels))
  : Prop :=
  exists self', outcome = Some (Raise e, self').

(** One event received on the data namespace. *)
Record Call :=
  { call_data : Dict; call_event : string; call_sid : option string }.

(** The handler [image_decode] run on a sequence of events.  An exception
    ends the handling of its event only: the object stays as the method
    left it and the next event is handled. *)
Fixpoint run_image_decode (fuel : nat) (calls : list Call) (self : Channels)
  : option (list (Result (option Dict)) * Channels) :=
  match calls with
  | [] => Some ([], self)
  | c :: calls' =>
      match image_decode initial_last_timestamp fuel (call_data c)
              (call_event c) (call_sid c) self with
      | None => None
      | Some (r, self') =>
          match run_image_decode fuel calls' self' with
          | None => None
          | Some (rs, self'') => Some (r :: rs, self'')
          end
      end
  end.

(** The timestamp of the record that a call returned, if it returned one. *)
Definition returned_timestamp (r : Result (option Dict)) : option Value :=
  match r with
  | Ok (Some decoded_data) => decoded_data !! "timestamp"
  | _ => None
  end.

(** The timestamps of the frames decoded and returned on one stream, in the
    order of the calls. *)
Fixpoint accepted (self : Channels) (key : string * string)
  (calls : list Call) (results : list (Result (option Dict))) : list Value :=
  match calls, results with
  | c :: calls', r :: results' =>
      (if bool_decide (stream_key self (call_event c) (call_sid c) = Some key)
       then match returned_timestamp r with Some v => [v] | None => [] end
       else [])
      ++ accepted self key calls' results'
  | _, _ => []
  end.

(** A sequence of numeric timestamps that never goes down, and starts at
    [lo] or above. *)
Fixpoint ascending_from (lo : Z) (l : list Value) : Prop :=
  match l with
  | [] => True
  | v :: l' => exists t, as_int v = Some t /\ lo <= t /\ ascending_from t l'
  end.

(** [lo] is a lower bound of what the ordering check of a stream will
    accept next: of [last_timestamp] when the decoder exists, of the
    [last_timestamp] of a fresh decoder otherwise. *)
Definition last_timestamp_bound (lo : Z) (key : string * string)
  (self : Channels) : Prop :=
  match _decoders self !! key with
  | Some dec => forall l, as_int (last_timestamp dec) = Some l -> lo <= l
  | None => lo <= initial_last_timestamp
  end.

(** What one call leaves for a stream: a returned record bears a numeric
    timestamp at or above the bound, which becomes the new bound. *)
Definition step_outcome (lo : Z) (key : string * string) (on_stream : bool)
  (r : Result (option Dict)) (self' : Channels) : Prop :=
  if on_stream then
    match returned_timestamp r with
    | Some v =>
        exists t, as_int v = Some t /\ lo <= t
                  /\ last_timestamp_bound t key self'
    | None => last_timestamp_bound lo key self'
    end
  else last_timestamp_bound lo key self'.

(** The timestamps returned on a stream never go down. *)
Definition timestamps_non_decreasing (fuel : nat) (calls : list Call)
  (self : Channels) (key : string * string) : Prop :=
  forall results self',
    run_image_decode fuel calls self = Some (results, self') ->
    exists lo, ascending_from lo (accepted self key calls results).

End Streams.

Arguments send_data : simpl never.
Arguments send_error : simpl never.
Arguments callback_info : simpl never.
Arguments check_timestamp : simpl never.
Arguments decode_frame : simpl never.
Arguments create_encoder : simpl never.
Arguments encode_and_send : simpl never.
Arguments recreate_encoder : simpl never.

Module Demo.

Definition dquote : string := String (Ascii.ascii_of_nat 34) "".

(** The text of [{"x":1}]. *)
Definition json_x1 : string := "{" +:+ dquote +:+ "x" +:+ dquote +:+ ":1}".

Definition open_encoder (w h : Z) (_ : option (gmap string string))
  : Result nat :=
  if (0 <? w) && (0 <? h) then Ok 0%nat
  else Raise (OtherException "invalid geometry").

Definition encode (n : nat) (frame : ndarray)
  : Result (list Byte.byte * bool) * nat :=
  match pixels frame with
  | [] => (Raise (H264EncoderError "empty frame"), n)
  | px => (Ok (px, bool_decide (n = 0%nat)), S n)
  end.

Definition open_decoder (w h : Value) : Result nat :=
  match w, h with
  | VInt w, VInt h =>
      if (0 <? w) && (0 <? h) then Ok 0%nat
      else Raise (OtherException "invalid geometry")
  | _, _ => Raise TypeError
  end.

Definition decode (n : nat) (packet : Value) : Result Value * nat :=
  match packet with
  | VBytes [] => (Raise (H264DecoderError "empty packet"), n)
  | VBytes px => (Ok (VImage {| shape := [1; 1]; pixels := px |}), S n)
  | _ => (Raise TypeError, n)
  end.

Definition imdecode (buf : Value) : Result Value :=
  match buf with
  | VBytes [] => Ok VNone
  | VBytes px => Ok (VImage {| shape := [1; 1]; pixels := px |})
  | _ => Raise TypeError
  end.

Definition dumps (d : Dict) : Result string :=
  if bool_decide (size d = 0%nat) then Ok "{}"
  else match d !! "x" with
       | Some (VInt 1) =>
           if bool_decide (size d = 1%nat) then Ok json_x1
           else Raise (OtherException "unsupported")
       | _ => Raise (OtherException "unsupported")
       end.

Definition loads (b : list Byte.byte) : Result Value :=
  let text := String.string_of_list_byte b in
  if bool_decide (text = "{}") then Ok (VDict ∅)
  else if bool_decide (text = json_x1)
       then Ok (VDict {["x" := VInt 1]})
       else Raise (ValueError "Expected object or value").

(** The stand-in compressor stores the block behind a one-byte header. *)
Definition compress (b : list Byte.byte) : list Byte.byte := Byte.x04 :: b.

Definition decompress (b : list Byte.byte) : Result (list Byte.byte) :=
  match b with
  | Byte.x04 :: raw => Ok raw
  | _ => Raise (OtherException "LZ4F_decompress failed")
  end.

#[export] Instance ext : External :=
  {| NativeEncoder := nat; NativeDecoder := nat;
     av_encoder_open := open_encoder; av_encoder_reopen := fun _ => 0%nat;
     av_encode := encode;
     av_decoder_open := open_decoder; av_decoder_reopen := fun _ => 0%nat;
     av_decode := decode;
     cv2_imencode := fun frame => Ok (pixels frame);
     cv2_imdecode := imdecode;
     lz4_compress := compress; lz4_decompress := decompress;
     ujson_dumps := dumps; ujson_loads := loads |}.

Definition online : ConnStatus :=
  {| connected := true; eio_state := true; reconnect_task := None |}.

(** A connected client with [depth] packets waiting in its queue. *)
Definition client_sio (depth : Z) : Sio :=
  Client {| c_sid := Some "c1"; c_qsize := depth; c_status := fun _ => online;
            c_clock := 0; c_emitted := [] |}.

(** A server with one connected client, sid [s1] on engine socket [e1]. *)
Definition server_sio (depth : Z) : Sio :=
  Server {| s_eio_sid_from_sid := {[("s1", DATA_NAMESPACE) := "e1"]};
            s_sockets := {["e1" := depth]};
            s_is_connected := {[("s1", DATA_NAMESPACE)]};
            s_emitted := [] |}.

Definition callbacks : gmap string CallbackInfo :=
  <["video" := {| type := H264; error_event := "video_error" |}]>
    (<["photo" := {| type := JPEG; error_event := DATA_ERROR_EVENT |}]>
       {["results" :=
           {| type := JSON_LZ4; error_event := DATA_ERROR_EVENT |}]}).

(** [Channels(sio, callbacks, back_pressure_size=5,
    recreate_h264_attempts_count=5)] right after construction. *)
Definition channels (sio : Sio) : Channels :=
  {| _sio := sio; _back_pressure_size := Some 5;
     _recreate_h264_attempts_count := 5; _stats := false; _sizes := [];
     _callbacks_info := callbacks; _decoders := ∅; _encoders := ∅ |}.

Definition frame_640x480 : ndarray :=
  {| shape := [480; 640; 3]; pixels := [Byte.x01; Byte.x02] |}.

Definition empty_frame : ndarray := {| shape := [480; 640; 3]; pixels := [] |}.

Definition small_frame : ndarray :=
  {| shape := [10; 20; 3]; pixels := [Byte.x07] |}.

Definition video_key : string * string := ("c1", "video").

Definition video_info : CallbackInfo :=
  {| type := H264; error_event := "video_error" |}.

(** The encoder of the video stream after its creation for a 640x480 frame,
    and after that frame was encoded. *)
Definition new_encoder : H264Encoder :=
  {| enc_width := 640; enc_height := 480; enc_options := None;
     enc_init_count := 0; enc_keyframe := false; enc_native := 0%nat |}.

Definition used_encoder : H264Encoder :=
  {| enc_width := 640; enc_height := 480; enc_options := None;
     enc_init_count := 0; enc_keyframe := true; enc_native := 1%nat |}.

Definition with_encoder (enc : H264Encoder) (self : Channels) : Channels :=
  set_encoders {[video_key := enc]} self.

(** A decoder of the video stream that last accepted timestamp 5. *)
Definition decoder_at (init_count : Z) : H264Decoder :=
  {| last_timestamp := VInt 5; dec_init_count := init_count;
     dec_native := 0%nat |}.

Definition with_decoder (dec : H264Decoder) (self : Channels) : Channels :=
  set_decoders {[video_key := dec]} self.

(** Envelopes as a peer sends them. *)
Definition video_envelope (timestamp : Z) (packet : list Byte.byte) : Dict :=
  <["timestamp" := VInt timestamp]>
    (<["frame" := VBytes packet]>
       (<["width" := VInt 640]> {["height" := VInt 480]})).

Definition photo_envelope (timestamp : Z) : Dict :=
  <["timestamp" := VInt timestamp]> {["frame" := VBytes [Byte.x01]]}.

Definition received (event : string) (data : Dict) : Call :=
  {| call_data := data; call_event := event; call_sid := None |}.

(** Three video frames, the second one late. *)
Definition video_calls : list Call :=
  [received "video" (video_envelope 5 [Byte.x01]);
   received "video" (video_envelope 3 [Byte.x02]);
   received "video" (video_envelope 7 [Byte.x03])].

(** Two photos, the second one late. *)
Definition photo_calls : list Call :=
  [received "photo" (photo_envelope 5); received "photo" (photo_envelope 3)].

Definition photo : Value :=
  VImage {| shape := [1; 1]; pixels := [Byte.x01] |}.

(** The client after a first [send_image] of a 640x480 frame on the video
    channel. *)
Definition after_first_image : Channels :=
  match send_image 0 0 frame_640x480 "video" H264 (Some 1) None None true true
          None (channels (client_sio 0)) with
  | Some (_, self) => self
  | None => channels (client_sio 0)
  end.

End Demo.

(** * The client side ([client_channels.py])

    [ClientChannels] is [Channels] over a [socketio.Client], with one handler
    per declared event that decodes what arrives and hands it to the callback
    of the channel. *)

Section ClientChannels.
Context `{Ext : External}.
Variable initial_last_timestamp : Z.

#[local] Notation "x <- c ;; k" := (bind c (fun x => k))
  (at level 100, c at next level, right associativity).
#[local] Notation "c ;;; k" := (bind c (fun _ => k))
  (at level 100, right associativity).

(** The [callback] field of [self._callbacks_info[event]], applied to what
    was received: code of the user, which may raise and may use the object. *)
Variable callback : string -> Value -> M unit.

(** [bool(v)], the test of [if decoded_data:].  What is tested is [None], a
    dictionary, or what [ujson.loads] built; no array comes out of either,
    and for one the reading is numpy's: the truth of its only element, false
    when it has none, and [ValueError] when it has several. *)
Definition py_bool (v : Value) : Result bool :=
  match v with
  | VNone => Ok false
  | VBool b => Ok b
  | VInt z => Ok (negb (z =? 0))
  | VStr s => Ok (negb (bool_decide (s = "")))
  | VBytes b => Ok (match b with [] => false | _ => true end)
  | VDict d => Ok (negb (bool_decide (size d = 0%nat)))
  | VImage a =>
      match pixels a with
      | [] => Ok false
      | [b] => Ok (negb (Byte.eqb b Byte.x00))
      | _ =>
          Raise (ValueError
                   ("The truth value of an array with more than one element "
                    +:+ "is ambiguous. Use a.any() or a.all()"))
      end
  end.

(** [Optional[Dict]] as a value. *)
Definition optional_dict (o : option Dict) : Value :=
  match o with
  | Some d => VDict d
  | None => VNone
  end.

(** [ClientChannels.json_callback]. *)
Definition json_callback (data : Value) (event : string) : M unit :=
  callback_info event ;;; callback event data.

(** [ClientChannels.json_lz4_callback]. *)
Definition json_lz4_callback (fuel : nat) (data : Value) (event : string)
  : M unit :=
  decoded_data <- data_lz4_decode fuel data event None ;;
  truth <- lift (py_bool decoded_data) ;;
  if truth then json_callback decoded_data event else ret tt.

(** [ClientChannels.image_callback]. *)
Definition image_callback (fuel : nat) (data : Dict) (event : string)
  : M unit :=
  decoded_data <- image_decode initial_last_timestamp fuel data event None ;;
  truth <- lift (py_bool (optional_dict decoded_data)) ;;
  if truth
  then callback_info event ;;; callback event (optional_dict decoded_data)
  else ret tt.

(** [Channels.data_error_callback]: the message is logged; building it calls
    [get_client_eio_sid]. *)
Definition data_error_callback (data : Value) (sid : option string) : M unit :=
  get_client_eio_sid sid DATA_NAMESPACE ;;; ret tt.

(** The handlers that [ClientChannels.__init__] gives to [sio.on]: the
    lambdas of lines 32, 39, 45 and 51, in this order, the last three with
    the event that they bound as default of [local_event]. *)
Inductive Handler :=
| DataErrorHandler
| JsonHandler (local_event : string)
| JsonLz4Handler (local_event : string)
| ImageHandler (local_event : string).

(** A call of one of these lambdas with the positional arguments [args].
    Python binds the arguments to the parameters by position: [data] (after [sid], for the
    lambda of line 45), then [local_event], whose default is the event; a
    parameter without default that gets no argument, or an argument that
    finds no parameter, raises [TypeError] before the body runs.  The body
    hands the arguments to a method.  The methods are modelled on the types
    that they declare, so there is no result ([None]) for a [local_event]
    that is no [str] and for image data that are no dictionary. *)
Definition call_handler (fuel : nat) (handler : Handler) (args : list Value)
  : option (M unit) :=
  match handler, args with
  | DataErrorHandler, [data] => Some (data_error_callback data None)
  | JsonHandler local_event, [data] => Some (json_callback data local_event)
  | JsonHandler _, [data; VStr local_event] =>
      Some (json_callback data local_event)
  | JsonHandler _, [_; _] => None
  | JsonLz4Handler local_event, [sid; data] =>
      Some (json_lz4_callback fuel data local_event)
  | JsonLz4Handler _, [sid; data; VStr local_event] =>
      Some (json_lz4_callback fuel data local_event)
  | JsonLz4Handler _, [_; _; _] => None
  | ImageHandler local_event, [VDict data] =>
      Some (image_callback fuel data local_event)
  | ImageHandler _, [VDict data; VStr local_event] =>
      Some (image_callback fuel data local_event)
  | ImageHandler _, [_] => None
  | ImageHandler _, [_; _] => None
  | _, _ => Some (raise TypeError)
  end.

(** One turn of the [for] loop of lines 34-55.  [ChannelType] has no other
    member, so the last [else] is never taken. *)
Definition register_handler (event : string) (info : CallbackInfo)
  (handlers : gmap string Handler) : gmap string Handler :=
  match type info with
  | JSON => <[event := JsonHandler event]> handlers
  | JSON_LZ4 => <[event := JsonLz4Handler event]> handlers
  | JPEG | H264 => <[event := ImageHandler event]> handlers
  end.

(** [ClientChannels.__init__]: the object, and the handlers of the data
    namespace by event ([sio.on] replaces the handler of an event that has
    one). *)
Definition ClientChannels_init (c : ClientSio)
  (callbacks_info : gmap string CallbackInfo) (back_pressure_size : option Z)
  (recreate_h264_attempts_count : Z) (stats : bool)
  : Result (Channels * gmap string Handler) :=
  match Channels_init (Client c) callbacks_info back_pressure_size
          recreate_h264_attempts_count stats with
  | Ok self =>
      Ok (self,
          map_fold register_handler {[DATA_ERROR_EVENT := DataErrorHandler]}
            (_callbacks_info self))
  | Raise e => Raise e
  end.

End ClientChannels.

(** ** What the further properties speak about *)

Section Traffic.
Context `{Ext : External}.

(** One turn of the reconnection loop goes on to the next: the client is not
    connected and a reconnection task is alive. *)
Definition waiting (s : ConnStatus) : bool :=
  not_connected s && negb (no_reconnect_task s).

(** The client after [n] seconds of sleep. *)
Definition slept (n : nat) (c : ClientSio) : ClientSio :=
  {| c_sid := c_sid c; c_qsize := c_qsize c; c_status := c_status c;
     c_clock := (c_clock c + n)%nat; c_emitted := c_emitted c |}.

(** The envelope of a JPEG frame, as [send_image] completes it. *)
Definition jpeg_envelope (data : Dict) (frame_encoded : list Byte.byte)
  : Dict :=
  <["frame" := VBytes frame_encoded]> data.

(** The error envelope of [data_lz4_decode]. *)
Definition lz4_error_envelope (e : Exn) : Dict :=
  {["error" := VStr ("Failed to decode LZ4 JSON data: " +:+ py_repr_exn e)]}.

(** What no method changes after the construction. *)
Definition same_configuration (self self' : Channels) : Prop :=
  _back_pressure_size self' = _back_pressure_size self
  /\ _recreate_h264_attempts_count self' = _recreate_h264_attempts_count self
  /\ _stats self' = _stats self
  /\ _callbacks_info self' = _callbacks_info self.

(** What a call of [send_image] leaves behind, whatever its outcome: the
    traffic of the transport, one more size when statistics are kept, and the
    encoder of the stream, created, used or re-initialised. *)
Definition after_send_image (event : string) (channel_type : ChannelType)
  (sid : option string) (self self' : Channels) : Prop :=
  exists sio' sz es,
    self' = set_sio sio' (set_sizes sz (set_encoders es self))
    /\ same_connection (_sio self) sio'
    /\ (sz = _sizes self
        \/ (_stats self = true
            /\ exists b : list Byte.byte,
                 sz = _sizes self ++ [Z.of_nat (length b)]))
    /\ (es = _encoders self
        \/ exists key enc',
             stream_key self event sid = Some key
             /\ es = <[key := enc']> (_encoders self)
             /\ match _encoders self !! key with
                | Some enc =>
                    enc_init_count enc' = enc_init_count enc
                    \/ (enc_init_count enc < _recreate_h264_attempts_count self
                        /\ enc_init_count enc' = enc_init_count enc + 1)
                | None =>
                    channel_type = H264
                    /\ (enc_init_count enc' = 0
                        \/ (0 < _recreate_h264_attempts_count self
                            /\ enc_init_count enc' = 1))
                end).

(** What a call of [image_decode] leaves behind, whatever its outcome: the
    traffic of the transport, and the decoder of the stream, created, used
    or re-initialised, with [last_timestamp] as it was or moved forward to
    the timestamp of the envelope. *)
Definition after_image_decode (initial_last_timestamp : Z) (data : Dict)
  (event : string) (sid : option string) (self self' : Channels) : Prop :=
  exists sio' ds,
    self' = set_sio sio' (set_decoders ds self)
    /\ same_connection (_sio self) sio'
    /\ (ds = _decoders self
        \/ exists key dec dec',
             stream_key self event sid = Some key
             /\ ds = <[key := dec']> (_decoders self)
             /\ match _decoders self !! key with
                | Some dec0 => dec = dec0
                | None =>
                    last_timestamp dec = VInt initial_last_timestamp
                    /\ dec_init_count dec = 0
                    /\ exists info, _callbacks_info self !! event = Some info
                                    /\ type info = H264
                end
             /\ (last_timestamp dec' = last_timestamp dec
                 \/ (last_timestamp dec' = default (VInt 0) (data !! "timestamp")
                     /\ exists diff,
                          py_sub (default (VInt 0) (data !! "timestamp"))
                            (last_timestamp dec) = Ok diff
                          /\ 0 <= diff))
             /\ (dec_init_count dec' = dec_init_count dec
                 \/ (dec_init_count dec < _recreate_h264_attempts_count self
                     /\ dec_init_count dec' = dec_init_count dec + 1))).

(** The numeric [last_timestamp] of every decoder of [self] is still there in
    [self'], and not lower. *)
Definition last_timestamps_kept (self self' : Channels) : Prop :=
  forall key dec l,
    _decoders self !! key = Some dec ->
    as_int (last_timestamp dec) = Some l ->
    exists dec' l',
      _decoders self' !! key = Some dec'
      /\ as_int (last_timestamp dec') = Some l' /\ l <= l'.

(** Every decoder belongs to an event declared as H.264. *)
Definition decoders_of_h264_only (self : Channels) : Prop :=
  forall key,
    is_Some (_decoders self !! key) ->
    exists info, _callbacks_info self !! key.2 = Some info /\ type info = H264.

(** No codec of the object was re-initialised more often than the ceiling
    allows. *)
Definition recreations_bounded (self : Channels) : Prop :=
  (forall key dec, _decoders self !! key = Some dec ->
                   dec_init_count dec <= _recreate_h264_attempts_count self)
  /\ (forall key enc, _encoders self !! key = Some enc ->
                      enc_init_count enc <= _recreate_h264_attempts_count self).

End Traffic.

(** ** Sequences of calls *)

Section Invocations.
Context `{Ext : External}.
Variable initial_last_timestamp : Z.

(** One call of a public method of [Channels], with its arguments
    ([perf_counter_ns] is the clock that [send_image] reads). *)
Inductive Invocation :=
| SendData (data : Dict) (event : string) (channel_type : ChannelType)
    (sid : option string) (can_be_dropped wait_for_reconnection : bool)
| SendImage (perf_counter_ns : Z) (frame : ndarray) (event : string)
    (channel_type : ChannelType) (timestamp : option Z)
    (metadata : option Dict) (sid : option string)
    (can_be_dropped wait_for_reconnection : bool)
    (encoding_options : option (gmap string string))
| ImageDecode (data : Dict) (event : string) (sid : option string)
| DataLz4Decode (data : Value) (event : string) (sid : option string).

(** The object after the call, whether the call returned or raised. *)
Definition invoke (fuel : nat) (i : Invocation) (self : Channels)
  : option Channels :=
  match i with
  | SendData data event channel_type sid can_be_dropped
      wait_for_reconnection =>
      snd <$> send_data fuel data event channel_type sid can_be_dropped
                wait_for_reconnection self
  | SendImage perf_counter_ns frame event channel_type timestamp metadata sid
      can_be_dropped wait_for_reconnection encoding_options =>
      snd <$> send_image fuel perf_counter_ns frame event channel_type
                timestamp metadata sid can_be_dropped wait_for_reconnection
                encoding_options self
  | ImageDecode data event sid =>
      snd <$> image_decode initial_last_timestamp fuel data event sid self
  | DataLz4Decode data event sid =>
      snd <$> data_lz4_decode fuel data event sid self
  end.

(** A sequence of calls on one object: a caller that catches what a call
    raises and goes on with the next. *)
Fixpoint invoke_all (fuel : nat) (calls : list Invocation) (self : Channels)
  : option Channels :=
  match calls with
  | [] => Some self
  | i :: calls' =>
      match invoke fuel i self with
      | Some self' => invoke_all fuel calls' self'
      | None => None
      end
  end.

End Invocations.

(** ** More concrete inputs *)

Module Scene.

(** The object and the result that a call left. *)
Definition after {A} (outcome : option (Result A * Channels (Ext := Demo.ext)))
  (otherwise : Channels (Ext := Demo.ext)) : Channels (Ext := Demo.ext) :=
  match outcome with
  | Some (_, self) => self
  | None => otherwise
  end.

Definition result_of {A}
  (outcome : option (Result A * Channels (Ext := Demo.ext)))
  (otherwise : Result A) : Result A :=
  match outcome with
  | Some (r, _) => r
  | None => otherwise
  end.

(** A client that lost its connection and gets it back [n] seconds later. *)
Definition reconnecting : ConnStatus :=
  {| connected := false; eio_state := false; reconnect_task := Some true |}.

Definition client_back_after (n : nat) : ClientSio :=
  {| c_sid := Some "c1"; c_qsize := 0;
     c_status := fun t => if (t <? n)%nat then reconnecting else Demo.online;
     c_clock := 0; c_emitted := [] |}.

Definition client : ClientSio :=
  {| c_sid := Some "c1"; c_qsize := 0; c_status := fun _ => Demo.online;
     c_clock := 0; c_emitted := [] |}.

(** The object of [Demo.channels] with statistics on. *)
Definition counting (sio : Sio) : Channels (Ext := Demo.ext) :=
  {| _sio := sio; _back_pressure_size := Some 5;
     _recreate_h264_attempts_count := 5; _stats := true; _sizes := [];
     _callbacks_info := Demo.callbacks; _decoders := ∅; _encoders := ∅ |}.

Definition photo_key : string * string := ("c1", "photo").

Definition photo_info : CallbackInfo :=
  {| type := JPEG; error_event := DATA_ERROR_EVENT |}.

Definition results_info : CallbackInfo :=
  {| type := JSON_LZ4; error_event := DATA_ERROR_EVENT |}.

(** A video envelope whose timestamp is a text. *)
Definition misdated_envelope : Dict :=
  <["timestamp" := VStr "late"]> (Demo.video_envelope 0 [Byte.x01]).

(** The client with a decoder on the video stream that last took
    timestamp 5. *)
Definition watching : Channels (Ext := Demo.ext) :=
  Demo.with_decoder (Demo.decoder_at 0) (Demo.channels (Demo.client_sio 0)).

(** A frame received, then a result sent. *)
Definition some_calls : list Invocation :=
  [ImageDecode (Demo.video_envelope 7 [Byte.x03]) "video" None;
   SendData {["x" := VInt 1]} "results" JSON_LZ4 None false true;
   SendImage 0 Demo.frame_640x480 "video" H264 (Some 1) None None true true
     None;
   DataLz4Decode (VBytes [Byte.x00]) "results" None].

(** A callback that does nothing. *)
Definition ignore (event : string) (data : Value) : M (Ext := Demo.ext) unit :=
  ret tt.

(** The handlers of a client constructed on the channels of [Demo]. *)
Definition handlers : gmap string Handler :=
  match ClientChannels_init (Ext := Demo.ext) client Demo.callbacks (Some 5) 5
          false with
  | Ok (_, h) => h
  | Raise _ => ∅
  end.

(** The LZ4 frame of the text of [{"x":1}]. *)
Definition results_frame : list Byte.byte :=
  Demo.compress (utf8 Demo.json_x1).

End Scene.

(** * Properties *)

Section Properties.
Context `{Ext : External}.
Variable initial_last_timestamp : Z.

#[local] Abbreviation image_decode := (image_decode initial_last_timestamp).
#[local] Abbreviation rejected_with := (rejected_with initial_last_timestamp).
#[local] Abbreviation rejected_as_out_of_order :=
  (rejected_as_out_of_order initial_last_timestamp).
#[local] Abbreviation ordering_check := (ordering_check initial_last_timestamp).
#[local] Abbreviation last_timestamp_bound :=
  (last_timestamp_bound initial_last_timestamp).
#[local] Abbreviation step_outcome := (step_outcome initial_last_timestamp).
#[local] Abbreviation run_image_decode :=
  (run_image_decode initial_last_timestamp).
#[local] Abbreviation timestamps_non_decreasing :=
  (timestamps_non_decreasing initial_last_timestamp).

(** Decides the tests on channel types that are known. *)
Ltac types :=
  repeat match goal with
    | |- context [bool_decide (?a = ?b)] =>
        is_constructor a; is_constructor b;
        let v := eval vm_compute in (bool_decide (a = b)) in
        change (bool_decide (a = b)) with v
    end.

(** Unfolds the monad at the head of a goal. *)
Ltac run :=
  repeat (types; unfold bind, ret, raise, lift, get, modify, try_except; cbn).

(** ** The constructor *)

(** A constructed object has a threshold of at least one, or none, and no
    encoder or decoder yet. *)
Lemma Channels_init_ok (sio : Sio) (callbacks_info : gmap string CallbackInfo)
  (back_pressure_size : option Z) (recreate_h264_attempts_count : Z)
  (stats : bool) (self : Channels) :
  Channels_init sio callbacks_info back_pressure_size
    recreate_h264_attempts_count stats = Ok self ->
  _back_pressure_size self = back_pressure_size
  /\ (forall size, back_pressure_size = Some size -> 1 <= size)
  /\ _decoders self = ∅ /\ _encoders self = ∅.
Proof.
  unfold Channels_init. destruct back_pressure_size as [n|].
  - destruct (n <? 1) eqn:Hn; [discriminate|]. intros [= <-]. cbn.
    repeat split; auto. intros size [= <-]. lia.
  - intros [= <-]. cbn. repeat split; auto. discriminate.
Qed.

(** ** The reconnection loop *)

Lemma wait_for_reconnection_loop_mono (fuel fuel' : nat) (c c' : ClientSio) :
  wait_for_reconnection_loop fuel c = Some c' ->
  (fuel <= fuel')%nat ->
  wait_for_reconnection_loop fuel' c = Some c'.
Proof.
  revert fuel' c. induction fuel as [|fuel IH]; intros fuel' c Hw Hle.
  - destruct fuel'; cbn in *;
      destruct (not_connected _); try destruct (no_reconnect_task _);
      congruence.
  - destruct fuel' as [|fuel']; [lia|]. cbn in *.
    destruct (not_connected _); [|exact Hw].
    destruct (no_reconnect_task _); [exact Hw|].
    apply IH; [exact Hw | lia].
Qed.

Lemma wait_for_reconnection_loop_emitted (fuel : nat) (c c' : ClientSio) :
  wait_for_reconnection_loop fuel c = Some c' ->
  c_emitted c' = c_emitted c /\ c_sid c' = c_sid c /\ c_qsize c' = c_qsize c
  /\ c_status c' = c_status c.
Proof.
  revert c. induction fuel as [|fuel IH]; intros c; cbn;
    destruct (not_connected _); try destruct (no_reconnect_task _);
    intros Hw; try (injection Hw as <-; auto); try discriminate.
  apply IH in Hw. cbn in Hw. exact Hw.
Qed.

(** ** Back-pressure *)

Lemma get_client_eio_sid_eq (self : Channels) (event : string)
  (sid : option string) :
  get_client_eio_sid sid DATA_NAMESPACE self =
  match stream_key self event sid with
  | Some key => Some (Ok key.1, self)
  | None => Some (Raise (ValueError "'sid' has to be set for server."), self)
  end.
Proof.
  unfold get_client_eio_sid, stream_key. run.
  destruct (_sio self); [reflexivity|]. destruct sid; reflexivity.
Qed.

(** The check, case by case. *)
Lemma back_pressure_check_eq (self : Channels) (sid : option string)
  (can_be_dropped : bool) :
  back_pressure_check sid can_be_dropped self =
  match _back_pressure_size self, can_be_dropped with
  | Some size, true =>
      match queue_depth self sid with
      | Some q =>
          Some (if q >? size then Raise BackPressureException else Ok tt, self)
      | None =>
          Some (Raise (match sid with
                       | None => ValueError "'sid' has to be set for server."
                       | Some _ => KeyError
                       end), self)
      end
  | _, _ => Some (Ok tt, self)
  end.
Proof.
  destruct self as [sio [size|] n st sz cb ds es];
    destruct can_be_dropped; try reflexivity.
  unfold back_pressure_check, _apply_back_pressure, queue_depth,
    get_client_eio_sid. run.
  destruct sio as [c|s]; cbn.
  - destruct (c_qsize c >? size); reflexivity.
  - destruct sid as [x|]; [|reflexivity]. cbn.
    destruct (s_sockets s !! _) as [q|]; [|reflexivity].
    destruct (q >? size); reflexivity.
Qed.

(** The check reads the object and leaves it as it is. *)
Lemma back_pressure_check_state (self self' : Channels) (sid : option string)
  (can_be_dropped : bool) (r : Result unit) :
  back_pressure_check sid can_be_dropped self = Some (r, self') -> self' = self.
Proof.
  rewrite back_pressure_check_eq.
  repeat case_match; intros [= _ <-]; reflexivity.
Qed.

Lemma valid_json_type (channel_type : ChannelType) :
  channel_type = JSON \/ channel_type = JSON_LZ4 ->
  negb (bool_decide (channel_type = JSON))
  && negb (bool_decide (channel_type = JSON_LZ4)) = false.
Proof. intros [-> | ->]; reflexivity. Qed.

(** [send_data] on a channel type it accepts: the check, the payload, the
    emit. *)
Lemma send_data_eq (fuel : nat) (self : Channels) (data : Dict)
  (event : string) (channel_type : ChannelType) (sid : option string)
  (can_be_dropped wait_for_reconnection : bool) :
  channel_type = JSON \/ channel_type = JSON_LZ4 ->
  send_data fuel data event channel_type sid can_be_dropped
    wait_for_reconnection self =
  match back_pressure_check sid can_be_dropped self with
  | Some (Ok _, _) =>
      match encode_payload data channel_type with
      | Ok payload =>
          emit_data fuel event payload sid wait_for_reconnection self
      | Raise e => Some (Raise e, self)
      end
  | Some (Raise e, _) => Some (Raise e, self)
  | None => None
  end.
Proof.
  intros Hct. unfold send_data. rewrite (valid_json_type _ Hct).
  unfold bind at 1.
  destruct (back_pressure_check sid can_be_dropped self)
    as [[[[]|e] self1]|] eqn:Ha;
    try reflexivity.
  - apply back_pressure_check_state in Ha as ->. run.
    destruct (encode_payload data channel_type); reflexivity.
  - apply back_pressure_check_state in Ha as ->. reflexivity.
Qed.

(** An emit on a ready transport adds one emission and nothing else. *)
Lemma emit_data_ready (fuel : nat) (self : Channels) (event : string)
  (payload : Value) (sid : option string) (wait_for_reconnection : bool) :
  transport_ready fuel wait_for_reconnection sid self = true ->
  exists self',
    emit_data fuel event payload sid wait_for_reconnection self
    = Some (Ok tt, self')
    /\ emitted (_sio self')
       = emitted (_sio self) ++ [emission self event payload sid]
    /\ _decoders self' = _decoders self
    /\ _encoders self' = _encoders self.
Proof.
  unfold transport_ready, emit_data, emission.
  destruct (_sio self) as [c|s].
  - destruct wait_for_reconnection.
    + intros Hr. apply bool_decide_eq_true in Hr. destruct Hr as [c' Hc'].
      rewrite Hc'. eexists. split; [reflexivity|]. cbn.
      apply wait_for_reconnection_loop_emitted in Hc' as (-> & _). auto.
    + intros _. eexists. split; [reflexivity|]. cbn. auto.
  - destruct sid as [x|]; [|discriminate]. intros ->.
    eexists. split; [reflexivity|]. cbn. auto.
Qed.

Lemma same_connection_refl (s : Sio) : same_connection s s.
Proof. destruct s; cbn; auto. Qed.

Lemma same_connection_trans (s1 s2 s3 : Sio) :
  same_connection s1 s2 -> same_connection s2 s3 -> same_connection s1 s3.
Proof.
  destruct s1, s2, s3; cbn; try tauto.
  - intros [-> ->] [-> ->]. auto.
  - congruence.
Qed.

Lemma stream_key_same_connection (self self' : Channels) (event : string)
  (sid : option string) :
  same_connection (_sio self) (_sio self') ->
  stream_key self' event sid = stream_key self event sid.
Proof.
  unfold stream_key, same_connection.
  destruct (_sio self), (_sio self'); try tauto.
  - intros [-> _]. reflexivity.
  - intros ->. reflexivity.
Qed.

(** [emit_data] changes the traffic of the transport and nothing else. *)
Lemma emit_data_frame (fuel : nat) (self self' : Channels) (event : string)
  (payload : Value) (sid : option string) (wait_for_reconnection : bool)
  (r : Result unit) :
  emit_data fuel event payload sid wait_for_reconnection self = Some (r, self')
  -> exists sio', self' = set_sio sio' self /\ same_connection (_sio self) sio'.
Proof.
  unfold emit_data. destruct self as [sio bp n st sz cb ds es]. cbn.
  destruct sio as [c|s].
  - destruct (if wait_for_reconnection then _ else _) as [c'|] eqn:Hw;
      [|discriminate].
    intros [= <- <-]. eexists. split; [reflexivity|]. cbn.
    destruct wait_for_reconnection.
    + apply wait_for_reconnection_loop_emitted in Hw. tauto.
    + injection Hw as <-. auto.
  - destruct sid as [x|].
    + destruct (bool_decide _); intros [= <- <-]; eexists;
        (split; [reflexivity|]); reflexivity.
    + intros [= <- <-]. eexists. split; reflexivity.
Qed.

Lemma send_data_frame (fuel : nat) (self self' : Channels) (data : Dict)
  (event : string) (channel_type : ChannelType) (sid : option string)
  (can_be_dropped wait_for_reconnection : bool) (r : Result unit) :
  send_data fuel data event channel_type sid can_be_dropped
    wait_for_reconnection self = Some (r, self')
  -> exists sio', self' = set_sio sio' self /\ same_connection (_sio self) sio'.
Proof.
  assert (exists sio', self = set_sio sio' self
                       /\ same_connection (_sio self) sio') as Hself.
  { exists (_sio self). split; [destruct self; reflexivity|].
    apply same_connection_refl. }
  destruct (decide (channel_type = JSON \/ channel_type = JSON_LZ4))
    as [Hct|Hct].
  - rewrite (send_data_eq _ _ _ _ _ _ _ _ Hct).
    destruct (back_pressure_check _ _ _) as [[[[]|e] self1]|]; try discriminate.
    + destruct (encode_payload _ _).
      * apply emit_data_frame.
      * intros [= <- <-]. exact Hself.
    + intros [= <- <-]. exact Hself.
  - unfold send_data.
    destruct channel_type; try (exfalso; apply Hct; auto; fail);
      cbn; intros [= <- <-]; exact Hself.
Qed.

(** A send of plain JSON never raises [H264EncoderError]. *)
Lemma send_data_no_encoder_error (fuel : nat) (self self' : Channels)
  (data : Dict) (event : string) (sid : option string)
  (can_be_dropped wait_for_reconnection : bool) (e : Exn) :
  send_data fuel data event JSON sid can_be_dropped wait_for_reconnection self
  = Some (Raise e, self') ->
  is_H264EncoderError e = false.
Proof.
  rewrite send_data_eq by auto. rewrite back_pressure_check_eq. cbn.
  unfold emit_data.
  repeat case_match; intros [= <- <-]; try reflexivity; try discriminate.
  all: repeat case_match; try discriminate; simplify_eq; reflexivity.
Qed.

(** ** [send_image] on an H.264 channel *)

Lemma stream_key_event (self : Channels) (event : string)
  (sid : option string) (key : string * string) :
  stream_key self event sid = Some key -> key = (key.1, event).
Proof.
  unfold stream_key. destruct (_sio self); [|destruct sid];
    intros [= <-]; reflexivity.
Qed.

(** [create_encoder] touches the registry of encoders only. *)
Lemma create_encoder_frame (self self' : Channels) (frame : ndarray)
  (key : string * string) (options : option (gmap string string))
  (r : Result unit) :
  create_encoder frame key options self = Some (r, self') ->
  exists es, self' = set_encoders es self.
Proof.
  unfold create_encoder. run.
  destruct (_encoders self !! key).
  - intros [= <- <-]. exists (_encoders self). destruct self; reflexivity.
  - destruct (shape frame !! 1%nat), (shape frame !! 0%nat);
      try (intros [= <- <-]; exists (_encoders self); destruct self;
           reflexivity).
    destruct (H264Encoder_new _ _ _); cbn; intros [= <- <-].
    + eexists. reflexivity.
    + exists (_encoders self). destruct self; reflexivity.
Qed.

Lemma send_image_H264_eq (fuel : nat) (perf_counter_ns : Z) (self : Channels)
  (frame : ndarray) (event : string) (timestamp : option Z)
  (metadata : option Dict) (sid : option string)
  (can_be_dropped wait_for_reconnection : bool)
  (options : option (gmap string string)) (key : string * string) :
  stream_key self event sid = Some key ->
  send_image fuel perf_counter_ns frame event H264 timestamp metadata sid
    can_be_dropped wait_for_reconnection options self =
  match create_encoder frame key options self with
  | Some (Ok _, self1) =>
      try_except
        (encode_and_send fuel frame event H264
           (envelope_head perf_counter_ns timestamp metadata) sid
           can_be_dropped key)
        is_H264EncoderError (recreate_encoder key) self1
  | Some (Raise e, self1) => Some (Raise e, self1)
  | None => None
  end.
Proof.
  intros Hkey. unfold send_image. types. cbv beta iota.
  unfold negb, andb. unfold bind at 1.
  rewrite (get_client_eio_sid_eq self event), Hkey.
  rewrite <- (stream_key_event _ _ _ _ Hkey).
  unfold bind. destruct (create_encoder _ _ _ _) as [[[[]|e] self1]|];
    reflexivity.
Qed.

Lemma encode_and_send_H264_eq (fuel : nat) (self : Channels) (frame : ndarray)
  (event : string) (data : Dict) (sid : option string) (can_be_dropped : bool)
  (key : string * string) (enc : H264Encoder) :
  _encoders self !! key = Some enc ->
  encode_and_send fuel frame event H264 data sid can_be_dropped key self =
  let self' :=
    set_encoders (<[key := (encode_ndarray enc frame).2]> (_encoders self))
      self in
  match (encode_ndarray enc frame).1 with
  | Ok frame_encoded =>
      send_data fuel
        (h264_envelope data (encode_ndarray enc frame).2 frame_encoded)
        event JSON sid
        (can_be_dropped && negb (enc_keyframe (encode_ndarray enc frame).2))
        true (record_size frame_encoded self')
  | Raise e => Some (Raise e, self')
  end.
Proof.
  intros Henc. unfold encode_and_send, encode_frame. run.
  rewrite Henc. destruct (encode_ndarray enc frame) as [[b|e] enc']; cbn;
    [|reflexivity].
  unfold record_size, h264_envelope. cbn.
  destruct (_stats self); reflexivity.
Qed.

Lemma encode_ndarray_geometry (enc : H264Encoder) (frame : ndarray) :
  enc_width (encode_ndarray enc frame).2 = enc_width enc
  /\ enc_height (encode_ndarray enc frame).2 = enc_height enc
  /\ enc_options (encode_ndarray enc frame).2 = enc_options enc
  /\ enc_init_count (encode_ndarray enc frame).2 = enc_init_count enc.
Proof.
  unfold encode_ndarray.
  destruct (av_encode (enc_native enc) frame) as [[[b kf]|e] n]; cbn; auto.
Qed.

(** With the key in the registry, lines 168-175 do nothing. *)
Lemma create_encoder_existing (self : Channels) (frame : ndarray)
  (key : string * string) (options : option (gmap string string))
  (enc : H264Encoder) :
  _encoders self !! key = Some enc ->
  create_encoder frame key options self = Some (Ok tt, self).
Proof. intros Henc. unfold create_encoder. run. rewrite Henc. reflexivity. Qed.

(** Without the key, they either raise and leave the registry as it is, or
    store an adapter built from the shape of the frame and the options. *)
Lemma create_encoder_fresh (self self' : Channels) (frame : ndarray)
  (key : string * string) (options : option (gmap string string))
  (r : Result unit) :
  _encoders self !! key = None ->
  create_encoder frame key options self = Some (r, self') ->
  (self' = self /\ exists e, r = Raise e)
  \/ (exists enc,
        self' = set_encoders (<[key := enc]> (_encoders self)) self
        /\ r = Ok tt
        /\ shape frame !! 1%nat = Some (enc_width enc)
        /\ shape frame !! 0%nat = Some (enc_height enc)
        /\ enc_options enc = options).
Proof.
  intros Hnone. unfold create_encoder. run. rewrite Hnone.
  destruct (shape frame !! 1%nat) as [w|]; [|intros [= <- <-]; eauto].
  destruct (shape frame !! 0%nat) as [h|]; [|intros [= <- <-]; eauto].
  unfold H264Encoder_new.
  destruct (av_encoder_open w h options) as [n|e]; cbn; intros [= <- <-].
  - right. eexists. repeat split; reflexivity.
  - left. eauto.
Qed.

(** Lines 176-206 keep the geometry and the options of the stored adapter. *)
Lemma encode_and_send_geometry (fuel : nat) (self self' : Channels)
  (frame : ndarray) (event : string) (data : Dict) (sid : option string)
  (can_be_dropped : bool) (key : string * string) (enc : H264Encoder)
  (r : Result unit) :
  _encoders self !! key = Some enc ->
  try_except (encode_and_send fuel frame event H264 data sid can_be_dropped key)
    is_H264EncoderError (recreate_encoder key) self = Some (r, self') ->
  same_connection (_sio self) (_sio self')
  /\ exists enc', _encoders self' !! key = Some enc'
                  /\ enc_width enc' = enc_width enc
                  /\ enc_height enc' = enc_height enc
                  /\ enc_options enc' = enc_options enc.
Proof.
  intros Henc. unfold try_except.
  rewrite (encode_and_send_H264_eq _ _ _ _ _ _ _ _ _ Henc). cbv zeta.
  destruct (encode_ndarray_geometry enc frame) as (Hw & Hh & Ho & _).
  set (enc1 := (encode_ndarray enc frame).2) in *.
  destruct ((encode_ndarray enc frame).1) as [b|e].
  - destruct (send_data _ _ _ _ _ _ _ _) as [[[[]|e] self1]|] eqn:Hs;
      [| |discriminate].
    + intros [= <- <-]. apply send_data_frame in Hs as (sio' & -> & Hc).
      split.
      * unfold record_size in *. destruct (_stats _); exact Hc.
      * exists enc1. split; [|auto].
        unfold record_size. destruct (_stats _); cbn;
          apply lookup_insert_eq.
    + rewrite (send_data_no_encoder_error _ _ _ _ _ _ _ _ _ Hs).
      intros [= <- <-]. apply send_data_frame in Hs as (sio' & -> & Hc).
      split.
      * unfold record_size in *. destruct (_stats _); exact Hc.
      * exists enc1. split; [|auto].
        unfold record_size. destruct (_stats _); cbn;
          apply lookup_insert_eq.
  - destruct (is_H264EncoderError e).
    + unfold recreate_encoder. run. rewrite lookup_insert_eq.
      destruct (enc_init_count enc1 <? _); cbn; intros [= <- <-]; cbn.
      * split; [apply same_connection_refl|].
        eexists. split; [apply lookup_insert_eq|]. cbn. auto.
      * split; [apply same_connection_refl|].
        exists enc1. split; [apply lookup_insert_eq|]. auto.
    + intros [= <- <-]. cbn. split; [apply same_connection_refl|].
      exists enc1. split; [apply lookup_insert_eq|]. auto.
Qed.

(** C1, as the code has it: a droppable send over the threshold emits
    nothing, leaves the object as it was, and raises [BackPressureException]
    to the caller of [send_data]. *)
Theorem send_data_back_pressure_raises (fuel : nat) (self : Channels)
  (data : Dict) (event : string) (channel_type : ChannelType)
  (sid : option string) (wait_for_reconnection : bool) (size q : Z) :
  channel_type = JSON \/ channel_type = JSON_LZ4 ->
  _back_pressure_size self = Some size ->
  queue_depth self sid = Some q ->
  size < q ->
  send_data fuel data event channel_type sid true wait_for_reconnection self
  = Some (Raise BackPressureException, self).
Proof.
  intros Hct Hsize Hq Hlt. rewrite (send_data_eq _ _ _ _ _ _ _ _ Hct).
  rewrite back_pressure_check_eq, Hsize, Hq.
  assert ((q >? size) = true) as Hcmp by lia. rewrite Hcmp. reflexivity.
Qed.

(** C6: on a ready transport, [send_data] emits the payload exactly when
    back-pressure is off, the send is not droppable, or the queue is not
    deeper than the threshold; it raises [BackPressureException], with
    nothing emitted, exactly when a droppable send meets a queue strictly
    deeper than the threshold; in particular a send that is not droppable
    is emitted whatever the depth of the queue. *)
Theorem back_pressure_admission (fuel : nat) (self : Channels) (data : Dict)
  (event : string) (channel_type : ChannelType) (sid : option string)
  (can_be_dropped wait_for_reconnection : bool) (payload : Value) :
  channel_type = JSON \/ channel_type = JSON_LZ4 ->
  encode_payload data channel_type = Ok payload ->
  transport_ready fuel wait_for_reconnection sid self = true ->
  let outcome :=
    send_data fuel data event channel_type sid can_be_dropped
      wait_for_reconnection self in
  let sent :=
    exists self',
      outcome = Some (Ok tt, self')
      /\ emitted (_sio self')
         = emitted (_sio self) ++ [emission self event payload sid] in
  (sent <->
   _back_pressure_size self = None \/ can_be_dropped = false \/
   exists size q, _back_pressure_size self = Some size
                  /\ queue_depth self sid = Some q /\ q <= size)
  /\ (outcome = Some (Raise BackPressureException, self)
      <-> exists size q, _back_pressure_size self = Some size
                         /\ can_be_dropped = true
                         /\ queue_depth self sid = Some q /\ size < q)
  /\ (can_be_dropped = false -> sent).
Proof.
  intros Hct Hpay Hready outcome sent.
  destruct (emit_data_ready fuel self event payload sid wait_for_reconnection
              Hready) as (self1 & Hemit & Hem & _).
  assert (forall r, back_pressure_check sid can_be_dropped self
                    = Some (r, self) ->
                    outcome = match r with
                              | Ok _ => Some (Ok tt, self1)
                              | Raise e => Some (Raise e, self)
                              end) as Hout.
  { intros r Hcheck. unfold outcome.
    rewrite (send_data_eq _ _ _ _ _ _ _ _ Hct), Hcheck.
    destruct r as [[]|e]; [|reflexivity]. rewrite Hpay. exact Hemit. }
  assert (back_pressure_check sid can_be_dropped self = Some (Ok tt, self) ->
          sent) as Hsent.
  { intros Hcheck. exists self1. rewrite (Hout _ Hcheck). auto. }
  rewrite back_pressure_check_eq in Hout, Hsent.
  split; [|split].
  - split.
    + intros (self' & Hok & _). revert Hout Hok.
      destruct (_back_pressure_size self) as [size|]; [|auto].
      destruct can_be_dropped; [|auto].
      destruct (queue_depth self sid) as [q|].
      * destruct (q >? size) eqn:Hcmp; intros Hout Hok.
        -- rewrite (Hout _ eq_refl) in Hok. discriminate.
        -- right; right. exists size, q. repeat split; auto. lia.
      * intros Hout Hok. rewrite (Hout _ eq_refl) in Hok. discriminate.
    + intros Hadm. apply Hsent.
      destruct Hadm as [-> | [-> | (size & q & -> & -> & Hle)]].
      * reflexivity.
      * destruct (_back_pressure_size self); reflexivity.
      * destruct can_be_dropped; [|reflexivity].
        assert ((q >? size) = false) as Hcmp by lia. rewrite Hcmp. reflexivity.
  - split.
    + revert Hout.
      destruct (_back_pressure_size self) as [size|];
        [|intros Hout Hraise; rewrite (Hout _ eq_refl) in Hraise;
          discriminate].
      destruct can_be_dropped;
        [|intros Hout Hraise; rewrite (Hout _ eq_refl) in Hraise;
          discriminate].
      destruct (queue_depth self sid) as [q|].
      * destruct (q >? size) eqn:Hcmp; intros Hout Hraise.
        -- exists size, q. repeat split; auto. lia.
        -- rewrite (Hout _ eq_refl) in Hraise. discriminate.
      * intros Hout Hraise. rewrite (Hout _ eq_refl) in Hraise.
        destruct sid; discriminate.
    + intros (size & q & Hsize & -> & Hq & Hlt). unfold outcome.
      rewrite (send_data_eq _ _ _ _ _ _ _ _ Hct).
      rewrite back_pressure_check_eq, Hsize, Hq.
      assert ((q >? size) = true) as Hcmp by lia. rewrite Hcmp. reflexivity.
  - intros ->. apply Hsent.
    destruct (_back_pressure_size self); reflexivity.
Qed.

(** C5: when the encoder reports a keyframe, [send_image] hands the
    envelope to [send_data] with [can_be_dropped] false whatever the caller
    asked for, the envelope carries [h264 = True] and the width and height of
    the encoder, and on a ready transport it is emitted whatever the depth of
    the queue. *)
Theorem send_image_keyframe_never_droppable (fuel : nat) (perf_counter_ns : Z)
  (self self1 : Channels) (frame : ndarray) (event : string)
  (timestamp : option Z) (metadata : option Dict) (sid : option string)
  (can_be_dropped wait_for_reconnection : bool)
  (options : option (gmap string string)) (key : string * string)
  (enc : H264Encoder) (frame_encoded : list Byte.byte) :
  stream_key self event sid = Some key ->
  create_encoder frame key options self = Some (Ok tt, self1) ->
  _encoders self1 !! key = Some enc ->
  (encode_ndarray enc frame).1 = Ok frame_encoded ->
  enc_keyframe (encode_ndarray enc frame).2 = true ->
  let envelope :=
    h264_envelope (envelope_head perf_counter_ns timestamp metadata)
      (encode_ndarray enc frame).2 frame_encoded in
  send_image fuel perf_counter_ns frame event H264 timestamp metadata sid
    can_be_dropped wait_for_reconnection options self
  = send_data fuel envelope event JSON sid false true
      (record_size frame_encoded
         (set_encoders
            (<[key := (encode_ndarray enc frame).2]> (_encoders self1)) self1))
  /\ envelope !! "h264" = Some (VBool true)
  /\ envelope !! "width" = Some (VInt (enc_width enc))
  /\ envelope !! "height" = Some (VInt (enc_height enc))
  /\ (transport_ready fuel true sid self = true ->
      exists self',
        send_image fuel perf_counter_ns frame event H264 timestamp metadata
          sid can_be_dropped wait_for_reconnection options self
        = Some (Ok tt, self')
        /\ emitted (_sio self')
           = emitted (_sio self) ++ [emission self event (VDict envelope) sid]).
Proof.
  intros Hkey Hcreate Henc Hres Hkf envelope.
  destruct (encode_ndarray_geometry enc frame) as (Hw & Hh & _).
  assert (send_image fuel perf_counter_ns frame event H264 timestamp metadata
            sid can_be_dropped wait_for_reconnection options self
          = send_data fuel envelope event JSON sid false true
              (record_size frame_encoded
                 (set_encoders
                    (<[key := (encode_ndarray enc frame).2]> (_encoders self1))
                    self1))) as Heq.
  { rewrite (send_image_H264_eq _ _ _ _ _ _ _ _ _ _ _ _ Hkey), Hcreate.
    unfold try_except.
    rewrite (encode_and_send_H264_eq _ _ _ _ _ _ _ _ _ Henc). cbv zeta.
    rewrite Hres, Hkf. cbn [negb]. rewrite andb_false_r.
    fold envelope.
    destruct (send_data _ _ _ _ _ _ _ _) as [[[[]|e] self2]|] eqn:Hs;
      try reflexivity.
    rewrite (send_data_no_encoder_error _ _ _ _ _ _ _ _ _ Hs). reflexivity. }
  split; [exact Heq|].
  split.
  { unfold envelope, h264_envelope.
    rewrite !lookup_insert_ne by discriminate. apply lookup_insert_eq. }
  split.
  { unfold envelope, h264_envelope.
    rewrite !lookup_insert_ne by discriminate.
    rewrite lookup_insert_eq, Hw. reflexivity. }
  split.
  { unfold envelope, h264_envelope.
    rewrite !lookup_insert_ne by discriminate.
    rewrite lookup_insert_eq, Hh. reflexivity. }
  intros Hready. rewrite Heq.
  apply create_encoder_frame in Hcreate as (es & ->).
  set (self2 := record_size _ _).
  assert (_sio self2 = _sio self) as Hsio.
  { unfold self2, record_size. cbn. destruct (_stats self); reflexivity. }
  rewrite send_data_eq by auto. rewrite back_pressure_check_eq.
  replace (match _back_pressure_size self2 with
           | Some _ | _ => Some (Ok tt, self2) end)
    with (Some (Ok tt, self2))
    by (destruct (_back_pressure_size self2); reflexivity).
  cbn [encode_payload]. unfold encode_payload. types. cbv iota.
  assert (transport_ready fuel true sid self2 = true) as Hready2.
  { unfold transport_ready in *. rewrite Hsio. exact Hready. }
  destruct (emit_data_ready fuel self2 event (VDict envelope) sid true Hready2)
    as (self' & He & Hem & _).
  exists self'. split; [exact He|].
  rewrite Hem. unfold emission. rewrite Hsio. reflexivity.
Qed.

(** The encode half of C2, as the code has it. *)
Lemma send_image_encoder_error (fuel : nat) (perf_counter_ns : Z)
  (self self1 : Channels) (frame : ndarray) (event : string)
  (timestamp : option Z) (metadata : option Dict) (sid : option string)
  (can_be_dropped wait_for_reconnection : bool)
  (options : option (gmap string string)) (key : string * string)
  (enc : H264Encoder) (msg : string) :
  stream_key self event sid = Some key ->
  create_encoder frame key options self = Some (Ok tt, self1) ->
  _encoders self1 !! key = Some enc ->
  (encode_ndarray enc frame).1 = Raise (H264EncoderError msg) ->
  let enc' := (encode_ndarray enc frame).2 in
  send_image fuel perf_counter_ns frame event H264 timestamp metadata sid
    can_be_dropped wait_for_reconnection options self
  = if enc_init_count enc' <? _recreate_h264_attempts_count self
    then Some (Ok tt,
               set_encoders (<[key := encoder_init enc']> (_encoders self1))
                 self1)
    else Some (Raise (H264EncoderError msg),
               set_encoders (<[key := enc']> (_encoders self1)) self1).
Proof.
  intros Hkey Hcreate Henc Hres enc'.
  rewrite (send_image_H264_eq _ _ _ _ _ _ _ _ _ _ _ _ Hkey), Hcreate.
  unfold try_except.
  rewrite (encode_and_send_H264_eq _ _ _ _ _ _ _ _ _ Henc). cbv zeta.
  rewrite Hres. cbn [is_H264EncoderError].
  unfold recreate_encoder. run. rewrite lookup_insert_eq. fold enc'.
  apply create_encoder_frame in Hcreate as (es & ->). cbn.
  destruct (enc_init_count enc' <? _); cbn; [|reflexivity].
  rewrite insert_insert_eq. reflexivity.
Qed.

(** C7: the first call of [send_image] for a stream whose encoder can be
    constructed stores the encoder, with the width and height of its frame
    and with its options; a second call for the same stream creates
    nothing, keeps the adapter with that geometry and those options, and
    does not depend on its own encoding options. *)
Theorem encoder_created_once (fuel1 fuel2 : nat) (now1 now2 : Z)
  (self self1 : Channels) (frame1 frame2 : ndarray) (event : string)
  (ts1 ts2 : option Z) (md1 md2 : option Dict) (sid : option string)
  (cbd1 cbd2 wfr1 wfr2 : bool) (options1 options2 : option (gmap string string))
  (key : string * string) (r1 : Result unit) (w h : Z) (enc0 : H264Encoder) :
  stream_key self event sid = Some key ->
  _encoders self !! key = None ->
  shape frame1 !! 1%nat = Some w ->
  shape frame1 !! 0%nat = Some h ->
  H264Encoder_new w h options1 = Ok enc0 ->
  send_image fuel1 now1 frame1 event H264 ts1 md1 sid cbd1 wfr1 options1 self
  = Some (r1, self1) ->
  exists enc1,
    _encoders self1 !! key = Some enc1
    /\ enc_width enc1 = w /\ enc_height enc1 = h
    /\ enc_options enc1 = options1
    /\ stream_key self1 event sid = Some key
    /\ create_encoder frame2 key options2 self1 = Some (Ok tt, self1)
    /\ (forall r2 self2,
          send_image fuel2 now2 frame2 event H264 ts2 md2 sid cbd2 wfr2
            options2 self1 = Some (r2, self2) ->
          exists enc2, _encoders self2 !! key = Some enc2
                       /\ enc_width enc2 = enc_width enc1
                       /\ enc_height enc2 = enc_height enc1
                       /\ enc_options enc2 = enc_options enc1)
    /\ (forall options2',
          send_image fuel2 now2 frame2 event H264 ts2 md2 sid cbd2 wfr2
            options2 self1
          = send_image fuel2 now2 frame2 event H264 ts2 md2 sid cbd2 wfr2
              options2' self1).
Proof.
  intros Hkey Hnone Hw Hh Hnew Hsend.
  rewrite (send_image_H264_eq _ _ _ _ _ _ _ _ _ _ _ _ Hkey) in Hsend.
  assert (create_encoder frame1 key options1 self
          = Some (Ok tt, set_encoders (<[key := enc0]> (_encoders self)) self))
    as Hcreate.
  { unfold create_encoder. run. rewrite Hnone, Hw, Hh, Hnew. reflexivity. }
  rewrite Hcreate in Hsend.
  assert (enc_width enc0 = w /\ enc_height enc0 = h
          /\ enc_options enc0 = options1) as (Hw0 & Hh0 & Ho0).
  { unfold H264Encoder_new in Hnew.
    destruct (av_encoder_open w h options1); [|discriminate].
    injection Hnew as <-. auto. }
  apply (encode_and_send_geometry _ _ _ _ _ _ _ _ _ enc0) in Hsend
    as (Hconn & enc1 & Henc1 & Hw1 & Hh1 & Ho1); [|apply lookup_insert_eq].
  cbn in Hconn.
  assert (stream_key self1 event sid = Some key) as Hkey1.
  { rewrite <- Hkey. apply stream_key_same_connection. exact Hconn. }
  exists enc1. split; [exact Henc1|].
  split; [congruence|]. split; [congruence|]. split; [congruence|].
  split; [exact Hkey1|].
  split; [apply (create_encoder_existing _ _ _ _ _ Henc1)|].
  split.
  - intros r2 self2.
    rewrite (send_image_H264_eq _ _ _ _ _ _ _ _ _ _ _ _ Hkey1).
    rewrite (create_encoder_existing _ _ _ _ _ Henc1).
    intros Hsend2.
    apply (encode_and_send_geometry _ _ _ _ _ _ _ _ _ enc1) in Hsend2
      as (_ & enc2 & H2); [|exact Henc1].
    exists enc2. exact H2.
  - intros options2'.
    rewrite !(send_image_H264_eq _ _ _ _ _ _ _ _ _ _ _ _ Hkey1).
    rewrite !(create_encoder_existing _ _ _ _ _ Henc1). reflexivity.
Qed.

(** ** [image_decode], step by step *)

Lemma callback_info_eq (self : Channels) (event : string) :
  callback_info event self =
  match _callbacks_info self !! event with
  | Some info => Some (Ok info, self)
  | None => Some (Raise KeyError, self)
  end.
Proof.
  unfold callback_info. run. destruct (_callbacks_info self !! event);
    reflexivity.
Qed.

Lemma send_error_eq (fuel : nat) (self : Channels) (timestamp : Value)
  (msg event : string) (sid : option string) :
  send_error fuel timestamp msg event sid self =
  match _callbacks_info self !! event with
  | Some info =>
      match send_data fuel (error_envelope timestamp msg) (error_event info)
              JSON sid false true self with
      | Some (Ok _, self') => Some (Ok None, self')
      | Some (Raise e, self') => Some (Raise e, self')
      | None => None
      end
  | None => Some (Raise KeyError, self)
  end.
Proof.
  unfold send_error. unfold bind at 1. rewrite callback_info_eq.
  destruct (_callbacks_info self !! event); [|reflexivity].
  unfold bind. destruct (send_data _ _ _ _ _ _ _ _) as [[[[]|e] self1]|];
    reflexivity.
Qed.

(** An error branch never returns a record, and changes the traffic of the
    transport only. *)
Lemma send_error_frame (fuel : nat) (self self' : Channels)
  (timestamp : Value) (msg event : string) (sid : option string)
  (r : Result (option Dict)) :
  send_error fuel timestamp msg event sid self = Some (r, self') ->
  returned_timestamp r = None
  /\ exists sio', self' = set_sio sio' self
                  /\ same_connection (_sio self) sio'.
Proof.
  rewrite send_error_eq.
  destruct (_callbacks_info self !! event) as [info|].
  - destruct (send_data _ _ _ _ _ _ _ _) as [[[[]|e] self1]|] eqn:Hs;
      [| |discriminate]; intros [= <- <-]; (split; [reflexivity|]);
      apply send_data_frame in Hs; exact Hs.
  - intros [= <- <-]. split; [reflexivity|]. exists (_sio self).
    split; [destruct self; reflexivity | apply same_connection_refl].
Qed.

(** On a ready transport the error envelope is emitted and [None]
    returned. *)
Lemma send_error_ready (fuel : nat) (self : Channels) (timestamp : Value)
  (msg event : string) (sid : option string) (info : CallbackInfo) :
  _callbacks_info self !! event = Some info ->
  transport_ready fuel true sid self = true ->
  exists self',
    send_error fuel timestamp msg event sid self = Some (Ok None, self')
    /\ emitted (_sio self')
       = emitted (_sio self)
         ++ [emission self (error_event info)
               (VDict (error_envelope timestamp msg)) sid]
    /\ _decoders self' = _decoders self.
Proof.
  intros Hinfo Hready. rewrite send_error_eq, Hinfo.
  rewrite send_data_eq by auto. rewrite back_pressure_check_eq.
  replace (match _back_pressure_size self with
           | Some _ | _ => Some (Ok tt, self) end)
    with (Some (Ok tt, self))
    by (destruct (_back_pressure_size self); reflexivity).
  unfold encode_payload. types. cbv iota.
  destruct (emit_data_ready fuel self (error_event info)
              (VDict (error_envelope timestamp msg)) sid true Hready)
    as (self' & -> & Hem & Hd & _).
  exists self'. auto.
Qed.

Lemma decode_frame_decoder_eq (fuel : nat) (self : Channels) (data : Dict)
  (frame timestamp : Value) (event : string) (sid : option string)
  (key : string * string) (dec : H264Decoder) :
  _decoders self !! key = Some dec ->
  decode_frame fuel data frame timestamp event sid key self =
  let dec' := (decode_packet_data dec frame).2 in
  let self1 := set_decoders (<[key := dec']> (_decoders self)) self in
  match (decode_packet_data dec frame).1 with
  | Ok frame_decoded =>
      Some (Ok (Some (decoded_record data frame_decoded timestamp)), self1)
  | Raise e =>
      if is_H264DecoderError e then
        send_error fuel timestamp ("H.264 decoder error: " +:+ py_str_exn e)
          event sid
          (if dec_init_count dec' <? _recreate_h264_attempts_count self
           then set_decoders (<[key := decoder_init dec']> (_decoders self1))
                  self1
           else self1)
      else Some (Raise e, self1)
  end.
Proof.
  intros Hdec. unfold decode_frame. run. rewrite Hdec.
  destruct (decode_packet_data dec frame) as [[v|e] dec']; run;
    [reflexivity|].
  destruct (is_H264DecoderError e); [|reflexivity].
  destruct (dec_init_count dec' <? _); reflexivity.
Qed.

Lemma decode_frame_still_eq (fuel : nat) (self : Channels) (data : Dict)
  (frame timestamp : Value) (event : string) (sid : option string)
  (key : string * string) :
  _decoders self !! key = None ->
  decode_frame fuel data frame timestamp event sid key self =
  match cv2_imdecode frame with
  | Ok frame_decoded =>
      Some (Ok (Some (decoded_record data frame_decoded timestamp)), self)
  | Raise e =>
      send_error fuel timestamp
        ("Failed to decode frame data: " +:+ py_repr_exn e) event sid self
  end.
Proof.
  intros Hdec. unfold decode_frame. run. rewrite Hdec.
  destruct (cv2_imdecode frame); reflexivity.
Qed.

Lemma check_timestamp_decoder_eq (fuel : nat) (self : Channels) (data : Dict)
  (frame timestamp : Value) (event : string) (sid : option string)
  (key : string * string) (dec : H264Decoder) :
  _decoders self !! key = Some dec ->
  check_timestamp fuel data frame timestamp event sid key self =
  match py_sub timestamp (last_timestamp dec) with
  | Ok diff =>
      if diff <? 0 then
        send_error fuel timestamp
          (older_timestamp_msg timestamp (last_timestamp dec) diff) event sid
          self
      else
        decode_frame fuel data frame timestamp event sid key
          (set_decoders
             (<[key := set_last_timestamp timestamp dec]> (_decoders self))
             self)
  | Raise e => Some (Raise e, self)
  end.
Proof.
  intros Hdec. unfold check_timestamp. run. rewrite Hdec.
  destruct (py_sub timestamp (last_timestamp dec)) as [diff|e]; run;
    [|reflexivity].
  destruct (diff <? 0); reflexivity.
Qed.

Lemma check_timestamp_still_eq (fuel : nat) (self : Channels) (data : Dict)
  (frame timestamp : Value) (event : string) (sid : option string)
  (key : string * string) :
  _decoders self !! key = None ->
  check_timestamp fuel data frame timestamp event sid key self =
  decode_frame fuel data frame timestamp event sid key self.
Proof.
  intros Hdec. unfold check_timestamp. run. rewrite Hdec. reflexivity.
Qed.

Lemma image_decode_eq (fuel : nat) (self : Channels) (data : Dict)
  (event : string) (sid : option string) (frame : Value)
  (key : string * string) (info : CallbackInfo) :
  data !! "frame" = Some frame ->
  stream_key self event sid = Some key ->
  _callbacks_info self !! event = Some info ->
  image_decode fuel data event sid self =
  match type info, _decoders self !! key with
  | H264, None =>
      match data !! "width", data !! "height" with
      | Some w, Some h =>
          match H264Decoder_new initial_last_timestamp w h with
          | Ok dec =>
              check_timestamp fuel data frame (envelope_timestamp data) event
                sid key
                (set_decoders (<[key := dec]> (_decoders self)) self)
          | Raise e =>
              send_error fuel (envelope_timestamp data)
                ("Cannot create H.264 decoder: " +:+ py_repr_exn e) event sid
                self
          end
      | _, _ =>
          send_error fuel (envelope_timestamp data) no_geometry_msg event sid
            self
      end
  | _, _ =>
      check_timestamp fuel data frame (envelope_timestamp data) event sid key
        self
  end.
Proof.
  intros Hframe Hkey Hinfo. unfold image_decode. rewrite Hframe.
  unfold bind at 1. rewrite (get_client_eio_sid_eq self event), Hkey.
  rewrite <- (stream_key_event _ _ _ _ Hkey).
  unfold bind at 1. rewrite callback_info_eq, Hinfo.
  unfold bind at 1, get. fold (envelope_timestamp data).
  destruct (type info), (_decoders self !! key); try reflexivity.
  destruct (data !! "width"), (data !! "height"); try reflexivity.
  destruct (H264Decoder_new _ _ _); reflexivity.
Qed.

Lemma image_decode_no_frame_eq (fuel : nat) (self : Channels) (data : Dict)
  (event : string) (sid : option string) :
  data !! "frame" = None ->
  image_decode fuel data event sid self =
  send_error fuel (envelope_timestamp data) "Data does not contain frame."
    event sid self.
Proof. intros Hframe. unfold image_decode. rewrite Hframe. reflexivity. Qed.

Lemma decoded_record_timestamp (data : Dict) (frame_decoded timestamp : Value) :
  decoded_record data frame_decoded timestamp !! "timestamp" = Some timestamp.
Proof.
  unfold decoded_record. destruct (data !! "metadata").
  - rewrite lookup_insert_ne by discriminate. apply lookup_insert_eq.
  - apply lookup_insert_eq.
Qed.

Lemma decode_packet_data_fields (dec : H264Decoder) (packet : Value) :
  last_timestamp (decode_packet_data dec packet).2 = last_timestamp dec
  /\ dec_init_count (decode_packet_data dec packet).2 = dec_init_count dec.
Proof.
  unfold decode_packet_data. destruct (av_decode _ _). cbn. auto.
Qed.

(** Decoding by the decoder of the stream: [last_timestamp] stays, the other
    streams stay, and a returned record bears the timestamp of the frame. *)
Lemma decode_frame_decoder_frame (fuel : nat) (self self' : Channels)
  (data : Dict) (frame timestamp : Value) (event : string)
  (sid : option string) (key : string * string) (dec : H264Decoder)
  (r : Result (option Dict)) :
  _decoders self !! key = Some dec ->
  decode_frame fuel data frame timestamp event sid key self = Some (r, self')
  -> same_connection (_sio self) (_sio self')
     /\ _callbacks_info self' = _callbacks_info self
     /\ (exists dec', _decoders self' !! key = Some dec'
                      /\ last_timestamp dec' = last_timestamp dec)
     /\ (forall key', key' <> key ->
                      _decoders self' !! key' = _decoders self !! key')
     /\ (forall v, returned_timestamp r = Some v -> v = timestamp).
Proof.
  intros Hdec. rewrite (decode_frame_decoder_eq _ _ _ _ _ _ _ _ _ Hdec).
  cbv zeta. destruct (decode_packet_data_fields dec frame) as (Hl & _).
  set (dec1 := (decode_packet_data dec frame).2) in *.
  destruct ((decode_packet_data dec frame).1) as [v|e].
  - intros [= <- <-]. cbn. split; [apply same_connection_refl|].
    split; [reflexivity|]. split.
    + exists dec1. split; [apply lookup_insert_eq | exact Hl].
    + split.
      * intros key' Hne. apply lookup_insert_ne. congruence.
      * intros v'. rewrite decoded_record_timestamp. congruence.
  - destruct (is_H264DecoderError e).
    + intros Hs. apply send_error_frame in Hs as (Hnone & sio' & -> & Hc).
      destruct (dec_init_count dec1 <? _); cbn in *.
      * split; [exact Hc|]. split; [reflexivity|]. split.
        -- eexists. split; [apply lookup_insert_eq | exact Hl].
        -- split; [|intros v; rewrite Hnone; discriminate].
           intros key' Hne. rewrite !lookup_insert_ne by congruence.
           reflexivity.
      * split; [exact Hc|]. split; [reflexivity|]. split.
        -- exists dec1. split; [apply lookup_insert_eq | exact Hl].
        -- split; [|intros v; rewrite Hnone; discriminate].
           intros key' Hne. apply lookup_insert_ne. congruence.
    + intros [= <- <-]. cbn. split; [apply same_connection_refl|].
      split; [reflexivity|]. split.
      * exists dec1. split; [apply lookup_insert_eq | exact Hl].
      * split; [|discriminate].
        intros key' Hne. apply lookup_insert_ne. congruence.
Qed.

Lemma transport_ready_sio (fuel : nat) (w : bool) (sid : option string)
  (self self' : Channels) :
  _sio self' = _sio self ->
  transport_ready fuel w sid self' = transport_ready fuel w sid self.
Proof. unfold transport_ready. intros ->. reflexivity. Qed.

Lemma emission_sio (self self' : Channels) (event : string) (payload : Value)
  (sid : option string) :
  _sio self' = _sio self ->
  emission self' event payload sid = emission self event payload sid.
Proof. unfold emission. intros ->. reflexivity. Qed.

(** On a ready transport and a declared channel, decoding by the decoder of
    the stream returns. *)
Lemma decode_frame_decoder_total (fuel : nat) (self : Channels) (data : Dict)
  (frame timestamp : Value) (event : string) (sid : option string)
  (key : string * string) (dec : H264Decoder) (info : CallbackInfo) :
  _decoders self !! key = Some dec ->
  _callbacks_info self !! event = Some info ->
  transport_ready fuel true sid self = true ->
  exists r self',
    decode_frame fuel data frame timestamp event sid key self
    = Some (r, self').
Proof.
  intros Hdec Hinfo Hready.
  rewrite (decode_frame_decoder_eq _ _ _ _ _ _ _ _ _ Hdec). cbv zeta.
  destruct ((decode_packet_data dec frame).1) as [v|e]; [eauto|].
  destruct (is_H264DecoderError e); [|eauto].
  match goal with
  | |- context [send_error _ _ ?m _ _ ?s] =>
      destruct (send_error_ready fuel s timestamp m event sid info)
        as (self' & -> & _)
  end.
  - destruct (_ <? _); exact Hinfo.
  - rewrite (transport_ready_sio _ _ _ self); [exact Hready|].
    destruct (_ <? _); reflexivity.
  - eauto.
Qed.

Lemma send_error_rejected (fuel : nat) (self : Channels) (data : Dict)
  (msg event : string) (sid : option string) (info : CallbackInfo) :
  _callbacks_info self !! event = Some info ->
  transport_ready fuel true sid self = true ->
  image_decode fuel data event sid self
  = send_error fuel (envelope_timestamp data) msg event sid self ->
  rejected_with fuel data event sid (error_event info) msg self.
Proof.
  intros Hinfo Hready Heq. unfold rejected_with. rewrite Heq.
  apply (send_error_ready _ _ _ _ _ _ _ Hinfo Hready).
Qed.

(** C8: on an H.264 channel without a decoder for the stream, an envelope
    without width or height, or one whose decoder cannot be built, gets an
    error envelope on the error event of the channel and [None]; no decoder
    is stored.  (An envelope that also lacks the frame is answered by the
    missing-frame error.) *)
Theorem image_decode_first_frame_rejected (fuel : nat) (self : Channels)
  (data : Dict) (event : string) (sid : option string)
  (key : string * string) (info : CallbackInfo) :
  stream_key self event sid = Some key ->
  _callbacks_info self !! event = Some info ->
  type info = H264 ->
  _decoders self !! key = None ->
  transport_ready fuel true sid self = true ->
  (data !! "width" = None \/ data !! "height" = None ->
   rejected_with fuel data event sid (error_event info)
     (match data !! "frame" with
      | Some _ => no_geometry_msg
      | None => "Data does not contain frame."
      end) self)
  /\ (forall w h e,
        data !! "width" = Some w ->
        data !! "height" = Some h ->
        H264Decoder_new initial_last_timestamp w h = Raise e ->
        rejected_with fuel data event sid (error_event info)
          (match data !! "frame" with
           | Some _ => "Cannot create H.264 decoder: " +:+ py_repr_exn e
           | None => "Data does not contain frame."
           end) self).
Proof.
  intros Hkey Hinfo Htype Hnone Hready. split.
  - intros Hgeo. apply (send_error_rejected _ _ _ _ _ _ _ Hinfo Hready).
    destruct (data !! "frame") as [frame|] eqn:Hframe.
    + rewrite (image_decode_eq _ _ _ _ _ _ _ _ Hframe Hkey Hinfo).
      rewrite Htype, Hnone.
      destruct Hgeo as [-> | ->]; [reflexivity|].
      destruct (data !! "width"); reflexivity.
    + apply image_decode_no_frame_eq. exact Hframe.
  - intros w h e Hw Hh Hnew.
    apply (send_error_rejected _ _ _ _ _ _ _ Hinfo Hready).
    destruct (data !! "frame") as [frame|] eqn:Hframe.
    + rewrite (image_decode_eq _ _ _ _ _ _ _ _ Hframe Hkey Hinfo).
      rewrite Htype, Hnone, Hw, Hh, Hnew. reflexivity.
    + apply image_decode_no_frame_eq. exact Hframe.
Qed.

(** The ordering check of a frame against the decoder of its stream. *)
Lemma image_decode_decoder_eq (fuel : nat) (self : Channels) (data : Dict)
  (event : string) (sid : option string) (frame : Value)
  (key : string * string) (info : CallbackInfo) (dec : H264Decoder) :
  data !! "frame" = Some frame ->
  stream_key self event sid = Some key ->
  _callbacks_info self !! event = Some info ->
  _decoders self !! key = Some dec ->
  image_decode fuel data event sid self
  = check_timestamp fuel data frame (envelope_timestamp data) event sid key
      self.
Proof.
  intros Hframe Hkey Hinfo Hdec.
  rewrite (image_decode_eq _ _ _ _ _ _ _ _ Hframe Hkey Hinfo), Hdec.
  destruct (type info); reflexivity.
Qed.

(** A frame older than [last_timestamp] is rejected as out of order. *)
Lemma image_decode_older_rejected (fuel : nat) (self : Channels)
  (data : Dict) (event : string) (sid : option string) (frame : Value)
  (key : string * string) (info : CallbackInfo) (dec : H264Decoder) (t l : Z) :
  data !! "frame" = Some frame ->
  stream_key self event sid = Some key ->
  _callbacks_info self !! event = Some info ->
  _decoders self !! key = Some dec ->
  transport_ready fuel true sid self = true ->
  as_int (envelope_timestamp data) = Some t ->
  as_int (last_timestamp dec) = Some l ->
  t < l ->
  rejected_as_out_of_order fuel data event sid (error_event info)
    (last_timestamp dec) self.
Proof.
  intros Hframe Hkey Hinfo Hdec Hready Ht Hl Hlt.
  exists (t - l). split; [unfold py_sub; rewrite Ht, Hl; reflexivity|].
  apply (send_error_rejected _ _ _ _ _ _ _ Hinfo Hready).
  rewrite (image_decode_decoder_eq fuel _ _ _ _ _ _ _ _
             Hframe Hkey Hinfo Hdec).
  rewrite (check_timestamp_decoder_eq _ _ _ _ _ _ _ _ _ Hdec).
  unfold py_sub. rewrite Ht, Hl.
  assert ((t - l <? 0) = true) as -> by lia. reflexivity.
Qed.

(** C4, as the code has it: for an envelope that carries a frame, on a stream
    whose decoder exists, an older timestamp is answered by the ordering
    error and [None], with no decode and [last_timestamp] unchanged; any
    other timestamp becomes [last_timestamp]. *)
Theorem image_decode_ordering_check (fuel : nat) (self : Channels)
  (data : Dict) (event : string) (sid : option string) (frame : Value)
  (key : string * string) (info : CallbackInfo) (dec : H264Decoder) :
  data !! "frame" = Some frame ->
  stream_key self event sid = Some key ->
  _callbacks_info self !! event = Some info ->
  _decoders self !! key = Some dec ->
  transport_ready fuel true sid self = true ->
  ordering_check fuel data event sid (error_event info) key dec self.
Proof.
  intros Hframe Hkey Hinfo Hdec Hready t l Ht Hl.
  pose proof (image_decode_decoder_eq fuel _ _ _ _ _ _ _ _
                Hframe Hkey Hinfo Hdec) as Heq.
  rewrite (check_timestamp_decoder_eq _ _ _ _ _ _ _ _ _ Hdec) in Heq.
  unfold py_sub in Heq. rewrite Ht, Hl in Heq.
  split.
  - intros Hlt.
    apply (image_decode_older_rejected fuel self data event sid frame key info
             dec t l); assumption.
  - intros Hle. assert ((t - l <? 0) = false) as Hcmp by lia.
    rewrite Hcmp in Heq.
    set (self1 := set_decoders _ self) in Heq.
    assert (_decoders self1 !! key
            = Some (set_last_timestamp (envelope_timestamp data) dec)) as Hdec1
      by apply lookup_insert_eq.
    destruct (decode_frame_decoder_total fuel self1 data frame
                (envelope_timestamp data) event sid key _ info Hdec1 Hinfo)
      as (r & self' & Hrun).
    { rewrite (transport_ready_sio _ _ _ self); [exact Hready | reflexivity]. }
    exists r, self'.
    destruct (decode_frame_decoder_frame _ _ _ _ _ _ _ _ _ _ _ Hdec1 Hrun)
      as (_ & _ & (dec' & Hdec' & Hlast) & _).
    exists dec'. rewrite Heq. auto.
Qed.

(** C10, as the code has it: an envelope without timestamp is read with
    timestamp 0, and when it carries a frame and the decoder of its stream
    holds a positive [last_timestamp] it is rejected as out of order. *)
Theorem image_decode_without_timestamp (fuel : nat) (self : Channels)
  (data : Dict) (event : string) (sid : option string) (frame : Value)
  (key : string * string) (info : CallbackInfo) (dec : H264Decoder) (l : Z) :
  data !! "timestamp" = None ->
  data !! "frame" = Some frame ->
  stream_key self event sid = Some key ->
  _callbacks_info self !! event = Some info ->
  _decoders self !! key = Some dec ->
  as_int (last_timestamp dec) = Some l ->
  0 < l ->
  transport_ready fuel true sid self = true ->
  envelope_timestamp data = VInt 0
  /\ rejected_as_out_of_order fuel data event sid (error_event info)
       (last_timestamp dec) self.
Proof.
  intros Hts Hframe Hkey Hinfo Hdec Hl Hpos Hready.
  assert (envelope_timestamp data = VInt 0) as Hzero
    by (unfold envelope_timestamp; rewrite Hts; reflexivity).
  split; [exact Hzero|].
  apply (image_decode_older_rejected fuel self data event sid frame key info
           dec 0 l); try assumption.
  rewrite Hzero. reflexivity.
Qed.

(** The decode half of C2, as the code has it. *)
Lemma image_decode_decoder_error (fuel : nat) (self : Channels) (data : Dict)
  (event : string) (sid : option string) (frame : Value)
  (key : string * string) (info : CallbackInfo) (dec : H264Decoder)
  (t l : Z) (msg : string) :
  data !! "frame" = Some frame ->
  stream_key self event sid = Some key ->
  _callbacks_info self !! event = Some info ->
  _decoders self !! key = Some dec ->
  as_int (envelope_timestamp data) = Some t ->
  as_int (last_timestamp dec) = Some l ->
  l <= t ->
  (decode_packet_data (set_last_timestamp (envelope_timestamp data) dec)
     frame).1 = Raise (H264DecoderError msg) ->
  transport_ready fuel true sid self = true ->
  let dec' :=
    (decode_packet_data (set_last_timestamp (envelope_timestamp data) dec)
       frame).2 in
  exists self',
    image_decode fuel data event sid self = Some (Ok None, self')
    /\ emitted (_sio self')
       = emitted (_sio self)
         ++ [emission self (error_event info)
               (VDict (error_envelope (envelope_timestamp data)
                         ("H.264 decoder error: " +:+ msg))) sid]
    /\ _decoders self'
       = <[key := if dec_init_count dec' <? _recreate_h264_attempts_count self
                  then decoder_init dec' else dec']> (_decoders self).
Proof.
  intros Hframe Hkey Hinfo Hdec Ht Hl Hle Hres Hready dec'.
  rewrite (image_decode_decoder_eq fuel _ _ _ _ _ _ _ _
             Hframe Hkey Hinfo Hdec).
  rewrite (check_timestamp_decoder_eq _ _ _ _ _ _ _ _ _ Hdec).
  unfold py_sub. rewrite Ht, Hl.
  assert ((t - l <? 0) = false) as -> by lia.
  set (self1 := set_decoders _ self).
  assert (_decoders self1 !! key
          = Some (set_last_timestamp (envelope_timestamp data) dec)) as Hdec1
    by apply lookup_insert_eq.
  rewrite (decode_frame_decoder_eq _ _ _ _ _ _ _ _ _ Hdec1). cbv zeta.
  rewrite Hres. cbn [is_H264DecoderError py_str_exn]. fold dec'.
  match goal with
  | |- context [send_error _ _ ?m _ _ ?s] =>
      destruct (send_error_ready fuel s (envelope_timestamp data) m event sid
                  info) as (self' & -> & Hem & Hd)
  end.
  - destruct (_ <? _); exact Hinfo.
  - rewrite (transport_ready_sio _ _ _ self); [exact Hready|].
    destruct (_ <? _); reflexivity.
  - exists self'. split; [reflexivity|]. split.
    + rewrite Hem. f_equal.
      * destruct (_ <? _); reflexivity.
      * f_equal. apply emission_sio. destruct (_ <? _); reflexivity.
    + rewrite Hd. unfold self1. cbn.
      destruct (dec_init_count dec' <? _); cbn;
        rewrite ?insert_insert_eq; reflexivity.
Qed.

(** On an H.264 channel without decoder, the call goes on as if the decoder
    that it builds had been in the registry. *)
Lemma image_decode_fresh_decoder (fuel : nat) (self : Channels) (data : Dict)
  (event : string) (sid : option string) (frame w h : Value)
  (key : string * string) (info : CallbackInfo) (dec : H264Decoder) :
  data !! "frame" = Some frame ->
  stream_key self event sid = Some key ->
  _callbacks_info self !! event = Some info ->
  type info = H264 ->
  _decoders self !! key = None ->
  data !! "width" = Some w ->
  data !! "height" = Some h ->
  H264Decoder_new initial_last_timestamp w h = Ok dec ->
  image_decode fuel data event sid self
  = image_decode fuel data event sid
      (set_decoders (<[key := dec]> (_decoders self)) self).
Proof.
  intros Hframe Hkey Hinfo Htype Hnone Hw Hh Hnew.
  rewrite (image_decode_eq fuel self _ _ _ _ _ _ Hframe Hkey Hinfo).
  rewrite Htype, Hnone, Hw, Hh, Hnew.
  symmetry.
  apply (image_decode_decoder_eq fuel _ _ _ _ _ _ info dec Hframe);
    [exact Hkey | exact Hinfo | apply lookup_insert_eq].
Qed.

(** C2, as the code has it.  An [H264EncoderError] under the ceiling makes
    [send_image] re-initialise the encoder and return normally, the frame
    is not sent; at or over the ceiling the error is raised to the caller.
    An [H264DecoderError] makes [image_decode] send an error envelope and
    return [None] in both cases, the decoder being re-initialised only under
    the ceiling, whether the decoder was in the registry or was built by the
    same call for the first frame of the stream. *)
Theorem codec_error_recovery :
  (forall (fuel : nat) (perf_counter_ns : Z) (self self1 : Channels)
     (frame : ndarray) (event : string) (timestamp : option Z)
     (metadata : option Dict) (sid : option string)
     (can_be_dropped wait_for_reconnection : bool)
     (options : option (gmap string string)) (key : string * string)
     (enc : H264Encoder) (msg : string),
      stream_key self event sid = Some key ->
      create_encoder frame key options self = Some (Ok tt, self1) ->
      _encoders self1 !! key = Some enc ->
      (encode_ndarray enc frame).1 = Raise (H264EncoderError msg) ->
      let enc' := (encode_ndarray enc frame).2 in
      let outcome :=
        send_image fuel perf_counter_ns frame event H264 timestamp metadata
          sid can_be_dropped wait_for_reconnection options self in
      (enc_init_count enc < _recreate_h264_attempts_count self ->
       outcome
       = Some (Ok tt,
               set_encoders (<[key := encoder_init enc']> (_encoders self1))
                 self1))
      /\ (_recreate_h264_attempts_count self <= enc_init_count enc ->
          outcome
          = Some (Raise (H264EncoderError msg),
                  set_encoders (<[key := enc']> (_encoders self1)) self1)))
  /\ (forall (fuel : nat) (self : Channels) (data : Dict) (event : string)
        (sid : option string) (frame : Value) (key : string * string)
        (info : CallbackInfo) (dec : H264Decoder) (t l : Z) (msg : string),
        data !! "frame" = Some frame ->
        stream_key self event sid = Some key ->
        _callbacks_info self !! event = Some info ->
        (_decoders self !! key = Some dec
         \/ (_decoders self !! key = None /\ type info = H264
             /\ exists w h,
                  data !! "width" = Some w /\ data !! "height" = Some h
                  /\ H264Decoder_new initial_last_timestamp w h = Ok dec)) ->
        as_int (envelope_timestamp data) = Some t ->
        as_int (last_timestamp dec) = Some l ->
        l <= t ->
        (decode_packet_data (set_last_timestamp (envelope_timestamp data) dec)
           frame).1 = Raise (H264DecoderError msg) ->
        transport_ready fuel true sid self = true ->
        let dec' :=
          (decode_packet_data
             (set_last_timestamp (envelope_timestamp data) dec) frame).2 in
        exists self',
          image_decode fuel data event sid self = Some (Ok None, self')
          /\ emitted (_sio self')
             = emitted (_sio self)
               ++ [emission self (error_event info)
                     (VDict (error_envelope (envelope_timestamp data)
                               ("H.264 decoder error: " +:+ msg))) sid]
          /\ _decoders self'
             = <[key := if dec_init_count dec
                           <? _recreate_h264_attempts_count self
                        then decoder_init dec' else dec']> (_decoders self)).
Proof.
  split.
  - intros fuel perf_counter_ns self self1 frame event timestamp metadata sid
      can_be_dropped wait_for_reconnection options key enc msg
      Hkey Hcreate Henc Hres enc' outcome.
    unfold outcome.
    rewrite (send_image_encoder_error _ _ _ _ _ _ _ _ _ _ _ _ _ _ _
               Hkey Hcreate Henc Hres).
    destruct (encode_ndarray_geometry enc frame) as (_ & _ & _ & Hcount).
    rewrite Hcount. fold enc'. split; intros Hcmp.
    + assert ((enc_init_count enc <? _recreate_h264_attempts_count self)
              = true) as -> by lia.
      reflexivity.
    + assert ((enc_init_count enc <? _recreate_h264_attempts_count self)
              = false) as -> by lia.
      reflexivity.
  - intros fuel self data event sid frame key info dec t l msg
      Hframe Hkey Hinfo Hdec Ht Hl Hle Hres Hready dec'.
    destruct (decode_packet_data_fields
                (set_last_timestamp (envelope_timestamp data) dec) frame)
      as (_ & Hcount).
    fold dec' in Hcount. cbn in Hcount.
    destruct Hdec as [Hdec | (Hnone & Htype & w & h & Hw & Hh & Hnew)].
    + destruct (image_decode_decoder_error fuel self data event sid frame key
                  info dec t l msg Hframe Hkey Hinfo Hdec Ht Hl Hle Hres
                  Hready)
        as (self' & Hrun & Hem & Hd).
      exists self'. split; [exact Hrun|]. split; [exact Hem|].
      rewrite Hd. fold dec'. rewrite Hcount. reflexivity.
    + set (self1 := set_decoders (<[key := dec]> (_decoders self)) self).
      destruct (image_decode_decoder_error fuel self1 data event sid frame key
                  info dec t l msg Hframe Hkey Hinfo
                  (lookup_insert_eq _ _ _) Ht Hl Hle Hres Hready)
        as (self' & Hrun & Hem & Hd).
      exists self'. split; [|split].
      * rewrite (image_decode_fresh_decoder fuel self data event sid frame w h
                   key info dec Hframe Hkey Hinfo Htype Hnone Hw Hh Hnew).
        exact Hrun.
      * exact Hem.
      * rewrite Hd. fold dec'. rewrite Hcount. unfold self1. cbn.
        apply insert_insert_eq.
Qed.

(** ** The order of the timestamps of a stream *)

Lemma last_timestamp_bound_lookup (lo : Z) (key : string * string)
  (self self' : Channels) :
  _decoders self' !! key = _decoders self !! key ->
  last_timestamp_bound lo key self -> last_timestamp_bound lo key self'.
Proof. unfold last_timestamp_bound. intros ->. auto. Qed.

Lemma step_outcome_none (lo : Z) (key : string * string) (on_stream : bool)
  (r : Result (option Dict)) (self' : Channels) :
  returned_timestamp r = None ->
  last_timestamp_bound lo key self' ->
  step_outcome lo key on_stream r self'.
Proof.
  unfold step_outcome. intros -> Hb. destruct on_stream; exact Hb.
Qed.

(** A call that ends in an error branch. *)
Lemma send_error_step (fuel : nat) (self self' : Channels) (timestamp : Value)
  (msg event : string) (sid : option string) (lo : Z)
  (key : string * string) (on_stream : bool) (r : Result (option Dict)) :
  last_timestamp_bound lo key self ->
  send_error fuel timestamp msg event sid self = Some (r, self') ->
  same_connection (_sio self) (_sio self')
  /\ _callbacks_info self' = _callbacks_info self
  /\ step_outcome lo key on_stream r self'.
Proof.
  intros Hb Hs. apply send_error_frame in Hs as (Hnone & sio' & -> & Hc).
  split; [exact Hc|]. split; [reflexivity|].
  apply step_outcome_none; [exact Hnone|].
  apply (last_timestamp_bound_lookup lo key self); [reflexivity | exact Hb].
Qed.

(** The ordering check and the decoding, for the stream [k] of the call seen
    from the stream [key]. *)
Lemma check_timestamp_step (fuel : nat) (self self' : Channels) (data : Dict)
  (frame timestamp : Value) (event : string) (sid : option string)
  (k key : string * string) (lo : Z) (r : Result (option Dict)) :
  (k = key -> is_Some (_decoders self !! k)) ->
  last_timestamp_bound lo key self ->
  check_timestamp fuel data frame timestamp event sid k self
  = Some (r, self') ->
  same_connection (_sio self) (_sio self')
  /\ _callbacks_info self' = _callbacks_info self
  /\ step_outcome lo key (bool_decide (k = key)) r self'.
Proof.
  intros Hsome Hb.
  destruct (_decoders self !! k) as [dec|] eqn:Hdec.
  - rewrite (check_timestamp_decoder_eq _ _ _ _ _ _ _ _ _ Hdec).
    unfold py_sub.
    destruct (as_int timestamp) as [t|] eqn:Ht;
      [destruct (as_int (last_timestamp dec)) as [l|] eqn:Hl|].
    + destruct (t - l <? 0) eqn:Hcmp.
      * apply send_error_step. exact Hb.
      * set (self1 := set_decoders _ self).
        assert (_decoders self1 !! k = Some (set_last_timestamp timestamp dec))
          as Hdec1 by apply lookup_insert_eq.
        intros Hrun.
        destruct (decode_frame_decoder_frame _ _ _ _ _ _ _ _ _ _ _ Hdec1 Hrun)
          as (Hc & Hcb & (dec' & Hdec' & Hlast) & Hother & Hret).
        split; [exact Hc|]. split; [exact Hcb|].
        unfold step_outcome. case_bool_decide as Hk.
        -- subst k. unfold last_timestamp_bound in *.
           rewrite Hdec in Hb. rewrite Hdec'. cbn in Hlast.
           specialize (Hb l Hl).
           destruct (returned_timestamp r) as [v|].
           ++ rewrite (Hret v eq_refl). exists t.
              split; [exact Ht|]. split; [lia|].
              intros l'. rewrite Hlast, Ht. intros [= <-]. lia.
           ++ intros l'. rewrite Hlast, Ht. intros [= <-]. lia.
        -- apply (last_timestamp_bound_lookup lo key self); [|exact Hb].
           rewrite (Hother key) by congruence.
           unfold self1. cbn. apply lookup_insert_ne. exact Hk.
    + intros [= <- <-]. split; [apply same_connection_refl|].
      split; [reflexivity|]. apply step_outcome_none; [reflexivity | exact Hb].
    + intros [= <- <-]. split; [apply same_connection_refl|].
      split; [reflexivity|]. apply step_outcome_none; [reflexivity | exact Hb].
  - assert (k <> key) as Hk.
    { intros Heq. destruct (Hsome Heq) as [? [=]]. }
    rewrite (check_timestamp_still_eq _ _ _ _ _ _ _ _ Hdec).
    rewrite (decode_frame_still_eq _ _ _ _ _ _ _ _ Hdec).
    destruct (cv2_imdecode frame).
    + intros [= <- <-]. split; [apply same_connection_refl|].
      split; [reflexivity|].
      unfold step_outcome. rewrite bool_decide_eq_false_2 by exact Hk.
      exact Hb.
    + intros Hs.
      apply (send_error_step _ _ _ _ _ _ _ lo key (bool_decide (k = key)) _ Hb)
        in Hs.
      exact Hs.
Qed.

(** One call of [image_decode], seen from a stream declared as H.264. *)
Lemma image_decode_step (fuel : nat) (self self' : Channels) (data : Dict)
  (event : string) (sid : option string) (key : string * string) (lo : Z)
  (r : Result (option Dict)) :
  (forall info, _callbacks_info self !! key.2 = Some info -> type info = H264)
  -> last_timestamp_bound lo key self ->
  image_decode fuel data event sid self = Some (r, self') ->
  same_connection (_sio self) (_sio self')
  /\ _callbacks_info self' = _callbacks_info self
  /\ step_outcome lo key
       (bool_decide (stream_key self event sid = Some key)) r self'.
Proof.
  intros Htype Hb.
  destruct (data !! "frame") as [frame|] eqn:Hframe.
  2:{ rewrite (image_decode_no_frame_eq _ _ _ _ _ Hframe).
      apply send_error_step. exact Hb. }
  destruct (stream_key self event sid) as [k|] eqn:Hkey.
  2:{ unfold image_decode. rewrite Hframe. unfold bind at 1.
      rewrite (get_client_eio_sid_eq self event), Hkey.
      intros [= <- <-]. split; [apply same_connection_refl|].
      split; [reflexivity|].
      apply step_outcome_none; [reflexivity | exact Hb]. }
  destruct (_callbacks_info self !! event) as [info|] eqn:Hinfo.
  2:{ unfold image_decode. rewrite Hframe. unfold bind at 1.
      rewrite (get_client_eio_sid_eq self event), Hkey.
      unfold bind at 1. rewrite callback_info_eq, Hinfo.
      intros [= <- <-]. split; [apply same_connection_refl|].
      split; [reflexivity|].
      apply step_outcome_none; [reflexivity | exact Hb]. }
  rewrite (image_decode_eq _ _ _ _ _ _ _ _ Hframe Hkey Hinfo).
  assert (bool_decide (Some k = Some key) = bool_decide (k = key)) as ->.
  { apply bool_decide_ext. split; congruence. }
  assert (k = key -> type info = H264) as Hk264.
  { intros <-. apply Htype. rewrite (stream_key_event _ _ _ _ Hkey). cbn.
    exact Hinfo. }
  destruct (_decoders self !! k) as [dec|] eqn:Hdec.
  - assert (check_timestamp fuel data frame (envelope_timestamp data) event
              sid k self = Some (r, self') ->
            same_connection (_sio self) (_sio self')
            /\ _callbacks_info self' = _callbacks_info self
            /\ step_outcome lo key (bool_decide (k = key)) r self') as Hstep.
    { apply check_timestamp_step; [|exact Hb]. intros _. rewrite Hdec. eauto. }
    destruct (type info); exact Hstep.
  - assert (type info <> H264 ->
            check_timestamp fuel data frame (envelope_timestamp data) event
              sid k self = Some (r, self') ->
            same_connection (_sio self) (_sio self')
            /\ _callbacks_info self' = _callbacks_info self
            /\ step_outcome lo key (bool_decide (k = key)) r self') as Hstep.
    { intros Hne. apply check_timestamp_step; [|exact Hb].
      intros Heq. destruct (Hne (Hk264 Heq)). }
    destruct (type info) eqn:Hty; try (apply Hstep; discriminate).
    destruct (data !! "width") as [w|]; [|apply send_error_step; exact Hb].
    destruct (data !! "height") as [h|]; [|apply send_error_step; exact Hb].
    unfold H264Decoder_new.
    destruct (av_decoder_open w h) as [n|e]; [|apply send_error_step; exact Hb].
    set (dec0 := {| last_timestamp := VInt initial_last_timestamp;
                    dec_init_count := 0; dec_native := n |}).
    set (self1 := set_decoders _ self).
    intros Hrun.
    apply (check_timestamp_step _ _ _ _ _ _ _ _ _ key lo) in Hrun.
    + exact Hrun.
    + intros _. unfold self1. cbn. rewrite lookup_insert_eq. eauto.
    + unfold last_timestamp_bound in *. unfold self1. cbn.
      destruct (decide (k = key)) as [<- | Hk].
      * rewrite lookup_insert_eq. rewrite Hdec in Hb. cbn.
        intros l [= <-]. exact Hb.
      * rewrite lookup_insert_ne by exact Hk. exact Hb.
Qed.

(** ** Every call returns when the transport stays connected *)

Lemma stays_connected_same (self self' : Channels) :
  same_connection (_sio self) (_sio self') ->
  stays_connected self -> stays_connected self'.
Proof.
  unfold stays_connected, same_connection.
  destruct (_sio self), (_sio self'); try tauto.
  intros [_ ->]. auto.
Qed.

Lemma stays_connected_sio (self self' : Channels) :
  _sio self' = _sio self -> stays_connected self -> stays_connected self'.
Proof. unfold stays_connected. intros ->. auto. Qed.

Lemma emit_data_total (fuel : nat) (self : Channels) (event : string)
  (payload : Value) (sid : option string) (wait_for_reconnection : bool) :
  stays_connected self ->
  exists r self',
    emit_data fuel event payload sid wait_for_reconnection self
    = Some (r, self').
Proof.
  unfold stays_connected, emit_data. destruct (_sio self) as [c|s].
  - intros Hc. destruct wait_for_reconnection; [|eauto].
    assert (wait_for_reconnection_loop fuel c = Some c) as ->; [|eauto].
    destruct fuel; cbn; rewrite Hc; reflexivity.
  - intros _. destruct sid; [destruct (bool_decide _)|]; eauto.
Qed.

Lemma send_data_total (fuel : nat) (self : Channels) (data : Dict)
  (event : string) (sid : option string)
  (can_be_dropped wait_for_reconnection : bool) :
  stays_connected self ->
  exists r self',
    send_data fuel data event JSON sid can_be_dropped wait_for_reconnection
      self = Some (r, self').
Proof.
  intros Hc. rewrite send_data_eq by auto. rewrite back_pressure_check_eq.
  unfold encode_payload. types. cbv iota.
  repeat case_match; simplify_eq; eauto; apply emit_data_total; exact Hc.
Qed.

Lemma send_error_total (fuel : nat) (self : Channels) (timestamp : Value)
  (msg event : string) (sid : option string) :
  stays_connected self ->
  exists r self',
    send_error fuel timestamp msg event sid self = Some (r, self').
Proof.
  intros Hc. rewrite send_error_eq.
  destruct (_callbacks_info self !! event) as [info|]; [|eauto].
  destruct (send_data_total fuel self (error_envelope timestamp msg)
              (error_event info) sid false true Hc) as ([[]|e] & self' & ->);
    eauto.
Qed.

Lemma decode_frame_total (fuel : nat) (self : Channels) (data : Dict)
  (frame timestamp : Value) (event : string) (sid : option string)
  (key : string * string) :
  stays_connected self ->
  exists r self',
    decode_frame fuel data frame timestamp event sid key self
    = Some (r, self').
Proof.
  intros Hc. destruct (_decoders self !! key) as [dec|] eqn:Hdec.
  - rewrite (decode_frame_decoder_eq _ _ _ _ _ _ _ _ _ Hdec). cbv zeta.
    destruct ((decode_packet_data dec frame).1) as [v|e]; [eauto|].
    destruct (is_H264DecoderError e); [|eauto].
    apply send_error_total.
    apply (stays_connected_sio self); [|exact Hc].
    destruct (_ <? _); reflexivity.
  - rewrite (decode_frame_still_eq _ _ _ _ _ _ _ _ Hdec).
    destruct (cv2_imdecode frame); [eauto|].
    apply send_error_total. exact Hc.
Qed.

Lemma check_timestamp_total (fuel : nat) (self : Channels) (data : Dict)
  (frame timestamp : Value) (event : string) (sid : option string)
  (key : string * string) :
  stays_connected self ->
  exists r self',
    check_timestamp fuel data frame timestamp event sid key self
    = Some (r, self').
Proof.
  intros Hc. destruct (_decoders self !! key) as [dec|] eqn:Hdec.
  - rewrite (check_timestamp_decoder_eq _ _ _ _ _ _ _ _ _ Hdec).
    destruct (py_sub timestamp (last_timestamp dec)) as [diff|e]; [|eauto].
    destruct (diff <? 0).
    + apply send_error_total. exact Hc.
    + apply decode_frame_total.
      apply (stays_connected_sio self); [reflexivity | exact Hc].
  - rewrite (check_timestamp_still_eq _ _ _ _ _ _ _ _ Hdec).
    apply decode_frame_total. exact Hc.
Qed.

Lemma image_decode_total (fuel : nat) (self : Channels) (data : Dict)
  (event : string) (sid : option string) :
  stays_connected self ->
  exists r self', image_decode fuel data event sid self = Some (r, self').
Proof.
  intros Hc.
  destruct (data !! "frame") as [frame|] eqn:Hframe.
  2:{ rewrite (image_decode_no_frame_eq _ _ _ _ _ Hframe).
      apply send_error_total. exact Hc. }
  destruct (stream_key self event sid) as [k|] eqn:Hkey.
  2:{ unfold image_decode. rewrite Hframe. unfold bind at 1.
      rewrite (get_client_eio_sid_eq self event), Hkey. eauto. }
  destruct (_callbacks_info self !! event) as [info|] eqn:Hinfo.
  2:{ unfold image_decode. rewrite Hframe. unfold bind at 1.
      rewrite (get_client_eio_sid_eq self event), Hkey.
      unfold bind at 1. rewrite callback_info_eq, Hinfo. eauto. }
  rewrite (image_decode_eq _ _ _ _ _ _ _ _ Hframe Hkey Hinfo).
  assert (forall self1, _sio self1 = _sio self ->
            exists r self',
              check_timestamp fuel data frame (envelope_timestamp data) event
                sid k self1 = Some (r, self')) as Hcheck.
  { intros self1 Hsio. apply check_timestamp_total.
    apply (stays_connected_sio self); [exact Hsio | exact Hc]. }
  destruct (type info), (_decoders self !! k);
    try (apply Hcheck; reflexivity).
  destruct (data !! "width"); [|apply send_error_total; exact Hc].
  destruct (data !! "height"); [|apply send_error_total; exact Hc].
  destruct (H264Decoder_new _ _ _); [|apply send_error_total; exact Hc].
  apply Hcheck. reflexivity.
Qed.

Lemma send_error_connection (fuel : nat) (self self' : Channels)
  (timestamp : Value) (msg event : string) (sid : option string)
  (r : Result (option Dict)) :
  send_error fuel timestamp msg event sid self = Some (r, self') ->
  same_connection (_sio self) (_sio self').
Proof.
  intros Hs. apply send_error_frame in Hs as (_ & sio' & -> & Hc). exact Hc.
Qed.

Lemma check_timestamp_connection (fuel : nat) (self self' : Channels)
  (data : Dict) (frame timestamp : Value) (event : string)
  (sid : option string) (key : string * string) (r : Result (option Dict)) :
  check_timestamp fuel data frame timestamp event sid key self
  = Some (r, self') ->
  same_connection (_sio self) (_sio self').
Proof.
  destruct (_decoders self !! key) as [dec|] eqn:Hdec.
  - rewrite (check_timestamp_decoder_eq _ _ _ _ _ _ _ _ _ Hdec).
    destruct (py_sub timestamp (last_timestamp dec)) as [diff|e].
    + destruct (diff <? 0); [apply send_error_connection|].
      intros Hrun.
      apply (decode_frame_decoder_frame _ _ _ _ _ _ _ _ _
               (set_last_timestamp timestamp dec)) in Hrun
        as (Hc & _); [exact Hc | apply lookup_insert_eq].
    + intros [= <- <-]. apply same_connection_refl.
  - rewrite (check_timestamp_still_eq _ _ _ _ _ _ _ _ Hdec).
    rewrite (decode_frame_still_eq _ _ _ _ _ _ _ _ Hdec).
    destruct (cv2_imdecode frame); [|apply send_error_connection].
    intros [= <- <-]. apply same_connection_refl.
Qed.

Lemma image_decode_connection (fuel : nat) (self self' : Channels)
  (data : Dict) (event : string) (sid : option string)
  (r : Result (option Dict)) :
  image_decode fuel data event sid self = Some (r, self') ->
  same_connection (_sio self) (_sio self').
Proof.
  destruct (data !! "frame") as [frame|] eqn:Hframe.
  2:{ rewrite (image_decode_no_frame_eq _ _ _ _ _ Hframe).
      apply send_error_connection. }
  destruct (stream_key self event sid) as [k|] eqn:Hkey.
  2:{ unfold image_decode. rewrite Hframe. unfold bind at 1.
      rewrite (get_client_eio_sid_eq self event), Hkey.
      intros [= <- <-]. apply same_connection_refl. }
  destruct (_callbacks_info self !! event) as [info|] eqn:Hinfo.
  2:{ unfold image_decode. rewrite Hframe. unfold bind at 1.
      rewrite (get_client_eio_sid_eq self event), Hkey.
      unfold bind at 1. rewrite callback_info_eq, Hinfo.
      intros [= <- <-]. apply same_connection_refl. }
  rewrite (image_decode_eq _ _ _ _ _ _ _ _ Hframe Hkey Hinfo).
  destruct (type info), (_decoders self !! k);
    try apply check_timestamp_connection.
  destruct (data !! "width"); [|apply send_error_connection].
  destruct (data !! "height"); [|apply send_error_connection].
  destruct (H264Decoder_new _ _ _); [|apply send_error_connection].
  intros Hrun. apply check_timestamp_connection in Hrun. exact Hrun.
Qed.

(** On a transport that stays connected, a run handles all its events. *)
Lemma run_image_decode_total (fuel : nat) (calls : list Call)
  (self : Channels) :
  stays_connected self ->
  exists results self',
    run_image_decode fuel calls self = Some (results, self').
Proof.
  revert self. induction calls as [|c calls IH]; intros self Hc; cbn.
  - eauto.
  - destruct (image_decode_total fuel self (call_data c) (call_event c)
                (call_sid c) Hc) as (r & self1 & Hrun).
    rewrite Hrun.
    destruct (IH self1) as (rs & self2 & ->); [|eauto].
    apply (stays_connected_same self); [|exact Hc].
    apply (image_decode_connection _ _ _ _ _ _ _ Hrun).
Qed.

Lemma ascending_from_app (lo : Z) (v : Value) (t : Z) (l : list Value) :
  as_int v = Some t -> lo <= t -> ascending_from t l ->
  ascending_from lo ([v] ++ l).
Proof. intros Hv Hle Hl. cbn. exists t. auto. Qed.

(** The invariant along a run. *)
Lemma run_image_decode_ascending (fuel : nat) (calls : list Call)
  (self0 self self' : Channels) (key : string * string) (lo : Z)
  (results : list (Result (option Dict))) :
  same_connection (_sio self0) (_sio self) ->
  (forall info, _callbacks_info self !! key.2 = Some info -> type info = H264)
  -> last_timestamp_bound lo key self ->
  run_image_decode fuel calls self = Some (results, self') ->
  ascending_from lo (accepted self0 key calls results).
Proof.
  revert self lo results.
  induction calls as [|c calls IH]; intros self lo results Hc Htype Hb.
  - intros [= <- <-]. exact I.
  - cbn.
    destruct (image_decode _ _ _ _ self) as [[r self1]|] eqn:Hrun;
      [|discriminate].
    destruct (run_image_decode _ _ self1) as [[rs self2]|] eqn:Hrest;
      [|discriminate].
    intros [= <- <-].
    destruct (image_decode_step _ _ _ _ _ _ _ _ _ Htype Hb Hrun)
      as (Hc1 & Hcb1 & Hstep).
    assert (same_connection (_sio self0) (_sio self1)) as Hc01
      by (eapply same_connection_trans; eauto).
    assert (forall info, _callbacks_info self1 !! key.2 = Some info ->
                         type info = H264) as Htype1
      by (rewrite Hcb1; exact Htype).
    rewrite (stream_key_same_connection _ _ _ _ Hc) in Hstep.
    cbn. unfold step_outcome in Hstep.
    destruct (bool_decide _).
    + destruct (returned_timestamp r) as [v|].
      * destruct Hstep as (t & Hv & Hle & Hb1).
        apply (ascending_from_app lo v t); [exact Hv | exact Hle|].
        apply (IH self1 t rs Hc01 Htype1 Hb1 Hrest).
      * apply (IH self1 lo rs Hc01 Htype1 Hstep Hrest).
    + apply (IH self1 lo rs Hc01 Htype1 Hstep Hrest).
Qed.

(** C3, as the code has it: on a stream whose channel is declared as H.264,
    the timestamps of the frames that [image_decode] decodes and returns
    never go down; and on a transport that stays connected every event of
    the run is handled. *)
Theorem h264_timestamps_non_decreasing (fuel : nat) (calls : list Call)
  (self : Channels) (key : string * string) :
  type <$> _callbacks_info self !! key.2 = Some H264 ->
  timestamps_non_decreasing fuel calls self key
  /\ (stays_connected self ->
      exists results self',
        run_image_decode fuel calls self = Some (results, self')).
Proof.
  intros Htype. split; [|apply run_image_decode_total].
  intros results self' Hrun.
  exists (match _decoders self !! key with
          | Some dec => default 0 (as_int (last_timestamp dec))
          | None => initial_last_timestamp
          end).
  apply (run_image_decode_ascending fuel calls self self self' key _ results);
    [apply same_connection_refl | | | exact Hrun].
  - intros info Hinfo. rewrite Hinfo in Htype. cbn in Htype. congruence.
  - unfold last_timestamp_bound.
    destruct (_decoders self !! key) as [dec|]; [|lia].
    intros l ->. cbn. lia.
Qed.

(** ** The LZ4 path *)

(** C9: for a map that ujson writes to a text it reads back as the same map,
    and a block that lz4 decompresses to what was compressed, the payload
    that [send_data] emits on a [JSON_LZ4] channel is decoded by
    [data_lz4_decode] to the original map, with no error envelope. *)
Theorem lz4_round_trip (fuel fuel' : nat) (sender receiver : Channels)
  (data : Dict) (text : string) (event event' : string)
  (sid sid' : option string) (wait_for_reconnection : bool) :
  ujson_dumps data = Ok text ->
  lz4_decompress (lz4_compress (utf8 text)) = Ok (utf8 text) ->
  ujson_loads (utf8 text) = Ok (VDict data) ->
  let payload := VBytes (lz4_compress (utf8 text)) in
  encode_payload data JSON_LZ4 = Ok payload
  /\ (transport_ready fuel wait_for_reconnection sid sender = true ->
      exists sender',
        send_data fuel data event JSON_LZ4 sid false wait_for_reconnection
          sender = Some (Ok tt, sender')
        /\ emitted (_sio sender')
           = emitted (_sio sender) ++ [emission sender event payload sid])
  /\ data_lz4_decode fuel' payload event' sid' receiver
     = Some (Ok (VDict data), receiver).
Proof.
  intros Hdumps Hlz4 Hloads payload.
  assert (encode_payload data JSON_LZ4 = Ok payload) as Hp.
  { unfold encode_payload. types. cbv iota. rewrite Hdumps. reflexivity. }
  split; [exact Hp|]. split.
  - intros Hready. rewrite send_data_eq by auto.
    rewrite back_pressure_check_eq.
    replace (match _back_pressure_size sender with
             | Some _ | _ => Some (Ok tt, sender) end)
      with (Some (Ok tt, sender))
      by (destruct (_back_pressure_size sender); reflexivity).
    rewrite Hp.
    destruct (emit_data_ready fuel sender event payload sid
                wait_for_reconnection Hready) as (sender' & He & Hem & _).
    exists sender'. auto.
  - unfold data_lz4_decode, payload, lz4_loads. rewrite Hlz4, Hloads.
    reflexivity.
Qed.

(** * Further properties of the code *)

(** ** The constructor, again *)

(** X1: the constructor refuses a back-pressure size below one with
    [ValueError], and nothing else; any other size, or none, gives an object
    with the configuration as passed, no size kept, no encoder and no
    decoder. *)
Theorem Channels_init_threshold (sio : Sio)
  (callbacks_info : gmap string CallbackInfo) (back_pressure_size : option Z)
  (recreate_h264_attempts_count : Z) (stats : bool) :
  (Channels_init sio callbacks_info back_pressure_size
     recreate_h264_attempts_count stats
   = Raise (ValueError "Invalid value for back_pressure_size.")
   <-> exists size, back_pressure_size = Some size /\ size < 1)
  /\ ((forall size, back_pressure_size = Some size -> 1 <= size) ->
      Channels_init sio callbacks_info back_pressure_size
        recreate_h264_attempts_count stats
      = Ok {| _sio := sio; _back_pressure_size := back_pressure_size;
              _recreate_h264_attempts_count := recreate_h264_attempts_count;
              _stats := stats; _sizes := [];
              _callbacks_info := callbacks_info;
              _decoders := ∅; _encoders := ∅ |}).
Proof.
  unfold Channels_init. split; [split|].
  - destruct back_pressure_size as [n|]; [|discriminate].
    destruct (n <? 1) eqn:Hn; [|discriminate].
    intros _. exists n. split; [reflexivity | lia].
  - intros (size & -> & Hsize).
    destruct (size <? 1) eqn:Hn; [reflexivity | lia].
  - intros Hsize. destruct back_pressure_size as [n|]; [|reflexivity].
    specialize (Hsize n eq_refl).
    destruct (n <? 1) eqn:Hn; [lia | reflexivity].
Qed.

(** ** The reconnection loop, turn by turn *)

Lemma slept_sleep (n : nat) (c : ClientSio) :
  slept n (sleep c) = slept (S n) c.
Proof.
  unfold slept, sleep. cbn. f_equal. lia.
Qed.

Lemma slept_0 (c : ClientSio) : slept 0 c = c.
Proof. destruct c. unfold slept. cbn. f_equal. lia. Qed.

(** X2: the reconnection loop ends at the first second at which the client
    is connected or has no reconnection task alive, having slept one second
    for each second before; it outlasts the fuel only when the client is
    waiting at every second of it. *)
Theorem wait_for_reconnection_loop_turns (fuel : nat) (c : ClientSio) :
  match wait_for_reconnection_loop fuel c with
  | Some c' =>
      exists n, (n <= fuel)%nat /\ c' = slept n c
                /\ (forall i, (i < n)%nat ->
                              waiting (c_status c (c_clock c + i)%nat) = true)
                /\ waiting (c_status c (c_clock c + n)%nat) = false
  | None =>
      forall i, (i <= fuel)%nat ->
                waiting (c_status c (c_clock c + i)%nat) = true
  end.
Proof.
  revert c. induction fuel as [|fuel IH]; intros c.
  - cbn. unfold waiting.
    destruct (not_connected (c_status c (c_clock c))) eqn:Hn;
      [destruct (no_reconnect_task (c_status c (c_clock c))) eqn:Hr|].
    + exists 0%nat. rewrite slept_0, Nat.add_0_r, Hn, Hr.
      repeat split; auto; try (intros; lia).
    + intros i Hi. assert (i = 0%nat) as -> by lia.
      rewrite Nat.add_0_r, Hn, Hr. reflexivity.
    + exists 0%nat. rewrite slept_0, Nat.add_0_r, Hn.
      repeat split; auto; try (intros; lia).
  - cbn. unfold waiting.
    destruct (not_connected (c_status c (c_clock c))) eqn:Hn;
      [destruct (no_reconnect_task (c_status c (c_clock c))) eqn:Hr|].
    + exists 0%nat. rewrite slept_0, Nat.add_0_r, Hn, Hr.
      repeat split; auto; try (intros; lia).
    + specialize (IH (sleep c)).
      destruct (wait_for_reconnection_loop fuel (sleep c)) as [c'|].
      * destruct IH as (n & Hle & -> & Hbefore & Hat). cbn in Hbefore, Hat.
        exists (S n). rewrite slept_sleep. repeat split; [lia| |].
        -- intros [|i] Hi.
           ++ rewrite Nat.add_0_r. unfold waiting in *. rewrite Hn, Hr.
              reflexivity.
           ++ replace (c_clock c + S i)%nat with (S (c_clock c + i)) by lia.
              apply Hbefore. lia.
        -- replace (c_clock c + S n)%nat with (S (c_clock c + n)) by lia.
           exact Hat.
      * cbn in IH. intros [|i] Hi.
        -- rewrite Nat.add_0_r, Hn, Hr. reflexivity.
        -- replace (c_clock c + S i)%nat with (S (c_clock c + i)) by lia.
           apply IH. lia.
    + exists 0%nat. rewrite slept_0, Nat.add_0_r, Hn.
      repeat split; auto; try (intros; lia).
Qed.

(** ** [send_data]: all or nothing *)

Lemma emit_data_outcome (fuel : nat) (self self' : Channels) (event : string)
  (payload : Value) (sid : option string) (wait_for_reconnection : bool)
  (r : Result unit) :
  emit_data fuel event payload sid wait_for_reconnection self = Some (r, self')
  -> match r with
     | Ok _ =>
         emitted (_sio self')
         = emitted (_sio self) ++ [emission self event payload sid]
     | Raise e =>
         self' = self
         /\ exists s, _sio self = Server s
            /\ match sid with
               | None => e = ValueError "'sid' has to be set for server."
               | Some x =>
                   ((x, DATA_NAMESPACE) ∉ s_is_connected s)
                   /\ e = ConnectionError
                            ("Client with " +:+ DATA_NAMESPACE +:+ " sid "
                             +:+ x +:+ " is not connected to server.")
               end
     end.
Proof.
  unfold emit_data, emission.
  destruct (_sio self) as [c|s] eqn:Hsio.
  - destruct wait_for_reconnection.
    + destruct (wait_for_reconnection_loop fuel c) as [c'|] eqn:Hw;
        [|discriminate].
      intros [= <- <-]. cbn.
      apply wait_for_reconnection_loop_emitted in Hw as (-> & _). reflexivity.
    + intros [= <- <-]. reflexivity.
  - destruct sid as [x|].
    + case_bool_decide as Hin.
      * intros [= <- <-]. reflexivity.
      * intros [= <- <-]. split; [reflexivity|]. exists s. auto.
    + intros [= <- <-]. split; [reflexivity|]. exists s. auto.
Qed.

(** X3: a [send_data] that raises leaves the object as it was, so nothing
    was emitted; one that returns made one emit call, of the payload, and
    changed nothing but the traffic of the transport. *)
Theorem send_data_all_or_nothing (fuel : nat) (self self' : Channels)
  (data : Dict) (event : string) (channel_type : ChannelType)
  (sid : option string) (can_be_dropped wait_for_reconnection : bool)
  (r : Result unit) :
  send_data fuel data event channel_type sid can_be_dropped
    wait_for_reconnection self = Some (r, self') ->
  match r with
  | Raise _ => self' = self
  | Ok _ =>
      exists payload sio',
        encode_payload data channel_type = Ok payload
        /\ self' = set_sio sio' self
        /\ same_connection (_sio self) sio'
        /\ emitted sio'
           = emitted (_sio self) ++ [emission self event payload sid]
  end.
Proof.
  intros Hsend.
  destruct (decide (channel_type = JSON \/ channel_type = JSON_LZ4)) as [Hct|Hct].
  - pose proof Hsend as Hsend'. rewrite (send_data_eq _ _ _ _ _ _ _ _ Hct) in Hsend.
    destruct (back_pressure_check sid can_be_dropped self)
      as [[[[]|e] self1]|] eqn:Hcheck; [| |discriminate].
    + destruct (encode_payload data channel_type) as [payload|e] eqn:Hpay.
      * pose proof (emit_data_frame _ _ _ _ _ _ _ _ Hsend) as (sio' & -> & Hsame).
        apply emit_data_outcome in Hsend. destruct r as [[]|e].
        -- exists payload, sio'. auto.
        -- apply Hsend.
      * injection Hsend as <- <-. reflexivity.
    + injection Hsend as <- <-. reflexivity.
  - unfold send_data in Hsend.
    destruct channel_type; try (exfalso; apply Hct; auto; fail);
      injection Hsend as <- <-; reflexivity.
Qed.

(** ** [send_data]: what it raises *)

(** ** [send_image]: the two encodings *)

Lemma valid_image_type (channel_type : ChannelType) :
  channel_type = JPEG \/ channel_type = H264 ->
  negb (bool_decide (channel_type = JPEG))
  && negb (bool_decide (channel_type = H264)) = false.
Proof. intros [-> | ->]; reflexivity. Qed.

Lemma send_image_no_sid (fuel : nat) (perf_counter_ns : Z) (self : Channels)
  (frame : ndarray) (event : string) (channel_type : ChannelType)
  (timestamp : option Z) (metadata : option Dict) (sid : option string)
  (can_be_dropped wait_for_reconnection : bool)
  (options : option (gmap string string)) :
  channel_type = JPEG \/ channel_type = H264 ->
  stream_key self event sid = None ->
  send_image fuel perf_counter_ns frame event channel_type timestamp metadata
    sid can_be_dropped wait_for_reconnection options self
  = Some (Raise (ValueError "'sid' has to be set for server."), self).
Proof.
  intros Hct Hkey. unfold send_image. rewrite (valid_image_type _ Hct).
  cbv beta iota. unfold bind at 1.
  rewrite (get_client_eio_sid_eq self event), Hkey. reflexivity.
Qed.

Lemma send_image_JPEG_eq (fuel : nat) (perf_counter_ns : Z) (self : Channels)
  (frame : ndarray) (event : string) (timestamp : option Z)
  (metadata : option Dict) (sid : option string)
  (can_be_dropped wait_for_reconnection : bool)
  (options : option (gmap string string)) (key : string * string) :
  stream_key self event sid = Some key ->
  send_image fuel perf_counter_ns frame event JPEG timestamp metadata sid
    can_be_dropped wait_for_reconnection options self =
  match cv2_imencode frame with
  | Ok frame_encoded =>
      send_data fuel
        (jpeg_envelope (envelope_head perf_counter_ns timestamp metadata)
           frame_encoded)
        event JSON sid can_be_dropped true (record_size frame_encoded self)
  | Raise e =>
      if is_H264EncoderError e then recreate_encoder key e self
      else Some (Raise e, self)
  end.
Proof.
  intros Hkey. unfold send_image. types. cbv beta iota.
  unfold negb, andb. unfold bind at 1.
  rewrite (get_client_eio_sid_eq self event), Hkey.
  rewrite <- (stream_key_event _ _ _ _ Hkey).
  unfold bind at 1. unfold ret at 1. unfold try_except.
  unfold encode_and_send, encode_frame. run.
  destruct (cv2_imencode frame) as [b|e]; cbn; [|reflexivity].
  rewrite andb_true_r.
  unfold record_size, jpeg_envelope, envelope_head.
  destruct (_stats self); cbn.
  - destruct (send_data _ _ _ _ _ _ _ _) as [[[[]|e] self2]|] eqn:Hs;
      try reflexivity.
    rewrite (send_data_no_encoder_error _ _ _ _ _ _ _ _ _ Hs). reflexivity.
  - destruct (send_data _ _ _ _ _ _ _ _) as [[[[]|e] self2]|] eqn:Hs;
      try reflexivity.
    rewrite (send_data_no_encoder_error _ _ _ _ _ _ _ _ _ Hs). reflexivity.
Qed.

Lemma recreate_encoder_eq (self : Channels) (key : string * string) (e : Exn) :
  recreate_encoder key e self =
  match _encoders self !! key with
  | None => Some (Raise KeyError, self)
  | Some enc =>
      if enc_init_count enc <? _recreate_h264_attempts_count self
      then Some (Ok tt,
                 set_encoders (<[key := encoder_init enc]> (_encoders self))
                   self)
      else Some (Raise e, self)
  end.
Proof.
  unfold recreate_encoder. run.
  destruct (_encoders self !! key) as [enc|]; [|reflexivity].
  destruct (enc_init_count enc <? _); reflexivity.
Qed.

(** Closes a goal on a state that is as before. *)
Ltac unchanged :=
  unfold after_send_image, after_image_decode;
  match goal with
  | |- exists sio' sz es, ?s = _ /\ _ =>
      exists (_sio s), (_sizes s), (_encoders s);
      split; [destruct s; reflexivity|];
      split; [apply same_connection_refl|]; auto
  | |- exists sio' ds, ?s = _ /\ _ =>
      exists (_sio s), (_decoders s);
      split; [destruct s; reflexivity|];
      split; [apply same_connection_refl|]; auto
  end.

(** What [send_image] leaves behind, whatever its outcome. *)
Lemma send_image_state (fuel : nat) (perf_counter_ns : Z)
  (self self' : Channels) (frame : ndarray) (event : string)
  (channel_type : ChannelType) (timestamp : option Z)
  (metadata : option Dict) (sid : option string)
  (can_be_dropped wait_for_reconnection : bool)
  (options : option (gmap string string)) (r : Result unit) :
  send_image fuel perf_counter_ns frame event channel_type timestamp metadata
    sid can_be_dropped wait_for_reconnection options self = Some (r, self') ->
  after_send_image event channel_type sid self self'.
Proof.
  intros Hsend.
  destruct (decide (channel_type = JPEG \/ channel_type = H264)) as [Hct|Hct].
  2: { unfold send_image in Hsend.
       destruct channel_type; try (exfalso; apply Hct; auto; fail);
         injection Hsend as <- <-; unchanged. }
  destruct (stream_key self event sid) as [key|] eqn:Hkey.
  2: { rewrite send_image_no_sid in Hsend by assumption.
       injection Hsend as <- <-. unchanged. }
  destruct Hct as [-> | ->].
  - (* JPEG *)
    unfold after_send_image. rewrite Hkey.
    rewrite (send_image_JPEG_eq _ _ _ _ _ _ _ _ _ _ _ _ Hkey) in Hsend.
    destruct (cv2_imencode frame) as [b|e].
    + apply send_data_frame in Hsend as (sio' & -> & Hsame).
      unfold record_size in *. destruct (_stats self) eqn:Hstats.
      * exists sio', (_sizes self ++ [Z.of_nat (length b)]), (_encoders self).
        split; [destruct self; reflexivity|]. split; [exact Hsame|].
        split; [right; eauto | left; reflexivity].
      * exists sio', (_sizes self), (_encoders self).
        split; [destruct self; reflexivity|]. split; [exact Hsame|]. auto.
    + destruct (is_H264EncoderError e).
      * rewrite recreate_encoder_eq in Hsend.
        destruct (_encoders self !! key) as [enc|] eqn:Henc.
        -- destruct (enc_init_count enc <? _) eqn:Hlt;
             injection Hsend as <- <-; [|unchanged].
           exists (_sio self), (_sizes self),
             (<[key := encoder_init enc]> (_encoders self)).
           split; [destruct self; reflexivity|].
           split; [apply same_connection_refl|]. split; [auto|].
           right. exists key, (encoder_init enc). rewrite Henc.
           repeat split. right. cbn. split; [lia | reflexivity].
        -- injection Hsend as <- <-. unchanged.
      * injection Hsend as <- <-. unchanged.
  - (* H264 *)
    unfold after_send_image. rewrite Hkey.
    rewrite (send_image_H264_eq _ _ _ _ _ _ _ _ _ _ _ _ Hkey) in Hsend.
    assert ((exists self1 enc,
                create_encoder frame key options self = Some (Ok tt, self1)
                /\ _encoders self1 !! key = Some enc
                /\ self1 = set_encoders (<[key := enc]> (_encoders self)) self
                /\ match _encoders self !! key with
                   | Some enc0 => enc = enc0
                   | None => enc_init_count enc = 0
                   end)
            \/ exists e, create_encoder frame key options self
                         = Some (Raise e, self)
                         \/ create_encoder frame key options self = None)
      as Hcreate.
    { destruct (_encoders self !! key) as [enc0|] eqn:Henc0.
      - left. exists self, enc0.
        rewrite (create_encoder_existing _ _ _ _ _ Henc0).
        repeat split; [exact Henc0|].
        rewrite insert_id by exact Henc0. destruct self; reflexivity.
      - destruct (create_encoder frame key options self) as [[r1 self1]|] eqn:Hc;
          [|right; exists KeyError; right; reflexivity].
        destruct (create_encoder_fresh _ _ _ _ _ _ Henc0 Hc)
          as [(-> & e & ->) | (enc & -> & -> & _)].
        + right. exists e. left. reflexivity.
        + left. exists (set_encoders (<[key := enc]> (_encoders self)) self), enc.
          repeat split; [cbn; apply lookup_insert_eq|].
          unfold create_encoder in Hc. revert Hc. run. rewrite Henc0.
          destruct (shape frame !! 1%nat) as [w|]; [|discriminate].
          destruct (shape frame !! 0%nat) as [h|]; [|discriminate].
          unfold H264Encoder_new.
          destruct (av_encoder_open w h options) as [n|e]; cbn;
            [|discriminate].
          intros [= Hc]. apply (f_equal (fun m => m !! key)) in Hc.
          rewrite !lookup_insert_eq in Hc. injection Hc as <-. reflexivity. }
    destruct Hcreate as [(self1 & enc & Hc & Henc & Hself1 & Hinit)|Hfail].
    2: { destruct Hfail as (e & [Hc | Hc]); rewrite Hc in Hsend;
           [|discriminate].
         injection Hsend as <- <-. unchanged. }
    rewrite Hc in Hsend. unfold try_except in Hsend.
    rewrite (encode_and_send_H264_eq _ _ _ _ _ _ _ _ _ Henc) in Hsend.
    cbv zeta in Hsend.
    destruct (encode_ndarray_geometry enc frame) as (_ & _ & _ & Hcount).
    set (enc1 := (encode_ndarray enc frame).2) in *.
    assert (forall enc', enc_init_count enc' = enc_init_count enc
                         \/ (enc_init_count enc
                             < _recreate_h264_attempts_count self
                             /\ enc_init_count enc' = enc_init_count enc + 1) ->
                         match _encoders self !! key with
                         | Some enc =>
                             enc_init_count enc' = enc_init_count enc
                             \/ (enc_init_count enc
                                 < _recreate_h264_attempts_count self
                                 /\ enc_init_count enc'
                                    = enc_init_count enc + 1)
                         | None =>
                             H264 = H264
                             /\ (enc_init_count enc' = 0
                                 \/ (0 < _recreate_h264_attempts_count self
                                     /\ enc_init_count enc' = 1))
                         end) as Hcounts.
    { intros enc' Hc'. destruct (_encoders self !! key) as [enc0|].
      - subst enc0. exact Hc'.
      - rewrite Hinit in Hc'. split; [reflexivity|].
        destruct Hc' as [? | [? ?]]; [left | right]; auto. }
    assert (forall (es : gmap (string * string) H264Encoder) enc',
               <[key := enc']> (_encoders self1) = <[key := enc']> (_encoders self))
      as Hins.
    { intros es enc'. rewrite Hself1. cbn. apply insert_insert_eq. }
    destruct ((encode_ndarray enc frame).1) as [b|e].
    + assert (exists sio', self' = set_sio sio'
                (record_size b (set_encoders (<[key := enc1]> (_encoders self1))
                                  self1))
                /\ same_connection (_sio self) sio') as (sio' & -> & Hsame).
      { destruct (send_data _ _ _ _ _ _ _ _) as [[[[]|e] self2]|] eqn:Hs;
          [| |discriminate].
        - injection Hsend as <- <-.
          apply send_data_frame in Hs as (sio' & -> & Hsame). exists sio'.
          split; [reflexivity|]. rewrite Hself1 in Hsame.
          unfold record_size in Hsame. cbn in Hsame.
          destruct (_stats self); exact Hsame.
        - rewrite (send_data_no_encoder_error _ _ _ _ _ _ _ _ _ Hs) in Hsend.
          injection Hsend as <- <-.
          apply send_data_frame in Hs as (sio' & -> & Hsame). exists sio'.
          split; [reflexivity|]. rewrite Hself1 in Hsame.
          unfold record_size in Hsame. cbn in Hsame.
          destruct (_stats self); exact Hsame. }
      rewrite (Hins ∅). rewrite Hself1. unfold record_size. cbn.
      destruct (_stats self) eqn:Hstats.
      * exists sio', (_sizes self ++ [Z.of_nat (length b)]),
          (<[key := enc1]> (_encoders self)).
        split; [destruct self; reflexivity|]. split; [exact Hsame|].
        split; [right; eauto|]. right. exists key, enc1.
        repeat split. apply Hcounts. left. exact Hcount.
      * exists sio', (_sizes self), (<[key := enc1]> (_encoders self)).
        split; [destruct self; reflexivity|]. split; [exact Hsame|].
        split; [auto|]. right. exists key, enc1.
        repeat split. apply Hcounts. left. exact Hcount.
    + rewrite (Hins ∅) in Hsend.
      assert (_recreate_h264_attempts_count self1
              = _recreate_h264_attempts_count self) as Hatt
        by (rewrite Hself1; reflexivity).
      destruct (is_H264EncoderError e).
      * rewrite recreate_encoder_eq in Hsend. cbn in Hsend.
        rewrite lookup_insert_eq, Hatt in Hsend.
        destruct (enc_init_count enc1 <? _) eqn:Hlt; injection Hsend as <- <-.
        -- rewrite insert_insert_eq.
           exists (_sio self), (_sizes self),
             (<[key := encoder_init enc1]> (_encoders self)).
           split; [rewrite Hself1; destruct self; reflexivity|].
           split; [apply same_connection_refl|]. split; [auto|].
           right. exists key, (encoder_init enc1). repeat split.
           apply Hcounts. right. cbn. rewrite Hcount. split; lia.
        -- exists (_sio self), (_sizes self), (<[key := enc1]> (_encoders self)).
           split; [rewrite Hself1; destruct self; reflexivity|].
           split; [apply same_connection_refl|]. split; [auto|].
           right. exists key, enc1. repeat split.
           apply Hcounts. left. exact Hcount.
      * injection Hsend as <- <-.
        exists (_sio self), (_sizes self), (<[key := enc1]> (_encoders self)).
        split; [rewrite Hself1; destruct self; reflexivity|].
        split; [apply same_connection_refl|]. split; [auto|].
        right. exists key, enc1. repeat split.
        apply Hcounts. left. exact Hcount.
Qed.

(** ** [image_decode]: what it leaves behind *)

Lemma image_decode_no_sid (fuel : nat) (self : Channels) (data : Dict)
  (event : string) (sid : option string) (frame : Value) :
  data !! "frame" = Some frame ->
  stream_key self event sid = None ->
  image_decode fuel data event sid self
  = Some (Raise (ValueError "'sid' has to be set for server."), self).
Proof.
  intros Hframe Hkey. unfold image_decode. rewrite Hframe.
  unfold bind at 1. rewrite (get_client_eio_sid_eq self event), Hkey.
  reflexivity.
Qed.

Lemma image_decode_undeclared (fuel : nat) (self : Channels) (data : Dict)
  (event : string) (sid : option string) (frame : Value)
  (key : string * string) :
  data !! "frame" = Some frame ->
  stream_key self event sid = Some key ->
  _callbacks_info self !! event = None ->
  image_decode fuel data event sid self = Some (Raise KeyError, self).
Proof.
  intros Hframe Hkey Hinfo. unfold image_decode. rewrite Hframe.
  unfold bind at 1. rewrite (get_client_eio_sid_eq self event), Hkey.
  unfold bind at 1. rewrite callback_info_eq, Hinfo. reflexivity.
Qed.

Lemma send_error_state (fuel : nat) (self self' : Channels)
  (timestamp : Value) (msg event : string) (sid : option string)
  (r : Result (option Dict)) :
  send_error fuel timestamp msg event sid self = Some (r, self') ->
  exists sio', self' = set_sio sio' self /\ same_connection (_sio self) sio'.
Proof. intros Hs. apply send_error_frame in Hs as (_ & Hs). exact Hs. Qed.

Lemma decode_frame_state (fuel : nat) (self self' : Channels) (data : Dict)
  (frame timestamp : Value) (event : string) (sid : option string)
  (key : string * string) (dec : H264Decoder) (r : Result (option Dict)) :
  _decoders self !! key = Some dec ->
  decode_frame fuel data frame timestamp event sid key self = Some (r, self') ->
  exists sio' dec',
    self' = set_sio sio' (set_decoders (<[key := dec']> (_decoders self)) self)
    /\ same_connection (_sio self) sio'
    /\ last_timestamp dec' = last_timestamp dec
    /\ (dec_init_count dec' = dec_init_count dec
        \/ (dec_init_count dec < _recreate_h264_attempts_count self
            /\ dec_init_count dec' = dec_init_count dec + 1)).
Proof.
  intros Hdec. rewrite (decode_frame_decoder_eq _ _ _ _ _ _ _ _ _ Hdec).
  cbv zeta. destruct (decode_packet_data_fields dec frame) as (Hlast & Hcount).
  set (dec1 := (decode_packet_data dec frame).2) in *.
  destruct ((decode_packet_data dec frame).1) as [frame_decoded|e].
  - intros [= <- <-]. exists (_sio self), dec1.
    split; [destruct self; reflexivity|].
    split; [apply same_connection_refl|]. auto.
  - destruct (is_H264DecoderError e).
    + destruct (dec_init_count dec1 <? _) eqn:Hlt; intros Hs;
        apply send_error_state in Hs as (sio' & -> & Hsame); cbn in Hsame.
      * exists sio', (decoder_init dec1). cbn. rewrite insert_insert_eq.
        split; [destruct self; reflexivity|]. split; [exact Hsame|].
        split; [exact Hlast|]. right. rewrite Hcount. split; lia.
      * exists sio', dec1.
        split; [destruct self; reflexivity|]. split; [exact Hsame|]. auto.
    + intros [= <- <-]. exists (_sio self), dec1.
      split; [destruct self; reflexivity|].
      split; [apply same_connection_refl|]. auto.
Qed.

Lemma check_timestamp_state (fuel : nat) (self self' : Channels) (data : Dict)
  (frame timestamp : Value) (event : string) (sid : option string)
  (key : string * string) (dec : H264Decoder) (r : Result (option Dict)) :
  _decoders self !! key = Some dec ->
  check_timestamp fuel data frame timestamp event sid key self
  = Some (r, self') ->
  exists sio' dec',
    self' = set_sio sio' (set_decoders (<[key := dec']> (_decoders self)) self)
    /\ same_connection (_sio self) sio'
    /\ (last_timestamp dec' = last_timestamp dec
        \/ (last_timestamp dec' = timestamp
            /\ exists diff, py_sub timestamp (last_timestamp dec) = Ok diff
                            /\ 0 <= diff))
    /\ (dec_init_count dec' = dec_init_count dec
        \/ (dec_init_count dec < _recreate_h264_attempts_count self
            /\ dec_init_count dec' = dec_init_count dec + 1)).
Proof.
  intros Hdec. rewrite (check_timestamp_decoder_eq _ _ _ _ _ _ _ _ _ Hdec).
  destruct (py_sub timestamp (last_timestamp dec)) as [diff|e] eqn:Hsub.
  - destruct (diff <? 0) eqn:Hlt.
    + intros Hs. apply send_error_state in Hs as (sio' & -> & Hsame).
      exists sio', dec. rewrite insert_id by exact Hdec.
      split; [destruct self; reflexivity|]. split; [exact Hsame|]. auto.
    + intros Hd.
      apply (decode_frame_state _ _ _ _ _ _ _ _ _
               (set_last_timestamp timestamp dec)) in Hd
          as (sio' & dec' & -> & Hsame & Hlast & Hcount);
        [|cbn; apply lookup_insert_eq].
      cbn in *. exists sio', dec'. rewrite insert_insert_eq.
      split; [destruct self; reflexivity|]. split; [exact Hsame|].
      split; [|exact Hcount]. right. split; [exact Hlast|].
      exists diff. split; [reflexivity | lia].
  - intros [= <- <-]. exists (_sio self), dec. rewrite insert_id by exact Hdec.
    split; [destruct self; reflexivity|].
    split; [apply same_connection_refl|]. auto.
Qed.

Lemma image_decode_state (fuel : nat) (self self' : Channels) (data : Dict)
  (event : string) (sid : option string) (r : Result (option Dict)) :
  image_decode fuel data event sid self = Some (r, self') ->
  after_image_decode initial_last_timestamp data event sid self self'.
Proof.
  intros Hd.
  assert (forall sio', same_connection (_sio self) sio' ->
                       after_image_decode initial_last_timestamp data event
                         sid self (set_sio sio' self)) as traffic.
  { intros sio' Hsame. exists sio', (_decoders self).
    split; [destruct self; reflexivity|]. auto. }
  destruct (data !! "frame") as [frame|] eqn:Hframe.
  2: { rewrite image_decode_no_frame_eq in Hd by exact Hframe.
       apply send_error_state in Hd as (sio' & -> & Hsame). auto. }
  destruct (stream_key self event sid) as [key|] eqn:Hkey.
  2: { rewrite (image_decode_no_sid _ _ _ _ _ _ Hframe Hkey) in Hd.
       injection Hd as <- <-. unchanged. }
  destruct (_callbacks_info self !! event) as [info|] eqn:Hinfo.
  2: { rewrite (image_decode_undeclared _ _ _ _ _ _ _ Hframe Hkey Hinfo) in Hd.
       injection Hd as <- <-. unchanged. }
  rewrite (image_decode_eq _ _ _ _ _ _ _ _ Hframe Hkey Hinfo) in Hd.
  assert (forall dec,
             _decoders self !! key = Some dec ->
             check_timestamp fuel data frame (envelope_timestamp data) event
               sid key self = Some (r, self') ->
             after_image_decode initial_last_timestamp data event sid self
               self') as existing.
  { intros dec Hdec Hc.
    apply (check_timestamp_state _ _ _ _ _ _ _ _ _ _ _ Hdec) in Hc
        as (sio' & dec' & -> & Hsame & Hlast & Hcount).
    exists sio', (<[key := dec']> (_decoders self)).
    split; [reflexivity|]. split; [exact Hsame|]. right.
    exists key, dec, dec'. rewrite Hdec. auto. }
  assert (_decoders self !! key = None ->
          check_timestamp fuel data frame (envelope_timestamp data) event
            sid key self = Some (r, self') ->
          after_image_decode initial_last_timestamp data event sid self
            self') as still.
  { intros Hnone Hc. rewrite check_timestamp_still_eq in Hc by exact Hnone.
    rewrite decode_frame_still_eq in Hc by exact Hnone.
    destruct (cv2_imdecode frame) as [frame_decoded|e].
    - injection Hc as <- <-. unchanged.
    - apply send_error_state in Hc as (sio' & -> & Hsame). auto. }
  destruct (_decoders self !! key) as [dec|] eqn:Hdec.
  { destruct (type info); eauto. }
  destruct (type info) eqn:Htype; try (apply still; [reflexivity | exact Hd]).
  destruct (data !! "width") as [w|];
    [|apply send_error_state in Hd as (sio' & -> & Hsame); auto].
  destruct (data !! "height") as [h|];
    [|apply send_error_state in Hd as (sio' & -> & Hsame); auto].
  destruct (H264Decoder_new initial_last_timestamp w h) as [dec|e] eqn:Hnew;
    [|apply send_error_state in Hd as (sio' & -> & Hsame); auto].
  apply (check_timestamp_state _ _ _ _ _ _ _ _ _ dec) in Hd
      as (sio' & dec' & -> & Hsame & Hlast & Hcount);
    [|cbn; apply lookup_insert_eq].
  cbn in *. rewrite insert_insert_eq.
  exists sio', (<[key := dec']> (_decoders self)).
  split; [destruct self; reflexivity|]. split; [exact Hsame|]. right.
  exists key, dec, dec'. rewrite Hkey, Hdec.
  unfold H264Decoder_new in Hnew.
  destruct (av_decoder_open w h) as [n|e]; [|discriminate].
  injection Hnew as <-. cbn in *. repeat split; eauto.
Qed.

(** ** What a call never touches *)

Lemma data_lz4_decode_state (fuel : nat) (self self' : Channels)
  (data : Value) (event : string) (sid : option string) (r : Result Value) :
  data_lz4_decode fuel data event sid self = Some (r, self') ->
  exists sio', self' = set_sio sio' self /\ same_connection (_sio self) sio'.
Proof.
  assert (forall s : Channels, s = set_sio (_sio s) s) as Hid
    by (intros []; reflexivity).
  unfold data_lz4_decode.
  destruct data as [| | | |b| |];
    try (intros [= <- <-]; exists (_sio self);
         split; [apply Hid | apply same_connection_refl]).
  destruct (lz4_loads b) as [v|e].
  - intros [= <- <-]. exists (_sio self).
    split; [apply Hid | apply same_connection_refl].
  - unfold bind at 1. rewrite callback_info_eq.
    destruct (_callbacks_info self !! event) as [info|].
    + unfold bind, ret.
      destruct (send_data _ _ _ _ _ _ _ _) as [[[[]|e'] self1]|] eqn:Hs;
        [| |discriminate]; intros [= <- <-];
        apply send_data_frame in Hs; exact Hs.
    + intros [= <- <-]. exists (_sio self).
      split; [apply Hid | apply same_connection_refl].
Qed.

(** X5: whatever its outcome, [send_image] leaves the configuration and the
    decoders as they were and the connections named as before; it touches no
    encoder but the one of its own stream, adds no key to the registry on a
    JPEG channel, keeps no size when statistics are off and at most one
    otherwise. *)
Theorem send_image_leaves_the_rest (fuel : nat) (perf_counter_ns : Z)
  (self self' : Channels) (frame : ndarray) (event : string)
  (channel_type : ChannelType) (timestamp : option Z)
  (metadata : option Dict) (sid : option string)
  (can_be_dropped wait_for_reconnection : bool)
  (options : option (gmap string string)) (r : Result unit) :
  send_image fuel perf_counter_ns frame event channel_type timestamp metadata
    sid can_be_dropped wait_for_reconnection options self = Some (r, self') ->
  same_configuration self self'
  /\ _decoders self' = _decoders self
  /\ same_connection (_sio self) (_sio self')
  /\ (forall key', stream_key self event sid <> Some key' ->
                   _encoders self' !! key' = _encoders self !! key')
  /\ (channel_type <> H264 ->
      forall key', is_Some (_encoders self' !! key')
                   <-> is_Some (_encoders self !! key'))
  /\ (_stats self = false -> _sizes self' = _sizes self)
  /\ exists more, _sizes self' = _sizes self ++ more
                  /\ (length more <= 1)%nat.
Proof.
  intros Hsend. apply send_image_state in Hsend
    as (sio' & sz & es & -> & Hsame & Hsz & Hes).
  cbn. split; [repeat split|]. split; [reflexivity|]. split; [exact Hsame|].
  split; [|split; [|split]].
  - intros key' Hne. destruct Hes as [-> | (key & enc' & Hkey & -> & _)];
      [reflexivity|].
    apply lookup_insert_ne. congruence.
  - intros Hct key'.
    destruct Hes as [-> | (key & enc' & Hkey & -> & Hcount)]; [reflexivity|].
    destruct (decide (key = key')) as [<- | Hne].
    + rewrite lookup_insert_eq.
      destruct (_encoders self !! key) as [enc|].
      * split; eauto.
      * destruct Hcount as (Hh264 & _). contradiction.
    + rewrite lookup_insert_ne by exact Hne. reflexivity.
  - intros Hstats. destruct Hsz as [-> | (Hon & _)]; [reflexivity|congruence].
  - destruct Hsz as [-> | (_ & b & ->)].
    + exists []. rewrite app_nil_r. split; [reflexivity | cbn; lia].
    + eexists. split; [reflexivity | cbn; lia].
Qed.

(** X6: whatever its outcome, [image_decode] leaves the configuration, the
    encoders and the sizes as they were and the connections named as before;
    it touches no decoder but the one of its own stream, and drops none. *)
Theorem image_decode_leaves_the_rest (fuel : nat) (self self' : Channels)
  (data : Dict) (event : string) (sid : option string)
  (r : Result (option Dict)) :
  image_decode fuel data event sid self = Some (r, self') ->
  same_configuration self self'
  /\ _encoders self' = _encoders self
  /\ _sizes self' = _sizes self
  /\ same_connection (_sio self) (_sio self')
  /\ (forall key', stream_key self event sid <> Some key' ->
                   _decoders self' !! key' = _decoders self !! key')
  /\ (forall key', is_Some (_decoders self !! key') ->
                   is_Some (_decoders self' !! key')).
Proof.
  intros Hd. apply image_decode_state in Hd as (sio' & ds & -> & Hsame & Hds).
  cbn. split; [repeat split|]. split; [reflexivity|]. split; [reflexivity|].
  split; [exact Hsame|]. split.
  - intros key' Hne. destruct Hds as [-> | (key & dec & dec' & Hkey & -> & _)];
      [reflexivity|].
    apply lookup_insert_ne. congruence.
  - intros key' Hsome.
    destruct Hds as [-> | (key & dec & dec' & Hkey & -> & _)]; [exact Hsome|].
    destruct (decide (key = key')) as [<- | Hne].
    + rewrite lookup_insert_eq. eauto.
    + rewrite lookup_insert_ne by exact Hne. exact Hsome.
Qed.

(** ** Invariants along any sequence of calls *)

Lemma last_timestamps_kept_refl (self : Channels) :
  last_timestamps_kept self self.
Proof. intros key dec l Hdec Hl. exists dec, l. repeat split; auto. lia. Qed.

Lemma last_timestamps_kept_trans (s1 s2 s3 : Channels) :
  last_timestamps_kept s1 s2 -> last_timestamps_kept s2 s3 ->
  last_timestamps_kept s1 s3.
Proof.
  intros H12 H23 key dec l Hdec Hl.
  destruct (H12 _ _ _ Hdec Hl) as (dec2 & l2 & Hdec2 & Hl2 & Hle2).
  destruct (H23 _ _ _ Hdec2 Hl2) as (dec3 & l3 & Hdec3 & Hl3 & Hle3).
  exists dec3, l3. repeat split; auto. lia.
Qed.

Lemma last_timestamps_kept_decoders (self self' : Channels) :
  _decoders self' = _decoders self -> last_timestamps_kept self self'.
Proof.
  intros Heq key dec l Hdec Hl. exists dec, l. rewrite Heq.
  repeat split; auto. lia.
Qed.

Lemma after_image_decode_last_timestamps (self self' : Channels) (data : Dict)
  (event : string) (sid : option string) :
  after_image_decode initial_last_timestamp data event sid self self' ->
  last_timestamps_kept self self'.
Proof.
  intros (sio' & ds & -> & _ & Hds) key0 dec0 l Hdec0 Hl. cbn.
  destruct Hds as [-> | (key & dec & dec' & _ & -> & Hold & Hlast & _)].
  { exists dec0, l. repeat split; auto. lia. }
  destruct (decide (key = key0)) as [<- | Hne].
  - rewrite lookup_insert_eq. rewrite Hdec0 in Hold. subst dec0.
    destruct Hlast as [Hlast | (Hlast & diff & Hsub & Hdiff)].
    + exists dec', l. rewrite Hlast. repeat split; auto. lia.
    + unfold py_sub in Hsub. rewrite Hl in Hsub.
      destruct (as_int (default (VInt 0) (data !! "timestamp"))) as [t|] eqn:Ht;
        [|discriminate].
      injection Hsub as <-. exists dec', t. rewrite Hlast.
      repeat split; auto. lia.
  - rewrite lookup_insert_ne by exact Hne. exists dec0, l.
    repeat split; auto. lia.
Qed.

Lemma invoke_last_timestamps (fuel : nat) (i : Invocation)
  (self self' : Channels) :
  invoke initial_last_timestamp fuel i self = Some self' ->
  last_timestamps_kept self self'.
Proof.
  destruct i; cbn; intros Hi;
    apply fmap_Some in Hi as ([r s] & Hcall & ->); cbn.
  - apply send_data_frame in Hcall as (sio' & -> & _).
    apply last_timestamps_kept_decoders. reflexivity.
  - apply send_image_state in Hcall as (sio' & sz & es & -> & _).
    apply last_timestamps_kept_decoders. reflexivity.
  - apply image_decode_state in Hcall.
    eapply after_image_decode_last_timestamps. exact Hcall.
  - apply data_lz4_decode_state in Hcall as (sio' & -> & _).
    apply last_timestamps_kept_decoders. reflexivity.
Qed.

(** X7: along any sequence of calls of [send_data], [send_image],
    [image_decode] and [data_lz4_decode], no decoder is lost and no numeric
    [last_timestamp] goes down. *)
Theorem last_timestamp_never_goes_back (fuel : nat) (calls : list Invocation)
  (self self' : Channels) :
  invoke_all initial_last_timestamp fuel calls self = Some self' ->
  last_timestamps_kept self self'.
Proof.
  revert self. induction calls as [|i calls IH]; intros self; cbn.
  - intros [= <-]. apply last_timestamps_kept_refl.
  - destruct (invoke initial_last_timestamp fuel i self) as [self1|] eqn:Hi;
      [|discriminate].
    intros Hrest. eapply last_timestamps_kept_trans.
    + eapply invoke_last_timestamps. exact Hi.
    + apply IH. exact Hrest.
Qed.

(** The invariant of the objects that the constructor builds. *)
Lemma after_send_image_invariant (self self' : Channels) (event : string)
  (channel_type : ChannelType) (sid : option string) :
  0 <= _recreate_h264_attempts_count self ->
  after_send_image event channel_type sid self self' ->
  decoders_of_h264_only self /\ recreations_bounded self ->
  decoders_of_h264_only self' /\ recreations_bounded self'.
Proof.
  intros Hatt (sio' & sz & es & -> & _ & _ & Hes) (Hh264 & Hdecs & Hencs).
  split; [exact Hh264|]. split; [exact Hdecs|]. cbn.
  destruct Hes as [-> | (key & enc' & _ & -> & Hcount)]; [exact Hencs|].
  intros key0 enc0. destruct (decide (key = key0)) as [<- | Hne].
  - rewrite lookup_insert_eq. intros [= <-].
    destruct (_encoders self !! key) as [enc|] eqn:Henc.
    + specialize (Hencs _ _ Henc). lia.
    + lia.
  - rewrite lookup_insert_ne by exact Hne. apply Hencs.
Qed.

Lemma after_image_decode_invariant (self self' : Channels) (data : Dict)
  (event : string) (sid : option string) :
  0 <= _recreate_h264_attempts_count self ->
  after_image_decode initial_last_timestamp data event sid self self' ->
  decoders_of_h264_only self /\ recreations_bounded self ->
  decoders_of_h264_only self' /\ recreations_bounded self'.
Proof.
  intros Hatt (sio' & ds & -> & _ & Hds) (Hh264 & Hdecs & Hencs).
  destruct Hds as [-> | (key & dec & dec' & Hkey & -> & Hold & _ & Hcount)].
  { split; [exact Hh264|]. split; [exact Hdecs | exact Hencs]. }
  split; [|split; [|exact Hencs]].
  - intros key0. cbn. destruct (decide (key = key0)) as [<- | Hne].
    + intros _. destruct (_decoders self !! key) as [dec0|] eqn:Hdec0.
      * apply Hh264. rewrite Hdec0. eauto.
      * destruct Hold as (_ & _ & info & Hinfo & Htype).
        apply stream_key_event in Hkey. rewrite Hkey. cbn. eauto.
    + rewrite lookup_insert_ne by exact Hne. apply Hh264.
  - intros key0 dec0. cbn. destruct (decide (key = key0)) as [<- | Hne].
    + rewrite lookup_insert_eq. intros [= <-].
      destruct (_decoders self !! key) as [dec1|] eqn:Hdec1.
      * subst dec1. specialize (Hdecs _ _ Hdec1). lia.
      * destruct Hold as (_ & Hzero & _). lia.
    + rewrite lookup_insert_ne by exact Hne. apply Hdecs.
Qed.

Lemma invoke_invariant (fuel : nat) (i : Invocation) (self self' : Channels) :
  0 <= _recreate_h264_attempts_count self ->
  invoke initial_last_timestamp fuel i self = Some self' ->
  decoders_of_h264_only self /\ recreations_bounded self ->
  same_configuration self self'
  /\ decoders_of_h264_only self' /\ recreations_bounded self'
  /\ (_stats self = false -> _sizes self' = _sizes self).
Proof.
  intros Hatt Hi Hinv.
  destruct i; cbn in Hi; apply fmap_Some in Hi as ([r s] & Hcall & ->); cbn.
  - apply send_data_frame in Hcall as (sio' & -> & _).
    split; [repeat split|]. split; [apply Hinv|]. split; [apply Hinv|]. auto.
  - pose proof (send_image_state _ _ _ _ _ _ _ _ _ _ _ _ _ _ Hcall) as Hafter.
    destruct (after_send_image_invariant _ _ _ _ _ Hatt Hafter Hinv)
      as (Hh & Hb).
    destruct Hafter as (sio' & sz & es & -> & _ & Hsz & _).
    split; [repeat split|]. split; [exact Hh|]. split; [exact Hb|].
    cbn. intros Hstats. destruct Hsz as [-> | (Hon & _)];
      [reflexivity | congruence].
  - pose proof (image_decode_state _ _ _ _ _ _ _ Hcall) as Hafter.
    destruct (after_image_decode_invariant _ _ _ _ _ Hatt Hafter Hinv)
      as (Hh & Hb).
    destruct Hafter as (sio' & ds & -> & _).
    split; [repeat split|]. split; [exact Hh|]. split; [exact Hb|]. auto.
  - apply data_lz4_decode_state in Hcall as (sio' & -> & _).
    split; [repeat split|]. split; [apply Hinv|]. split; [apply Hinv|]. auto.
Qed.

(** X8: whatever is called on an object after its construction, its
    configuration stays as passed to the constructor (with a threshold of one
    at least, if any), it keeps no size when statistics are off, it has
    decoders for events declared as H.264 only, and, for a ceiling that is
    not negative, no codec with more re-initialisations than the ceiling. *)
Theorem constructed_object_invariants (fuel : nat) (sio : Sio)
  (callbacks_info : gmap string CallbackInfo) (back_pressure_size : option Z)
  (recreate_h264_attempts_count : Z) (stats : bool)
  (calls : list Invocation) (self self' : Channels) :
  Channels_init sio callbacks_info back_pressure_size
    recreate_h264_attempts_count stats = Ok self ->
  0 <= recreate_h264_attempts_count ->
  invoke_all initial_last_timestamp fuel calls self = Some self' ->
  _callbacks_info self' = callbacks_info
  /\ _back_pressure_size self' = back_pressure_size
  /\ (forall size, _back_pressure_size self' = Some size -> 1 <= size)
  /\ _recreate_h264_attempts_count self' = recreate_h264_attempts_count
  /\ _stats self' = stats
  /\ (stats = false -> _sizes self' = [])
  /\ decoders_of_h264_only self'
  /\ recreations_bounded self'.
Proof.
  intros Hinit Hatt Hcalls.
  assert (_callbacks_info self = callbacks_info
          /\ _recreate_h264_attempts_count self = recreate_h264_attempts_count
          /\ _stats self = stats /\ _sizes self = []) as (Hcb & Hra & Hst & Hsz).
  { unfold Channels_init in Hinit. destruct back_pressure_size as [n|];
      [destruct (n <? 1); [discriminate|]|]; injection Hinit as <-; auto. }
  destruct (Channels_init_ok _ _ _ _ _ _ Hinit) as (Hbps & Hsize & Hds & Hes).
  assert (decoders_of_h264_only self /\ recreations_bounded self) as Hinv.
  { split; [|split].
    - intros key [dec Hdec]. rewrite Hds in Hdec. discriminate.
    - intros key dec Hdec. rewrite Hds in Hdec. discriminate.
    - intros key enc Henc. rewrite Hes in Henc. discriminate. }
  rewrite <- Hcb, <- Hbps, <- Hra, <- Hst. rewrite <- Hra in Hatt.
  rewrite <- Hbps in Hsize. rewrite <- Hsz.
  clear Hinit Hcb Hbps Hra Hst Hsz Hds Hes.
  revert self Hatt Hcalls Hsize Hinv.
  induction calls as [|i calls IH]; intros self Hatt Hcalls Hsize Hinv;
    cbn in Hcalls.
  - injection Hcalls as <-. destruct Hinv as (? & ? & ?). repeat split; auto.
  - destruct (invoke initial_last_timestamp fuel i self) as [self1|] eqn:Hi;
      [|discriminate].
    destruct (invoke_invariant _ _ _ _ Hatt Hi Hinv)
      as ((Hc1 & Hc2 & Hc3 & Hc4) & Hh & Hb & Hs).
    rewrite <- Hc1, <- Hc2, <- Hc3, <- Hc4.
    assert (0 <= _recreate_h264_attempts_count self1) as Hatt1
      by (rewrite Hc2; exact Hatt).
    assert (forall size, _back_pressure_size self1 = Some size -> 1 <= size)
      as Hsize1 by (rewrite Hc1; exact Hsize).
    destruct (IH self1 Hatt1 Hcalls Hsize1 (conj Hh Hb))
      as (? & ? & ? & ? & ? & Hsz' & ? & ? & ?).
    repeat split; auto.
    intros Hoff. rewrite Hsz' by exact Hoff.
    apply Hs. rewrite <- Hc3. exact Hoff.
Qed.

(** ** The wait for reconnection inside [send_data] *)

Lemma wait_for_reconnection_loop_slept (fuel n : nat) (c : ClientSio) :
  (forall i, (i < n)%nat -> waiting (c_status c (c_clock c + i)%nat) = true) ->
  waiting (c_status c (c_clock c + n)%nat) = false ->
  (n <= fuel)%nat ->
  wait_for_reconnection_loop fuel c = Some (slept n c).
Proof.
  revert fuel c. induction n as [|n IH]; intros fuel c Hbefore Hat Hle.
  - rewrite Nat.add_0_r in Hat. rewrite slept_0. unfold waiting in Hat.
    destruct fuel; cbn;
      destruct (not_connected _); try destruct (no_reconnect_task _);
      try discriminate; reflexivity.
  - destruct fuel as [|fuel]; [lia|].
    pose proof (Hbefore 0%nat ltac:(lia)) as H0. rewrite Nat.add_0_r in H0.
    unfold waiting in H0. cbn.
    destruct (not_connected _); [|discriminate].
    destruct (no_reconnect_task _); [discriminate|].
    rewrite <- slept_sleep. apply IH; cbn.
    + intros i Hi. specialize (Hbefore (S i) ltac:(lia)).
      replace (c_clock c + S i)%nat with (S (c_clock c + i)) in Hbefore by lia.
      exact Hbefore.
    + replace (c_clock c + S n)%nat with (S (c_clock c + n)) in Hat by lia.
      exact Hat.
    + lia.
Qed.

(** X9: a send of a client that may not be dropped sleeps one second for
    each second at which the client is waiting, then emits, whether the wait
    ended on a connection or on a reconnection given up; without
    [wait_for_reconnection] it emits at once. *)
Theorem send_data_emits_after_the_wait (fuel n : nat) (self : Channels)
  (c : ClientSio) (data : Dict) (event : string) (channel_type : ChannelType)
  (sid : option string) (payload : Value) :
  _sio self = Client c ->
  encode_payload data channel_type = Ok payload ->
  channel_type = JSON \/ channel_type = JSON_LZ4 ->
  (forall i, (i < n)%nat -> waiting (c_status c (c_clock c + i)%nat) = true) ->
  waiting (c_status c (c_clock c + n)%nat) = false ->
  (n <= fuel)%nat ->
  send_data fuel data event channel_type sid false true self
  = Some (Ok tt,
          set_sio (Client (client_emit
                     {| em_event := event; em_data := payload;
                        em_namespace := DATA_NAMESPACE; em_to := None |}
                     (slept n c))) self)
  /\ send_data fuel data event channel_type sid false false self
     = Some (Ok tt,
             set_sio (Client (client_emit
                        {| em_event := event; em_data := payload;
                           em_namespace := DATA_NAMESPACE; em_to := None |}
                        c)) self).
Proof.
  intros Hsio Hpay Hct Hbefore Hat Hle.
  rewrite !send_data_eq by exact Hct. rewrite back_pressure_check_eq.
  replace (match _back_pressure_size self with
           | Some _ | _ => Some (Ok tt, self) end)
    with (Some (Ok tt, self))
    by (destruct (_back_pressure_size self); reflexivity).
  rewrite Hpay. unfold emit_data. rewrite Hsio.
  rewrite (wait_for_reconnection_loop_slept _ _ _ Hbefore Hat Hle).
  split; reflexivity.
Qed.

(** ** JPEG frames *)

Lemma envelope_head_lookup (perf_counter_ns : Z) (timestamp : option Z)
  (metadata : option Dict) (k : string) :
  envelope_head perf_counter_ns timestamp metadata !! k =
  if bool_decide (k = "metadata") then
    match metadata with
    | Some md => if bool_decide (size md = 0%nat) then None
                 else Some (VDict md)
    | None => None
    end
  else if bool_decide (k = "timestamp")
       then Some (VInt (default perf_counter_ns timestamp))
       else None.
Proof.
  unfold envelope_head, with_metadata.
  assert (forall (v : Value),
             ({["timestamp" := v]} : Dict) !! k
             = if bool_decide (k = "timestamp") then Some v else None) as Hone.
  { intros v. case_bool_decide as Hk.
    - subst k. apply lookup_singleton_eq.
    - apply lookup_singleton_ne. congruence. }
  destruct (decide (k = "metadata")) as [-> | Hmd].
  - rewrite bool_decide_eq_true_2 by reflexivity.
    destruct metadata as [md|]; [destruct (bool_decide (size md = 0%nat))|];
      try (apply lookup_singleton_ne; discriminate).
    apply lookup_insert_eq.
  - rewrite (bool_decide_eq_false_2 _ Hmd).
    destruct metadata as [md|]; [destruct (bool_decide (size md = 0%nat))|];
      rewrite ?lookup_insert_ne by congruence; apply Hone.
Qed.

(** X10: a JPEG frame goes to [send_data] with [can_be_dropped] as the
    caller gave it, in an envelope with the encoded frame and the timestamp
    and without [h264], [width] and [height]. *)
Theorem send_image_jpeg (fuel : nat) (perf_counter_ns : Z) (self : Channels)
  (frame : ndarray) (event : string) (timestamp : option Z)
  (metadata : option Dict) (sid : option string)
  (can_be_dropped wait_for_reconnection : bool)
  (options : option (gmap string string)) (key : string * string)
  (frame_encoded : list Byte.byte) :
  stream_key self event sid = Some key ->
  cv2_imencode frame = Ok frame_encoded ->
  let envelope :=
    jpeg_envelope (envelope_head perf_counter_ns timestamp metadata)
      frame_encoded in
  send_image fuel perf_counter_ns frame event JPEG timestamp metadata sid
    can_be_dropped wait_for_reconnection options self
  = send_data fuel envelope event JSON sid can_be_dropped true
      (record_size frame_encoded self)
  /\ envelope !! "frame" = Some (VBytes frame_encoded)
  /\ envelope !! "timestamp" = Some (VInt (default perf_counter_ns timestamp))
  /\ envelope !! "h264" = None
  /\ envelope !! "width" = None
  /\ envelope !! "height" = None.
Proof.
  intros Hkey Henc envelope. split.
  - rewrite (send_image_JPEG_eq _ _ _ _ _ _ _ _ _ _ _ _ Hkey), Henc.
    reflexivity.
  - unfold envelope, jpeg_envelope.
    split; [apply lookup_insert_eq|].
    rewrite !lookup_insert_ne by discriminate.
    rewrite !envelope_head_lookup. repeat split; reflexivity.
Qed.

(** X11: with statistics on, the size of an encoded frame is kept even when
    back-pressure then refuses the send: the call raises
    [BackPressureException] and the object differs by that size only. *)
Theorem sizes_count_encoded_frames (fuel : nat) (perf_counter_ns : Z)
  (self : Channels) (frame : ndarray) (event : string) (timestamp : option Z)
  (metadata : option Dict) (sid : option string) (wait_for_reconnection : bool)
  (options : option (gmap string string)) (key : string * string)
  (frame_encoded : list Byte.byte) (size q : Z) :
  stream_key self event sid = Some key ->
  cv2_imencode frame = Ok frame_encoded ->
  _stats self = true ->
  _back_pressure_size self = Some size ->
  queue_depth self sid = Some q ->
  size < q ->
  send_image fuel perf_counter_ns frame event JPEG timestamp metadata sid
    true wait_for_reconnection options self
  = Some (Raise BackPressureException,
          set_sizes (_sizes self ++ [Z.of_nat (length frame_encoded)]) self).
Proof.
  intros Hkey Henc Hstats Hsize Hq Hlt.
  rewrite (send_image_JPEG_eq _ _ _ _ _ _ _ _ _ _ _ _ Hkey), Henc.
  unfold record_size. rewrite Hstats.
  rewrite send_data_eq by auto. rewrite back_pressure_check_eq. cbn.
  rewrite Hsize.
  replace (queue_depth (set_sizes _ self) sid) with (queue_depth self sid)
    by reflexivity.
  rewrite Hq. destruct (q >? size) eqn:Hgt; [reflexivity | lia].
Qed.

(** X12: an H.264 frame that is not a keyframe and may be dropped is
    refused over the threshold only after it was encoded: the call raises
    [BackPressureException] and leaves the encoder in its state after the
    frame. *)
Theorem dropped_h264_frame_was_encoded (fuel : nat) (perf_counter_ns : Z)
  (self self1 : Channels) (frame : ndarray) (event : string)
  (timestamp : option Z) (metadata : option Dict) (sid : option string)
  (wait_for_reconnection : bool) (options : option (gmap string string))
  (key : string * string) (enc : H264Encoder)
  (frame_encoded : list Byte.byte) (size q : Z) :
  stream_key self event sid = Some key ->
  create_encoder frame key options self = Some (Ok tt, self1) ->
  _encoders self1 !! key = Some enc ->
  (encode_ndarray enc frame).1 = Ok frame_encoded ->
  enc_keyframe (encode_ndarray enc frame).2 = false ->
  _back_pressure_size self = Some size ->
  queue_depth self sid = Some q ->
  size < q ->
  send_image fuel perf_counter_ns frame event H264 timestamp metadata sid
    true wait_for_reconnection options self
  = Some (Raise BackPressureException,
          record_size frame_encoded
            (set_encoders
               (<[key := (encode_ndarray enc frame).2]> (_encoders self1))
               self1)).
Proof.
  intros Hkey Hcreate Henc Hres Hkf Hsize Hq Hlt.
  rewrite (send_image_H264_eq _ _ _ _ _ _ _ _ _ _ _ _ Hkey), Hcreate.
  unfold try_except.
  rewrite (encode_and_send_H264_eq _ _ _ _ _ _ _ _ _ Henc). cbv zeta.
  rewrite Hres, Hkf. cbn [negb andb].
  apply create_encoder_frame in Hcreate as (es & ->).
  set (self2 := record_size _ _).
  assert (_sio self2 = _sio self
          /\ _back_pressure_size self2 = _back_pressure_size self)
    as (Hsio & Hbps).
  { unfold self2, record_size. cbn. destruct (_stats self); auto. }
  rewrite send_data_eq by auto. rewrite back_pressure_check_eq.
  rewrite Hbps, Hsize.
  replace (queue_depth self2 sid) with (queue_depth self sid)
    by (unfold queue_depth; rewrite Hsio; reflexivity).
  rewrite Hq. destruct (q >? size) eqn:Hgt; [reflexivity | lia].
Qed.

(** ** From [send_image] to [image_decode] *)

Lemma send_data_ok_emitted (fuel : nat) (self self' : Channels) (data : Dict)
  (event : string) (sid : option string)
  (can_be_dropped wait_for_reconnection : bool) :
  send_data fuel data event JSON sid can_be_dropped wait_for_reconnection self
  = Some (Ok tt, self') ->
  emitted (_sio self')
  = emitted (_sio self) ++ [emission self event (VDict data) sid].
Proof.
  rewrite send_data_eq by auto.
  destruct (back_pressure_check sid can_be_dropped self)
    as [[[[]|e] self1]|]; try discriminate.
  cbn. intros He. apply emit_data_outcome in He. exact He.
Qed.

Lemma record_size_sio (b : list Byte.byte) (self : Channels) :
  _sio (record_size b self) = _sio self.
Proof. unfold record_size. destruct (_stats self); reflexivity. Qed.

Lemma decoded_record_lookup (data : Dict) (frame_decoded timestamp : Value)
  (k : string) :
  decoded_record data frame_decoded timestamp !! k =
  if bool_decide (k = "metadata") then data !! "metadata"
  else if bool_decide (k = "timestamp") then Some timestamp
       else if bool_decide (k = "frame") then Some frame_decoded else None.
Proof.
  unfold decoded_record.
  destruct (decide (k = "metadata")) as [-> | Hmd].
  - rewrite bool_decide_eq_true_2 by reflexivity.
    destruct (data !! "metadata") as [md|]; [apply lookup_insert_eq|].
    rewrite lookup_insert_ne by discriminate.
    apply lookup_singleton_ne. discriminate.
  - rewrite (bool_decide_eq_false_2 _ Hmd).
    assert ((<["timestamp" := timestamp]> {["frame" := frame_decoded]} : Dict)
              !! k
            = if bool_decide (k = "timestamp") then Some timestamp
              else if bool_decide (k = "frame") then Some frame_decoded
                   else None) as Hrest.
    { destruct (decide (k = "timestamp")) as [-> | Hts].
      - rewrite bool_decide_eq_true_2 by reflexivity. apply lookup_insert_eq.
      - rewrite (bool_decide_eq_false_2 _ Hts).
        rewrite lookup_insert_ne by congruence.
        destruct (decide (k = "frame")) as [-> | Hfr].
        + rewrite bool_decide_eq_true_2 by reflexivity.
          apply lookup_singleton_eq.
        + rewrite (bool_decide_eq_false_2 _ Hfr).
          apply lookup_singleton_ne. congruence. }
    destruct (data !! "metadata") as [md|]; [|exact Hrest].
    rewrite lookup_insert_ne by congruence. exact Hrest.
Qed.

(** The still-image branch of [image_decode]. *)
Lemma image_decode_still (fuel : nat) (self : Channels) (data : Dict)
  (event : string) (sid : option string) (frame frame_decoded : Value)
  (key : string * string) (info : CallbackInfo) :
  data !! "frame" = Some frame ->
  stream_key self event sid = Some key ->
  _callbacks_info self !! event = Some info ->
  type info <> H264 ->
  _decoders self !! key = None ->
  cv2_imdecode frame = Ok frame_decoded ->
  image_decode fuel data event sid self
  = Some (Ok (Some (decoded_record data frame_decoded
                      (envelope_timestamp data))), self).
Proof.
  intros Hframe Hkey Hinfo Htype Hnone Hdec.
  rewrite (image_decode_eq _ _ _ _ _ _ _ _ Hframe Hkey Hinfo), Hnone.
  assert (check_timestamp fuel data frame (envelope_timestamp data) event sid
            key self
          = Some (Ok (Some (decoded_record data frame_decoded
                              (envelope_timestamp data))), self)) as Hc.
  { rewrite check_timestamp_still_eq by exact Hnone.
    rewrite decode_frame_still_eq by exact Hnone. rewrite Hdec. reflexivity. }
  destruct (type info); try exact Hc. contradiction.
Qed.

(** X13: the envelope that [send_image] emits for a JPEG frame is taken by
    [image_decode] on a JPEG channel: it returns what [cv2.imdecode] makes
    of the encoded frame, with the timestamp of the sender and with its
    metadata when these were given and not empty, and leaves the receiver as
    it was. *)
Theorem jpeg_frame_arrives (fuel : nat) (perf_counter_ns : Z)
  (sender sender' : Channels) (frame : ndarray) (event : string)
  (timestamp : option Z) (metadata : option Dict) (sid : option string)
  (can_be_dropped wait_for_reconnection : bool)
  (options : option (gmap string string)) (key : string * string)
  (frame_encoded : list Byte.byte) :
  stream_key sender event sid = Some key ->
  cv2_imencode frame = Ok frame_encoded ->
  send_image fuel perf_counter_ns frame event JPEG timestamp metadata sid
    can_be_dropped wait_for_reconnection options sender
  = Some (Ok tt, sender') ->
  exists envelope,
    emitted (_sio sender')
    = emitted (_sio sender) ++ [emission sender event (VDict envelope) sid]
    /\ forall (fuel' : nat) (receiver : Channels) (event' : string)
         (sid' : option string) (key' : string * string)
         (info' : CallbackInfo) (image : Value),
         stream_key receiver event' sid' = Some key' ->
         _callbacks_info receiver !! event' = Some info' ->
         type info' = JPEG ->
         _decoders receiver !! key' = None ->
         cv2_imdecode (VBytes frame_encoded) = Ok image ->
         exists record,
           image_decode fuel' envelope event' sid' receiver
           = Some (Ok (Some record), receiver)
           /\ record !! "frame" = Some image
           /\ record !! "timestamp"
              = Some (VInt (default perf_counter_ns timestamp))
           /\ record !! "metadata"
              = match metadata with
                | Some md => if bool_decide (size md = 0%nat) then None
                             else Some (VDict md)
                | None => None
                end.
Proof.
  intros Hkey Henc Hsend.
  rewrite (send_image_JPEG_eq _ _ _ _ _ _ _ _ _ _ _ _ Hkey), Henc in Hsend.
  apply send_data_ok_emitted in Hsend.
  rewrite record_size_sio in Hsend.
  rewrite (emission_sio sender) in Hsend by apply record_size_sio.
  set (envelope := jpeg_envelope _ _) in Hsend.
  exists envelope. split; [exact Hsend|].
  intros fuel' receiver event' sid' key' info' image Hkey' Hinfo' Htype' Hnone
    Hdec.
  assert (envelope !! "frame" = Some (VBytes frame_encoded)) as Hframe
    by apply lookup_insert_eq.
  assert (forall k, k <> "frame" ->
                    envelope !! k
                    = envelope_head perf_counter_ns timestamp metadata !! k)
    as Hrest.
  { intros k Hk. unfold envelope, jpeg_envelope.
    apply lookup_insert_ne. congruence. }
  eexists. split.
  - apply (image_decode_still _ _ _ _ _ (VBytes frame_encoded) image _ _
             Hframe Hkey' Hinfo'); auto.
    rewrite Htype'. discriminate.
  - rewrite !decoded_record_lookup. cbn.
    unfold envelope_timestamp.
    rewrite !Hrest by discriminate. rewrite !envelope_head_lookup. cbn.
    repeat split; reflexivity.
Qed.

(** X14: the envelope that [send_image] emits for an encoded H.264 frame is
    taken by [image_decode] on an H.264 channel without decoder yet: the
    decoder is built for the width and height of the encoder, and when its
    initial [last_timestamp] is not above the timestamp of the frame, the
    decoded frame is returned with the timestamp and metadata of the sender
    and the decoder is stored with that timestamp. *)
Theorem h264_first_frame_arrives (fuel : nat) (perf_counter_ns : Z)
  (sender sender1 sender' : Channels) (frame : ndarray) (event : string)
  (timestamp : option Z) (metadata : option Dict) (sid : option string)
  (can_be_dropped wait_for_reconnection : bool)
  (options : option (gmap string string)) (key : string * string)
  (enc : H264Encoder) (frame_encoded : list Byte.byte) :
  stream_key sender event sid = Some key ->
  create_encoder frame key options sender = Some (Ok tt, sender1) ->
  _encoders sender1 !! key = Some enc ->
  (encode_ndarray enc frame).1 = Ok frame_encoded ->
  send_image fuel perf_counter_ns frame event H264 timestamp metadata sid
    can_be_dropped wait_for_reconnection options sender
  = Some (Ok tt, sender') ->
  exists envelope,
    emitted (_sio sender')
    = emitted (_sio sender) ++ [emission sender event (VDict envelope) sid]
    /\ forall (fuel' : nat) (receiver : Channels) (event' : string)
         (sid' : option string) (key' : string * string)
         (info' : CallbackInfo) (dec : H264Decoder) (image : Value),
         stream_key receiver event' sid' = Some key' ->
         _callbacks_info receiver !! event' = Some info' ->
         type info' = H264 ->
         _decoders receiver !! key' = None ->
         H264Decoder_new initial_last_timestamp (VInt (enc_width enc))
           (VInt (enc_height enc)) = Ok dec ->
         initial_last_timestamp <= default perf_counter_ns timestamp ->
         let started :=
           set_last_timestamp (VInt (default perf_counter_ns timestamp)) dec in
         (decode_packet_data started (VBytes frame_encoded)).1 = Ok image ->
         exists record,
           image_decode fuel' envelope event' sid' receiver
           = Some (Ok (Some record),
                   set_decoders
                     (<[key' := (decode_packet_data started
                                   (VBytes frame_encoded)).2]>
                        (_decoders receiver)) receiver)
           /\ record !! "frame" = Some image
           /\ record !! "timestamp"
              = Some (VInt (default perf_counter_ns timestamp))
           /\ record !! "metadata"
              = match metadata with
                | Some md => if bool_decide (size md = 0%nat) then None
                             else Some (VDict md)
                | None => None
                end.
Proof.
  intros Hkey Hcreate Henc Hres Hsend.
  destruct (encode_ndarray_geometry enc frame) as (Hw & Hh & _).
  rewrite (send_image_H264_eq _ _ _ _ _ _ _ _ _ _ _ _ Hkey), Hcreate in Hsend.
  unfold try_except in Hsend.
  rewrite (encode_and_send_H264_eq _ _ _ _ _ _ _ _ _ Henc) in Hsend.
  cbv zeta in Hsend. rewrite Hres in Hsend.
  set (envelope := h264_envelope _ _ _) in Hsend.
  assert (send_data fuel envelope event JSON sid
            (can_be_dropped && negb (enc_keyframe (encode_ndarray enc frame).2))
            true
            (record_size frame_encoded
               (set_encoders
                  (<[key := (encode_ndarray enc frame).2]> (_encoders sender1))
                  sender1))
          = Some (Ok tt, sender')) as Hsent.
  { destruct (send_data _ _ _ _ _ _ _ _) as [[[[]|e] s]|] eqn:Hs;
      [exact Hsend| |discriminate].
    rewrite (send_data_no_encoder_error _ _ _ _ _ _ _ _ _ Hs) in Hsend.
    discriminate. }
  clear Hsend. apply send_data_ok_emitted in Hsent.
  apply create_encoder_frame in Hcreate as (es & ->).
  rewrite record_size_sio in Hsent. cbn in Hsent.
  rewrite (emission_sio sender) in Hsent
    by (rewrite record_size_sio; reflexivity).
  exists envelope. split; [exact Hsent|].
  intros fuel' receiver event' sid' key' info' dec image Hkey' Hinfo' Htype'
    Hnone Hnew Hts started Hdec.
  assert (envelope !! "frame" = Some (VBytes frame_encoded)) as Hframe
    by apply lookup_insert_eq.
  assert (envelope !! "width" = Some (VInt (enc_width enc))) as Hwidth.
  { unfold envelope, h264_envelope. rewrite !lookup_insert_ne by discriminate.
    rewrite lookup_insert_eq, Hw. reflexivity. }
  assert (envelope !! "height" = Some (VInt (enc_height enc))) as Hheight.
  { unfold envelope, h264_envelope. rewrite !lookup_insert_ne by discriminate.
    rewrite lookup_insert_eq, Hh. reflexivity. }
  assert (forall k, k <> "frame" -> k <> "height" -> k <> "width" ->
                    k <> "h264" ->
                    envelope !! k
                    = envelope_head perf_counter_ns timestamp metadata !! k)
    as Hrest.
  { intros k H1 H2 H3 H4. unfold envelope, h264_envelope.
    rewrite !lookup_insert_ne by congruence. reflexivity. }
  assert (envelope_timestamp envelope
          = VInt (default perf_counter_ns timestamp)) as Hstamp.
  { unfold envelope_timestamp. rewrite Hrest by discriminate.
    rewrite envelope_head_lookup. reflexivity. }
  assert (last_timestamp dec = VInt initial_last_timestamp) as Hlast.
  { unfold H264Decoder_new in Hnew.
    destruct (av_decoder_open _ _); [|discriminate].
    injection Hnew as <-. reflexivity. }
  eexists. split.
  - rewrite (image_decode_eq _ _ _ _ _ _ _ _ Hframe Hkey' Hinfo').
    rewrite Htype', Hnone, Hwidth, Hheight, Hnew.
    rewrite (check_timestamp_decoder_eq _ _ _ _ _ _ _ _ dec)
      by (cbn; apply lookup_insert_eq).
    rewrite Hstamp, Hlast. unfold py_sub. cbn [as_int].
    destruct (default perf_counter_ns timestamp - initial_last_timestamp <? 0)
      eqn:Hneg; [lia|].
    cbn [_decoders set_decoders]. rewrite insert_insert_eq.
    rewrite (decode_frame_decoder_eq _ _ _ _ _ _ _ _ started)
      by (cbn; apply lookup_insert_eq).
    cbv zeta. rewrite Hdec. cbn [_decoders set_decoders].
    rewrite insert_insert_eq. reflexivity.
  - rewrite !decoded_record_lookup. cbn.
    rewrite !Hrest by discriminate. rewrite !envelope_head_lookup. cbn.
    repeat split; reflexivity.
Qed.

(** ** [image_decode]: the edges *)

(** X15: on an event that was not declared, [image_decode] raises
    [KeyError] and leaves the object as it was, and so does [data_lz4_decode]
    for data that fail to decode; data that decode are returned by
    [data_lz4_decode] all the same. *)
Theorem undeclared_event_raises_key_error (fuel : nat) (self : Channels)
  (data : Dict) (event : string) (sid : option string) :
  _callbacks_info self !! event = None ->
  (data !! "frame" = None \/ is_Some (stream_key self event sid) ->
   image_decode fuel data event sid self = Some (Raise KeyError, self))
  /\ (forall b e,
        lz4_loads b = Raise e ->
        data_lz4_decode fuel (VBytes b) event sid self
        = Some (Raise KeyError, self))
  /\ (forall b v,
        lz4_loads b = Ok v ->
        data_lz4_decode fuel (VBytes b) event sid self = Some (Ok v, self)).
Proof.
  intros Hinfo. split; [|split].
  - destruct (data !! "frame") as [frame|] eqn:Hframe.
    + intros [Hno | [key Hkey]]; [discriminate|].
      apply (image_decode_undeclared _ _ _ _ _ _ _ Hframe Hkey Hinfo).
    + intros _. rewrite image_decode_no_frame_eq by exact Hframe.
      rewrite send_error_eq, Hinfo. reflexivity.
  - intros b e Hloads. unfold data_lz4_decode. rewrite Hloads.
    unfold bind at 1. rewrite callback_info_eq, Hinfo. reflexivity.
  - intros b v Hloads. unfold data_lz4_decode. rewrite Hloads. reflexivity.
Qed.

(** X16: an envelope without [frame] is answered on the error event of the
    channel with the message of line 301, whatever the type of the channel;
    [None] is returned and the decoders stay as they were. *)
Theorem image_decode_missing_frame (fuel : nat) (self : Channels)
  (data : Dict) (event : string) (sid : option string) (info : CallbackInfo) :
  data !! "frame" = None ->
  _callbacks_info self !! event = Some info ->
  transport_ready fuel true sid self = true ->
  rejected_with fuel data event sid (error_event info)
    "Data does not contain frame." self.
Proof.
  intros Hframe Hinfo Hready.
  apply (send_error_rejected _ _ _ _ _ _ _ Hinfo Hready).
  apply image_decode_no_frame_eq. exact Hframe.
Qed.

(** X17: on a channel that is not H.264 and has no decoder, the frame is
    decoded as a still image and returned with the timestamp of the envelope
    (0 when it has none), whatever that timestamp is, with the metadata of
    the envelope and with no other key; the object stays as it was. *)
Theorem image_decode_still_image (fuel : nat) (self : Channels) (data : Dict)
  (event : string) (sid : option string) (frame frame_decoded : Value)
  (key : string * string) (info : CallbackInfo) :
  data !! "frame" = Some frame ->
  stream_key self event sid = Some key ->
  _callbacks_info self !! event = Some info ->
  type info <> H264 ->
  _decoders self !! key = None ->
  cv2_imdecode frame = Ok frame_decoded ->
  exists record,
    image_decode fuel data event sid self = Some (Ok (Some record), self)
    /\ record !! "frame" = Some frame_decoded
    /\ record !! "timestamp" = Some (default (VInt 0) (data !! "timestamp"))
    /\ record !! "metadata" = data !! "metadata"
    /\ forall k, k <> "frame" -> k <> "timestamp" -> k <> "metadata" ->
                 record !! k = None.
Proof.
  intros Hframe Hkey Hinfo Htype Hnone Hdec. eexists. split.
  - apply (image_decode_still _ _ _ _ _ frame frame_decoded _ _
             Hframe Hkey Hinfo Htype Hnone Hdec).
  - rewrite !decoded_record_lookup. cbn. repeat split.
    intros k Hf Ht Hm. rewrite decoded_record_lookup.
    rewrite !bool_decide_eq_false_2 by assumption. reflexivity.
Qed.

(** X18: with a decoder on the stream, a timestamp that is not a number
    ([None], a string, bytes, a dictionary) ends the call in [TypeError]:
    nothing is sent and the object stays as it was. *)
Theorem image_decode_timestamp_not_a_number (fuel : nat) (self : Channels)
  (data : Dict) (event : string) (sid : option string) (frame : Value)
  (key : string * string) (info : CallbackInfo) (dec : H264Decoder) :
  data !! "frame" = Some frame ->
  stream_key self event sid = Some key ->
  _callbacks_info self !! event = Some info ->
  _decoders self !! key = Some dec ->
  as_int (default (VInt 0) (data !! "timestamp")) = None ->
  (forall a, data !! "timestamp" <> Some (VImage a)) ->
  image_decode fuel data event sid self = Some (Raise TypeError, self).
Proof.
  intros Hframe Hkey Hinfo Hdec Hnot _.
  rewrite (image_decode_decoder_eq _ _ _ _ _ _ _ _ _ Hframe Hkey Hinfo Hdec).
  rewrite (check_timestamp_decoder_eq _ _ _ _ _ _ _ _ _ Hdec).
  unfold py_sub, envelope_timestamp. rewrite Hnot. reflexivity.
Qed.

(** ** [data_lz4_decode]: the error branch *)

(** X19: [data_lz4_decode] fails its assertion on what is not [bytes]; data
    that do not decompress or parse are answered on the error event of the
    channel, in an envelope that holds the error and no timestamp, and
    [None] is returned. *)
Theorem data_lz4_decode_failure (fuel : nat) (self : Channels)
  (event : string) (sid : option string) :
  (forall data,
      match data with VBytes _ => False | _ => True end ->
      data_lz4_decode fuel data event sid self
      = Some (Raise AssertionError, self))
  /\ (forall b e info,
        lz4_loads b = Raise e ->
        _callbacks_info self !! event = Some info ->
        transport_ready fuel true sid self = true ->
        exists self',
          data_lz4_decode fuel (VBytes b) event sid self
          = Some (Ok VNone, self')
          /\ emitted (_sio self')
             = emitted (_sio self)
               ++ [emission self (error_event info)
                     (VDict (lz4_error_envelope e)) sid]
          /\ lz4_error_envelope e !! "timestamp" = None
          /\ _decoders self' = _decoders self).
Proof.
  split.
  - intros data Hdata. destruct data; try reflexivity. contradiction.
  - intros b e info Hloads Hinfo Hready.
    unfold data_lz4_decode. rewrite Hloads.
    unfold bind at 1. rewrite callback_info_eq, Hinfo.
    unfold bind, ret. fold (lz4_error_envelope e).
    rewrite send_data_eq by auto. rewrite back_pressure_check_eq.
    replace (match _back_pressure_size self with
             | Some _ | _ => Some (Ok tt, self) end)
      with (Some (Ok tt, self))
      by (destruct (_back_pressure_size self); reflexivity).
    cbn [encode_payload]. unfold encode_payload. types. cbv iota.
    destruct (emit_data_ready fuel self (error_event info)
                (VDict (lz4_error_envelope e)) sid true Hready)
      as (self' & -> & Hem & Hds & _).
    exists self'. repeat split; auto.
Qed.

(** ** The client handlers *)

Lemma send_error_no_record (fuel : nat) (self self' : Channels)
  (timestamp : Value) (msg event : string) (sid : option string)
  (record : Dict) :
  send_error fuel timestamp msg event sid self
  <> Some (Ok (Some record), self').
Proof.
  rewrite send_error_eq.
  destruct (_callbacks_info self !! event); [|discriminate].
  destruct (send_data _ _ _ _ _ _ _ _) as [[[[]|e] s]|]; discriminate.
Qed.

Lemma decode_frame_returned (fuel : nat) (self self' : Channels) (data : Dict)
  (frame timestamp : Value) (event : string) (sid : option string)
  (key : string * string) (record : Dict) :
  decode_frame fuel data frame timestamp event sid key self
  = Some (Ok (Some record), self') ->
  exists frame_decoded, record = decoded_record data frame_decoded timestamp.
Proof.
  destruct (_decoders self !! key) as [dec|] eqn:Hdec.
  - rewrite (decode_frame_decoder_eq _ _ _ _ _ _ _ _ _ Hdec). cbv zeta.
    destruct ((decode_packet_data dec frame).1) as [frame_decoded|e].
    + intros [= <- _]. eauto.
    + destruct (is_H264DecoderError e); [|discriminate].
      intros Hs. apply send_error_no_record in Hs. contradiction.
  - rewrite decode_frame_still_eq by exact Hdec.
    destruct (cv2_imdecode frame) as [frame_decoded|e].
    + intros [= <- _]. eauto.
    + intros Hs. apply send_error_no_record in Hs. contradiction.
Qed.

Lemma check_timestamp_returned (fuel : nat) (self self' : Channels)
  (data : Dict) (frame timestamp : Value) (event : string)
  (sid : option string) (key : string * string) (record : Dict) :
  check_timestamp fuel data frame timestamp event sid key self
  = Some (Ok (Some record), self') ->
  exists frame_decoded, record = decoded_record data frame_decoded timestamp.
Proof.
  destruct (_decoders self !! key) as [dec|] eqn:Hdec.
  - rewrite (check_timestamp_decoder_eq _ _ _ _ _ _ _ _ _ Hdec).
    destruct (py_sub timestamp (last_timestamp dec)) as [diff|e];
      [|discriminate].
    destruct (diff <? 0).
    + intros Hs. apply send_error_no_record in Hs. contradiction.
    + apply decode_frame_returned.
  - rewrite check_timestamp_still_eq by exact Hdec.
    apply decode_frame_returned.
Qed.

(** A record that [image_decode] returns was built by lines 379-383, on an
    event that is declared. *)
Lemma image_decode_returned (fuel : nat) (self self' : Channels) (data : Dict)
  (event : string) (sid : option string) (record : Dict) :
  image_decode fuel data event sid self = Some (Ok (Some record), self') ->
  exists frame_decoded info,
    record = decoded_record data frame_decoded (envelope_timestamp data)
    /\ _callbacks_info self !! event = Some info.
Proof.
  intros Hd. destruct (data !! "frame") as [frame|] eqn:Hframe.
  2: { rewrite image_decode_no_frame_eq in Hd by exact Hframe.
       apply send_error_no_record in Hd. contradiction. }
  destruct (stream_key self event sid) as [key|] eqn:Hkey.
  2: { rewrite (image_decode_no_sid _ _ _ _ _ _ Hframe Hkey) in Hd.
       discriminate. }
  destruct (_callbacks_info self !! event) as [info|] eqn:Hinfo.
  2: { rewrite (image_decode_undeclared _ _ _ _ _ _ _ Hframe Hkey Hinfo) in Hd.
       discriminate. }
  rewrite (image_decode_eq _ _ _ _ _ _ _ _ Hframe Hkey Hinfo) in Hd.
  assert (forall s, check_timestamp fuel data frame (envelope_timestamp data)
                      event sid key s = Some (Ok (Some record), self') ->
                    exists frame_decoded info0,
                      record = decoded_record data frame_decoded
                                 (envelope_timestamp data)
                      /\ Some info = Some info0) as Hcheck.
  { intros s Hc. apply check_timestamp_returned in Hc as (fd & ->). eauto. }
  destruct (type info), (_decoders self !! key); eauto.
  destruct (data !! "width");
    [|apply send_error_no_record in Hd; contradiction].
  destruct (data !! "height");
    [|apply send_error_no_record in Hd; contradiction].
  destruct (H264Decoder_new initial_last_timestamp _ _);
    [eauto | apply send_error_no_record in Hd; contradiction].
Qed.

Lemma decoded_record_not_empty (data : Dict) (frame_decoded timestamp : Value) :
  bool_decide (size (decoded_record data frame_decoded timestamp) = 0%nat)
  = false.
Proof.
  apply bool_decide_eq_false_2. intros Hsize.
  apply map_size_empty_inv in Hsize.
  pose proof (decoded_record_timestamp data frame_decoded timestamp) as Hts.
  rewrite Hsize in Hts. discriminate.
Qed.

(** X20: [image_callback] calls the callback of the channel with the record
    that [image_decode] returned, on the object as [image_decode] left it;
    when [image_decode] returned [None] it returns without calling it, and
    what [image_decode] raised it raises. *)
Theorem image_callback_delivers (callback : string -> Value -> M unit)
  (fuel : nat) (self : Channels) (data : Dict) (event : string) :
  image_callback initial_last_timestamp callback fuel data event self =
  match image_decode fuel data event None self with
  | Some (Ok (Some record), self') => callback event (VDict record) self'
  | Some (Ok None, self') => Some (Ok tt, self')
  | Some (Raise e, self') => Some (Raise e, self')
  | None => None
  end.
Proof.
  unfold image_callback. unfold bind at 1.
  destruct (image_decode fuel data event None self)
    as [[[[record|]|e] self']|] eqn:Hd; try reflexivity.
  pose proof (image_decode_state _ _ _ _ _ _ _ Hd)
    as (sio' & ds & -> & _).
  apply image_decode_returned in Hd as (fd & info & -> & Hinfo).
  unfold bind at 1. unfold lift. cbn [py_bool optional_dict].
  rewrite decoded_record_not_empty. cbn [negb].
  unfold bind. rewrite callback_info_eq. cbn. rewrite Hinfo. reflexivity.
Qed.

(** X21: on a client, a frame older than the last one of its stream never
    reaches the callback of the channel: whatever the callback,
    [image_callback] returns after the ordering error was sent. *)
Theorem late_frame_never_delivered (fuel : nat) (self : Channels)
  (data : Dict) (event : string) (frame : Value) (key : string * string)
  (info : CallbackInfo) (dec : H264Decoder) (t l : Z) :
  data !! "frame" = Some frame ->
  stream_key self event None = Some key ->
  _callbacks_info self !! event = Some info ->
  _decoders self !! key = Some dec ->
  transport_ready fuel true None self = true ->
  as_int (envelope_timestamp data) = Some t ->
  as_int (last_timestamp dec) = Some l ->
  t < l ->
  exists self',
    (forall callback : string -> Value -> M unit,
        image_callback initial_last_timestamp callback fuel data event self
        = Some (Ok tt, self'))
    /\ emitted (_sio self')
       = emitted (_sio self)
         ++ [emission self (error_event info)
               (VDict (error_envelope (envelope_timestamp data)
                         (older_timestamp_msg (envelope_timestamp data)
                            (last_timestamp dec) (t - l)))) None]
    /\ _decoders self' = _decoders self.
Proof.
  intros Hframe Hkey Hinfo Hdec Hready Ht Hl Hlt.
  destruct (image_decode_older_rejected _ _ _ _ _ _ _ _ _ _ _
              Hframe Hkey Hinfo Hdec Hready Ht Hl Hlt)
    as (diff & Hsub & self' & Hd & Hem & Hds).
  unfold py_sub in Hsub. rewrite Ht, Hl in Hsub. injection Hsub as <-.
  exists self'. split; [|split; [exact Hem | exact Hds]].
  intros callback. unfold image_callback. unfold bind at 1.
  rewrite Hd. reflexivity.
Qed.

(** X22: on a declared event, [json_lz4_callback] calls the callback of the
    channel with a decoded object that is not empty; an empty object is not
    handed over, and data that fail to decode are answered on the error
    event and not handed over either. *)
Theorem json_lz4_callback_delivers (fuel : nat) (self : Channels)
  (b : list Byte.byte) (event : string) (info : CallbackInfo) :
  _callbacks_info self !! event = Some info ->
  (forall callback d,
      lz4_loads b = Ok (VDict d) -> d <> ∅ ->
      json_lz4_callback callback fuel (VBytes b) event self
      = callback event (VDict d) self)
  /\ (forall callback,
        lz4_loads b = Ok (VDict ∅) ->
        json_lz4_callback callback fuel (VBytes b) event self
        = Some (Ok tt, self))
  /\ (forall e,
        lz4_loads b = Raise e ->
        transport_ready fuel true None self = true ->
        exists self',
          (forall callback,
              json_lz4_callback callback fuel (VBytes b) event self
              = Some (Ok tt, self'))
          /\ emitted (_sio self')
             = emitted (_sio self)
               ++ [emission self (error_event info)
                     (VDict (lz4_error_envelope e)) None]).
Proof.
  intros Hinfo. split; [|split].
  - intros callback d Hloads Hne.
    unfold json_lz4_callback, data_lz4_decode. rewrite Hloads.
    unfold bind at 1. unfold ret at 1. unfold bind at 1. unfold lift.
    cbn [py_bool]. rewrite bool_decide_eq_false_2.
    + cbn [negb]. unfold json_callback, bind.
      rewrite callback_info_eq, Hinfo. reflexivity.
    + intros Hsize. apply map_size_empty_inv in Hsize. contradiction.
  - intros callback Hloads.
    unfold json_lz4_callback, data_lz4_decode. rewrite Hloads. reflexivity.
  - intros e Hloads Hready.
    assert (exists self',
               data_lz4_decode fuel (VBytes b) event None self
               = Some (Ok VNone, self')
               /\ emitted (_sio self')
                  = emitted (_sio self)
                    ++ [emission self (error_event info)
                          (VDict (lz4_error_envelope e)) None])
      as (self' & Hd & Hem).
    { unfold data_lz4_decode. rewrite Hloads.
      unfold bind at 1. rewrite callback_info_eq, Hinfo.
      unfold bind, ret. fold (lz4_error_envelope e).
      rewrite send_data_eq by auto. rewrite back_pressure_check_eq.
      replace (match _back_pressure_size self with
               | Some _ | _ => Some (Ok tt, self) end)
        with (Some (Ok tt, self))
        by (destruct (_back_pressure_size self); reflexivity).
      cbn [encode_payload]. unfold encode_payload. types. cbv iota.
      destruct (emit_data_ready fuel self (error_event info)
                  (VDict (lz4_error_envelope e)) None true Hready)
        as (self' & -> & Hem & _).
      exists self'. auto. }
    exists self'. split; [|exact Hem].
    intros callback. unfold json_lz4_callback. unfold bind at 1.
    rewrite Hd. reflexivity.
Qed.

(** The table of the handlers, event by event. *)
Lemma ClientChannels_init_table (c : ClientSio)
  (callbacks_info : gmap string CallbackInfo) (back_pressure_size : option Z)
  (recreate_h264_attempts_count : Z) (stats : bool) (self : Channels)
  (handlers : gmap string Handler) :
  ClientChannels_init c callbacks_info back_pressure_size
    recreate_h264_attempts_count stats = Ok (self, handlers) ->
  _sio self = Client c
  /\ forall event,
       handlers !! event =
       match callbacks_info !! event with
       | Some info =>
           Some (match type info with
                 | JSON => JsonHandler event
                 | JSON_LZ4 => JsonLz4Handler event
                 | JPEG | H264 => ImageHandler event
                 end)
       | None =>
           if bool_decide (event = DATA_ERROR_EVENT)
           then Some DataErrorHandler else None
       end.
Proof.
  unfold ClientChannels_init.
  destruct (Channels_init _ _ _ _ _) as [self0|e] eqn:Hinit; [|discriminate].
  intros [= <- <-].
  assert (_sio self0 = Client c /\ _callbacks_info self0 = callbacks_info)
    as (Hsio & ->).
  { unfold Channels_init in Hinit. destruct back_pressure_size as [n|];
      [destruct (n <? 1); [discriminate|]|]; injection Hinit as <-; auto. }
  split; [exact Hsio|]. clear Hinit Hsio.
  apply (map_fold_weak_ind
           (fun handlers (m : gmap string CallbackInfo) =>
              forall event,
                handlers !! event =
                match m !! event with
                | Some info =>
                    Some (match type info with
                          | JSON => JsonHandler event
                          | JSON_LZ4 => JsonLz4Handler event
                          | JPEG | H264 => ImageHandler event
                          end)
                | None =>
                    if bool_decide (event = DATA_ERROR_EVENT)
                    then Some DataErrorHandler else None
                end)).
  - intros event. rewrite lookup_empty. case_bool_decide as Hev.
    + subst event. apply lookup_singleton_eq.
    + apply lookup_singleton_ne. congruence.
  - intros k info m handlers0 Hfresh IH event.
    destruct (decide (k = event)) as [<- | Hne].
    + rewrite lookup_insert_eq. unfold register_handler.
      destruct (type info); apply lookup_insert_eq.
    + rewrite lookup_insert_ne by exact Hne. rewrite <- IH.
      unfold register_handler.
      destruct (type info); apply lookup_insert_ne; exact Hne.
Qed.

(** X23: after the constructor of the client, the handler of a declared
    event, called with the one payload of a received message, runs
    [json_callback] on a JSON channel and [image_callback] on a JPEG or H.264
    channel, with the event of the channel; on a JSON_LZ4 channel the handler
    takes [sid] and [data]: with one argument it raises [TypeError] and
    leaves the object as it was, and it runs [json_lz4_callback] only when
    called with two.  The error event has the error handler unless a channel
    took that name, and no other event has a handler. *)
Theorem ClientChannels_init_handlers (c : ClientSio)
  (callbacks_info : gmap string CallbackInfo) (back_pressure_size : option Z)
  (recreate_h264_attempts_count : Z) (stats : bool) (self : Channels)
  (handlers : gmap string Handler) :
  ClientChannels_init c callbacks_info back_pressure_size
    recreate_h264_attempts_count stats = Ok (self, handlers) ->
  _sio self = Client c
  /\ (forall event info,
        callbacks_info !! event = Some info ->
        exists handler,
          handlers !! event = Some handler
          /\ forall (callback : string -> Value -> M unit) (fuel : nat),
               let call := call_handler initial_last_timestamp callback fuel
                             handler in
               match type info with
               | JSON =>
                   forall data,
                     call [data] = Some (json_callback callback data event)
               | JSON_LZ4 =>
                   (forall data, call [data] = Some (raise TypeError))
                   /\ (forall sid data,
                         call [sid; data]
                         = Some (json_lz4_callback callback fuel data event))
               | JPEG | H264 =>
                   forall data,
                     call [VDict data]
                     = Some (image_callback initial_last_timestamp callback
                               fuel data event)
               end)
  /\ (callbacks_info !! DATA_ERROR_EVENT = None ->
      exists handler,
        handlers !! DATA_ERROR_EVENT = Some handler
        /\ forall (callback : string -> Value -> M unit) (fuel : nat) data,
             call_handler initial_last_timestamp callback fuel handler [data]
             = Some (data_error_callback data None))
  /\ (forall event,
        callbacks_info !! event = None -> event <> DATA_ERROR_EVENT ->
        handlers !! event = None).
Proof.
  intros Hinit. apply ClientChannels_init_table in Hinit as (Hsio & Htable).
  split; [exact Hsio|]. split; [|split].
  - intros event info Hinfo. specialize (Htable event).
    rewrite Hinfo in Htable. eexists. split; [exact Htable|].
    intros callback fuel call. unfold call.
    destruct (type info); cbn; auto.
  - intros Hnone. specialize (Htable DATA_ERROR_EVENT).
    rewrite Hnone in Htable. eexists. split; [exact Htable|].
    intros callback fuel data. reflexivity.
  - intros event Hnone Hne. rewrite Htable, Hnone.
    rewrite (bool_decide_eq_false_2 _ Hne). reflexivity.
Qed.

End Properties.

(** * The properties on concrete inputs *)

(** The object of the examples is what the constructor builds. *)
Example demo_channels_constructed (sio : Sio) :
  Channels_init sio Demo.callbacks (Some 5) 5 false = Ok (Demo.channels sio).
Proof. reflexivity. Qed.

Example back_pressure_size_zero_refused (sio : Sio) :
  Channels_init (Ext := Demo.ext) sio Demo.callbacks (Some 0) 5 false
  = Raise (ValueError "Invalid value for back_pressure_size.").
Proof. reflexivity. Qed.

(** A client with six packets queued and a threshold of five: the droppable
    send raises instead of returning. *)
Lemma send_data_back_pressure_not_silent :
  _back_pressure_size (Demo.channels (Demo.client_sio 6)) = Some 5
  /\ queue_depth (Demo.channels (Demo.client_sio 6)) None = Some 6
  /\ ~ dropped_silently 0 {["x" := VInt 1]} "results" JSON None true
        (Demo.channels (Demo.client_sio 6)).
Proof.
  split; [reflexivity|]. split; [reflexivity|].
  unfold dropped_silently. intros H.
  assert (fst <$> send_data 0 {["x" := VInt 1]} "results" JSON None true true
                    (Demo.channels (Demo.client_sio 6))
          = Some (Raise BackPressureException)) as Hr by reflexivity.
  rewrite H in Hr. discriminate Hr.
Qed.

Lemma send_data_back_pressure_raises_witness :
  send_data 0 {["x" := VInt 1]} "results" JSON None true true
    (Demo.channels (Demo.client_sio 6))
  = Some (Raise BackPressureException, Demo.channels (Demo.client_sio 6)).
Proof.
  apply (send_data_back_pressure_raises 0 _ _ _ _ _ _ 5 6);
    [left; reflexivity | reflexivity | reflexivity | lia].
Defined.

Lemma back_pressure_admission_witness :
  exists self',
    send_data 0 {["x" := VInt 1]} "results" JSON (Some "s1") true true
      (Demo.channels (Demo.server_sio 3)) = Some (Ok tt, self')
    /\ emitted (_sio self')
       = emitted (_sio (Demo.channels (Demo.server_sio 3)))
         ++ [emission (Demo.channels (Demo.server_sio 3)) "results"
               (VDict {["x" := VInt 1]}) (Some "s1")].
Proof.
  assert (JSON = JSON \/ JSON = JSON_LZ4) as H1 by (left; reflexivity).
  assert (encode_payload (Ext := Demo.ext) {["x" := VInt 1]} JSON
          = Ok (VDict {["x" := VInt 1]})) as H2 by reflexivity.
  assert (transport_ready 0 true (Some "s1")
            (Demo.channels (Demo.server_sio 3)) = true) as H3 by reflexivity.
  assert (queue_depth (Demo.channels (Demo.server_sio 3)) (Some "s1")
          = Some 3) as H4 by reflexivity.
  assert (3 <= 5) as H5 by lia.
  apply (proj2 (proj1 (back_pressure_admission 0
                         (Demo.channels (Demo.server_sio 3))
                         {["x" := VInt 1]} "results" JSON (Some "s1") true
                         true (VDict {["x" := VInt 1]}) H1 H2 H3))).
  right; right. exists 5, 3.
  split; [reflexivity|]. split; [exact H4 | exact H5].
Defined.

(** A 640x480 keyframe sent as droppable by a client whose queue holds a
    hundred packets: it is emitted. *)
Lemma send_image_keyframe_never_droppable_witness :
  exists self',
    send_image 0 0 Demo.frame_640x480 "video" H264 (Some 1) None None true true
      None (Demo.channels (Demo.client_sio 100)) = Some (Ok tt, self')
    /\ emitted (_sio self')
       = [{| em_event := "video";
             em_data :=
               VDict (h264_envelope (envelope_head 0 (Some 1) None)
                        Demo.used_encoder [Byte.x01; Byte.x02]);
             em_namespace := DATA_NAMESPACE; em_to := None |}].
Proof.
  assert (stream_key (Demo.channels (Demo.client_sio 100)) "video" None
          = Some Demo.video_key) as H1 by reflexivity.
  assert (create_encoder Demo.frame_640x480 Demo.video_key None
            (Demo.channels (Demo.client_sio 100))
          = Some (Ok tt, Demo.with_encoder Demo.new_encoder
                           (Demo.channels (Demo.client_sio 100))))
    as H2 by reflexivity.
  assert (_encoders (Demo.with_encoder Demo.new_encoder
                       (Demo.channels (Demo.client_sio 100)))
            !! Demo.video_key = Some Demo.new_encoder) as H3 by reflexivity.
  assert ((encode_ndarray Demo.new_encoder Demo.frame_640x480).1
          = Ok [Byte.x01; Byte.x02]) as H4 by reflexivity.
  assert (enc_keyframe (encode_ndarray Demo.new_encoder Demo.frame_640x480).2
          = true) as H5 by reflexivity.
  destruct (send_image_keyframe_never_droppable 0 0 _ _ _ _ (Some 1) None None
              true true None _ _ _ H1 H2 H3 H4 H5) as (_ & _ & _ & _ & H).
  apply H. reflexivity.
Defined.

(** A second image of another shape and with other options, after the first
    one created the encoder: nothing is created. *)
Lemma encoder_created_once_witness :
  exists enc1,
    _encoders Demo.after_first_image !! Demo.video_key = Some enc1
    /\ enc_width enc1 = 640 /\ enc_height enc1 = 480
    /\ enc_options enc1 = None
    /\ create_encoder Demo.small_frame Demo.video_key
         (Some {["preset" := "slow"]}) Demo.after_first_image
       = Some (Ok tt, Demo.after_first_image).
Proof.
  assert (stream_key (Demo.channels (Demo.client_sio 0)) "video" None
          = Some Demo.video_key) as H1 by reflexivity.
  assert (_encoders (Demo.channels (Demo.client_sio 0)) !! Demo.video_key
          = None) as H2 by reflexivity.
  assert (shape Demo.frame_640x480 !! 1%nat = Some 640) as H3 by reflexivity.
  assert (shape Demo.frame_640x480 !! 0%nat = Some 480) as H4 by reflexivity.
  assert (H264Encoder_new (Ext := Demo.ext) 640 480 None
          = Ok Demo.new_encoder) as H5 by reflexivity.
  assert (send_image 0 0 Demo.frame_640x480 "video" H264 (Some 1) None None
            true true None (Demo.channels (Demo.client_sio 0))
          = Some (Ok tt, Demo.after_first_image)) as H6 by reflexivity.
  destruct (encoder_created_once 0 0 0 5 _ _ _ Demo.small_frame _ _ (Some 2)
              _ None _ _ true _ true _ (Some {["preset" := "slow"]}) _ _ _ _
              _ H1 H2 H3 H4 H5 H6)
    as (enc1 & Henc1 & Hw & Hh & Ho & _ & Hcreate & _).
  exists enc1. auto.
Defined.

(** The encoder fails on an empty frame with its init count under the
    ceiling, and [send_image] returns normally; the decoder fails on an empty
    packet with its init count at the ceiling, and [image_decode] returns
    [None]: neither error reaches the caller. *)
Lemma codec_error_not_propagated :
  ((encode_ndarray Demo.new_encoder Demo.empty_frame).1
   = Raise (H264EncoderError "empty frame")
   /\ enc_init_count Demo.new_encoder
      < _recreate_h264_attempts_count (Demo.channels (Demo.client_sio 0))
   /\ ~ raises (H264EncoderError "empty frame")
        (send_image 0 0 Demo.empty_frame "video" H264 (Some 1) None None true
           true None (Demo.channels (Demo.client_sio 0))))
  /\ ((decode_packet_data (set_last_timestamp (VInt 9) (Demo.decoder_at 5))
         (VBytes [])).1 = Raise (H264DecoderError "empty packet")
      /\ _recreate_h264_attempts_count (Demo.channels (Demo.client_sio 0))
         <= dec_init_count (Demo.decoder_at 5)
      /\ ~ raises (H264DecoderError "empty packet")
           (image_decode 0 0 (Demo.video_envelope 9 []) "video" None
              (Demo.with_decoder (Demo.decoder_at 5)
                 (Demo.channels (Demo.client_sio 0))))).
Proof.
  split; (split; [reflexivity|]); (split; [cbn; lia|]); intros [self' H].
  - assert (fst <$> send_image 0 0 Demo.empty_frame "video" H264 (Some 1) None
                      None true true None (Demo.channels (Demo.client_sio 0))
            = Some (Ok tt)) as Hr by reflexivity.
    rewrite H in Hr. discriminate Hr.
  - assert (fst <$> image_decode 0 0 (Demo.video_envelope 9 []) "video" None
                      (Demo.with_decoder (Demo.decoder_at 5)
                         (Demo.channels (Demo.client_sio 0)))
            = Some (Ok None)) as Hr by reflexivity.
    rewrite H in Hr. discriminate Hr.
Qed.

Lemma codec_error_recovery_witness :
  send_image 0 0 Demo.empty_frame "video" H264 (Some 1) None None true true
    None (Demo.channels (Demo.client_sio 0))
  = Some (Ok tt,
          set_encoders
            (<[Demo.video_key :=
                 encoder_init
                   (encode_ndarray Demo.new_encoder Demo.empty_frame).2]>
               (_encoders (Demo.with_encoder Demo.new_encoder
                             (Demo.channels (Demo.client_sio 0)))))
            (Demo.with_encoder Demo.new_encoder
               (Demo.channels (Demo.client_sio 0))))
  /\ exists self',
       image_decode 0 0 (Demo.video_envelope 9 []) "video" None
         (Demo.channels (Demo.client_sio 0)) = Some (Ok None, self')
       /\ emitted (_sio self')
          = emitted (_sio (Demo.channels (Demo.client_sio 0)))
            ++ [emission (Demo.channels (Demo.client_sio 0)) "video_error"
                  (VDict (error_envelope
                            (envelope_timestamp (Demo.video_envelope 9 []))
                            ("H.264 decoder error: " +:+ "empty packet")))
                  None]
       /\ is_Some (_decoders self' !! Demo.video_key).
Proof.
  assert (stream_key (Demo.channels (Demo.client_sio 0)) "video" None
          = Some Demo.video_key) as H1 by reflexivity.
  assert (create_encoder Demo.empty_frame Demo.video_key None
            (Demo.channels (Demo.client_sio 0))
          = Some (Ok tt, Demo.with_encoder Demo.new_encoder
                           (Demo.channels (Demo.client_sio 0))))
    as H2 by reflexivity.
  assert (_encoders (Demo.with_encoder Demo.new_encoder
                       (Demo.channels (Demo.client_sio 0)))
            !! Demo.video_key = Some Demo.new_encoder) as H3 by reflexivity.
  assert ((encode_ndarray Demo.new_encoder Demo.empty_frame).1
          = Raise (H264EncoderError "empty frame")) as H4 by reflexivity.
  split.
  - apply (proj1 (proj1 (codec_error_recovery 0) 0%nat 0 _ _ _ _ (Some 1) None
                    None true true None _ _ _ H1 H2 H3 H4)).
    cbn. lia.
  - assert (Demo.video_envelope 9 [] !! "frame" = Some (VBytes [])) as D1
      by reflexivity.
    assert (_callbacks_info (Demo.channels (Demo.client_sio 0)) !! "video"
            = Some Demo.video_info) as D2 by reflexivity.
    assert (_decoders (Demo.channels (Demo.client_sio 0)) !! Demo.video_key
            = None
            /\ type Demo.video_info = H264
            /\ exists w h,
                 Demo.video_envelope 9 [] !! "width" = Some w
                 /\ Demo.video_envelope 9 [] !! "height" = Some h
                 /\ H264Decoder_new (Ext := Demo.ext) 0 w h
                    = Ok (@Build_H264Decoder Demo.ext (VInt 0) 0 0%nat))
      as D3.
    { split; [reflexivity|]. split; [reflexivity|].
      exists (VInt 640), (VInt 480). repeat split; reflexivity. }
    assert (as_int (envelope_timestamp (Demo.video_envelope 9 [])) = Some 9)
      as D4 by reflexivity.
    assert (0 <= 9) as D5 by lia.
    assert (transport_ready 0 true None (Demo.channels (Demo.client_sio 0))
            = true) as D6 by reflexivity.
    destruct (proj2 (codec_error_recovery 0) 0%nat
                (Demo.channels (Demo.client_sio 0)) (Demo.video_envelope 9 [])
                "video" None (VBytes []) Demo.video_key Demo.video_info
                (@Build_H264Decoder Demo.ext (VInt 0) 0 0%nat) 9 0
                "empty packet"
                D1 H1 D2 (or_intror D3) D4 eq_refl D5 eq_refl D6)
      as (self' & Hrun & Hem & Hd).
    exists self'. split; [exact Hrun|]. split; [exact Hem|].
    rewrite Hd, lookup_insert_eq. eauto.
Defined.

(** Two photos on a JPEG channel, the second with the lower timestamp: both
    are decoded and returned. *)
Lemma jpeg_timestamps_go_down :
  type <$> Demo.callbacks !! "photo" = Some JPEG
  /\ ~ timestamps_non_decreasing 0 0 Demo.photo_calls
        (Demo.channels (Demo.client_sio 0)) ("c1", "photo").
Proof.
  split; [reflexivity|]. intros H.
  destruct (H [Ok (Some (decoded_record (Demo.photo_envelope 5) Demo.photo
                           (VInt 5)));
               Ok (Some (decoded_record (Demo.photo_envelope 3) Demo.photo
                           (VInt 3)))]
              (Demo.channels (Demo.client_sio 0)) eq_refl) as [lo Hlo].
  assert (accepted (Demo.channels (Demo.client_sio 0)) ("c1", "photo")
            Demo.photo_calls
            [Ok (Some (decoded_record (Demo.photo_envelope 5) Demo.photo
                         (VInt 5)));
             Ok (Some (decoded_record (Demo.photo_envelope 3) Demo.photo
                         (VInt 3)))]
          = [VInt 5; VInt 3]) as Hacc by reflexivity.
  rewrite Hacc in Hlo.
  destruct Hlo as (t & [= <-] & _ & t' & [= <-] & Hle & _). lia.
Qed.

Lemma h264_timestamps_non_decreasing_witness :
  timestamps_non_decreasing 0 0 Demo.video_calls
    (Demo.channels (Demo.client_sio 0)) Demo.video_key
  /\ (stays_connected (Demo.channels (Demo.client_sio 0)) ->
      exists results self',
        run_image_decode 0 0 Demo.video_calls
          (Demo.channels (Demo.client_sio 0)) = Some (results, self')).
Proof.
  apply (h264_timestamps_non_decreasing 0 0 Demo.video_calls
           (Demo.channels (Demo.client_sio 0)) Demo.video_key).
  reflexivity.
Defined.

(** The run of the three video frames: the late one is not returned. *)
Example video_calls_accepted :
  match run_image_decode 0 0 Demo.video_calls
          (Demo.channels (Demo.client_sio 0)) with
  | Some (results, _) =>
      accepted (Demo.channels (Demo.client_sio 0)) Demo.video_key
        Demo.video_calls results
  | None => []
  end = [VInt 5; VInt 7].
Proof. vm_compute. reflexivity. Qed.

(** An envelope without frame and with a newer timestamp, on a stream whose
    decoder last accepted 5: [last_timestamp] stays at 5. *)
Lemma frameless_envelope_skips_ordering_check :
  ({["timestamp" := VInt 9]} : Dict) !! "frame" = None
  /\ _decoders (Demo.with_decoder (Demo.decoder_at 0)
                  (Demo.channels (Demo.client_sio 0))) !! Demo.video_key
     = Some (Demo.decoder_at 0)
  /\ ~ ordering_check 0 0 {["timestamp" := VInt 9]} "video" None "video_error"
        Demo.video_key (Demo.decoder_at 0)
        (Demo.with_decoder (Demo.decoder_at 0)
           (Demo.channels (Demo.client_sio 0))).
Proof.
  split; [reflexivity|]. split; [reflexivity|]. intros H.
  destruct (H 9 5 eq_refl eq_refl) as [_ H2].
  destruct (H2 ltac:(lia)) as (r & self' & dec' & Hrun & Hdec' & Hlast).
  rewrite image_decode_no_frame_eq in Hrun by reflexivity.
  apply send_error_frame in Hrun as (_ & sio' & -> & _).
  assert (_decoders
            (set_sio sio'
               (Demo.with_decoder (Demo.decoder_at 0)
                  (Demo.channels (Demo.client_sio 0)))) !! Demo.video_key
          = Some (Demo.decoder_at 0)) as Hd by reflexivity.
  rewrite Hd in Hdec'. injection Hdec' as <-.
  assert (envelope_timestamp {["timestamp" := VInt 9]} = VInt 9) as Hts
    by reflexivity.
  rewrite Hts in Hlast. discriminate Hlast.
Qed.

Lemma image_decode_ordering_check_witness :
  ordering_check 0 0 (Demo.video_envelope 3 [Byte.x02]) "video" None
    "video_error" Demo.video_key (Demo.decoder_at 0)
    (Demo.with_decoder (Demo.decoder_at 0) (Demo.channels (Demo.client_sio 0))).
Proof.
  apply (image_decode_ordering_check 0 0 _ _ "video" None (VBytes [Byte.x02])
           Demo.video_key {| type := H264; error_event := "video_error" |}
           (Demo.decoder_at 0)); reflexivity.
Defined.

(** An envelope with neither timestamp nor frame, on a stream whose decoder
    last accepted 5: the answer is the missing-frame error. *)
Lemma timestampless_frameless_envelope :
  (∅ : Dict) !! "timestamp" = None
  /\ as_int (last_timestamp (Demo.decoder_at 0)) = Some 5
  /\ ~ rejected_as_out_of_order 0 0 ∅ "video" None "video_error"
        (last_timestamp (Demo.decoder_at 0))
        (Demo.with_decoder (Demo.decoder_at 0)
           (Demo.channels (Demo.client_sio 0))).
Proof.
  split; [reflexivity|]. split; [reflexivity|].
  intros (diff & Hsub & self' & Hrun & Hem & _).
  injection Hsub as <-.
  assert ((fun o => match o with
                    | Some (_, s) => emitted (_sio s)
                    | None => []
                    end)
            (image_decode 0 0 ∅ "video" None
               (Demo.with_decoder (Demo.decoder_at 0)
                  (Demo.channels (Demo.client_sio 0))))
          = [{| em_event := "video_error";
                em_data :=
                  VDict (error_envelope (VInt 0)
                           "Data does not contain frame.");
                em_namespace := DATA_NAMESPACE; em_to := None |}]) as Hact
    by reflexivity.
  rewrite Hrun in Hact. cbv beta iota in Hact. rewrite Hem in Hact.
  apply (f_equal (fun l => match l with
                           | [e] => match em_data e with
                                    | VDict d => d !! "error"
                                    | _ => None
                                    end
                           | _ => None
                           end)) in Hact.
  vm_compute in Hact. discriminate Hact.
Qed.

Lemma image_decode_without_timestamp_witness :
  envelope_timestamp {["frame" := VBytes [Byte.x02]]} = VInt 0
  /\ rejected_as_out_of_order 0 0 {["frame" := VBytes [Byte.x02]]} "video"
       None "video_error" (last_timestamp (Demo.decoder_at 0))
       (Demo.with_decoder (Demo.decoder_at 0)
          (Demo.channels (Demo.client_sio 0))).
Proof.
  apply (image_decode_without_timestamp 0 0 _ _ "video" None
           (VBytes [Byte.x02]) Demo.video_key
           {| type := H264; error_event := "video_error" |}
           (Demo.decoder_at 0) 5); try reflexivity.
Defined.

(** A first video frame without geometry. *)
Lemma image_decode_first_frame_rejected_witness :
  rejected_with 0 0 {["frame" := VBytes [Byte.x02]]} "video" None
    (error_event Demo.video_info)
    (match ({["frame" := VBytes [Byte.x02]]} : Dict) !! "frame" with
     | Some _ => no_geometry_msg
     | None => "Data does not contain frame."
     end) (Demo.channels (Demo.client_sio 0)).
Proof.
  assert (stream_key (Demo.channels (Demo.client_sio 0)) "video" None
          = Some Demo.video_key) as H1 by reflexivity.
  assert (_callbacks_info (Demo.channels (Demo.client_sio 0)) !! "video"
          = Some Demo.video_info) as H2 by reflexivity.
  assert (_decoders (Demo.channels (Demo.client_sio 0)) !! Demo.video_key
          = None) as H3 by reflexivity.
  assert (transport_ready 0 true None (Demo.channels (Demo.client_sio 0))
          = true) as H4 by reflexivity.
  apply (proj1 (image_decode_first_frame_rejected 0 0
                  (Demo.channels (Demo.client_sio 0))
                  {["frame" := VBytes [Byte.x02]]} _ _ _ _
                  H1 H2 eq_refl H3 H4)).
  left. reflexivity.
Defined.

(** The map [{"x": 1}] through the stand-in ujson and lz4. *)
Lemma lz4_round_trip_witness :
  data_lz4_decode 0 (VBytes (Demo.compress (utf8 Demo.json_x1))) "results" None
    (Demo.channels (Demo.server_sio 0))
  = Some (Ok (VDict {["x" := VInt 1]}), Demo.channels (Demo.server_sio 0)).
Proof.
  apply (lz4_round_trip 0 0 (Demo.channels (Demo.client_sio 0))
           (Demo.channels (Demo.server_sio 0)) {["x" := VInt 1]} Demo.json_x1
           "results" "results" None None true); reflexivity.
Defined.

(** * The further properties on concrete inputs *)

#[local] Existing Instance Demo.ext.

(** A run that did not stop on the fuel reached the state it returns. *)
Lemma reached {A} (o : option A) (d : A) :
  (match o with Some _ => true | None => false end) = true ->
  o = Some (default d o).
Proof. destruct o; [reflexivity | discriminate]. Qed.

(** A call that returned left the object that follows it. *)
Lemma returned (o : option (Result unit * Channels)) (d : Channels) :
  (match o with Some (Ok _, _) => true | _ => false end) = true ->
  o = Some (Ok tt, Scene.after o d).
Proof. destruct o as [[[[]|e] s]|]; cbn; congruence. Qed.

(** A result sent by a connected client. *)
Lemma send_data_all_or_nothing_witness :
  exists payload sio',
    encode_payload {["x" := VInt 1]} JSON_LZ4 = Ok payload
    /\ Scene.after
         (send_data 0 {["x" := VInt 1]} "results" JSON_LZ4 None false true
            (Demo.channels (Demo.client_sio 0)))
         (Demo.channels (Demo.client_sio 0))
       = set_sio sio' (Demo.channels (Demo.client_sio 0))
    /\ same_connection (Demo.client_sio 0) sio'
    /\ emitted sio'
       = [emission (Demo.channels (Demo.client_sio 0)) "results" payload None].
Proof.
  assert (send_data 0 {["x" := VInt 1]} "results" JSON_LZ4 None false true
            (Demo.channels (Demo.client_sio 0))
          = Some (Ok tt,
                  Scene.after
                    (send_data 0 {["x" := VInt 1]} "results" JSON_LZ4 None
                       false true (Demo.channels (Demo.client_sio 0)))
                    (Demo.channels (Demo.client_sio 0)))) as H1
    by reflexivity.
  exact (send_data_all_or_nothing 0 _ _ _ _ _ _ _ _ (Ok tt) H1).
Defined.

(** The first image of the video stream. *)
Lemma send_image_leaves_the_rest_witness :
  let self := Demo.channels (Demo.client_sio 0) in
  same_configuration self Demo.after_first_image
  /\ _decoders Demo.after_first_image = _decoders self
  /\ same_connection (_sio self) (_sio Demo.after_first_image)
  /\ (forall key',
         stream_key self "video" None <> Some key' ->
         _encoders Demo.after_first_image !! key' = _encoders self !! key')
  /\ (H264 <> H264 ->
      forall key',
        is_Some (_encoders Demo.after_first_image !! key')
        <-> is_Some (_encoders self !! key'))
  /\ (_stats self = false -> _sizes Demo.after_first_image = _sizes self)
  /\ exists more, _sizes Demo.after_first_image = _sizes self ++ more
                  /\ (length more <= 1)%nat.
Proof.
  assert (send_image 0 0 Demo.frame_640x480 "video" H264 (Some 1) None None
            true true None (Demo.channels (Demo.client_sio 0))
          = Some (Ok tt, Demo.after_first_image)) as H1 by reflexivity.
  exact (send_image_leaves_the_rest 0 0 _ _ _ _ _ _ _ _ _ _ _ _ H1).
Defined.

(** A video frame on time, on a stream that has its decoder. *)
Lemma image_decode_leaves_the_rest_witness :
  let self' :=
    Scene.after
      (image_decode 0 0 (Demo.video_envelope 7 [Byte.x03]) "video" None
         Scene.watching) Scene.watching in
  same_configuration Scene.watching self'
  /\ _encoders self' = _encoders Scene.watching
  /\ _sizes self' = _sizes Scene.watching
  /\ same_connection (_sio Scene.watching) (_sio self')
  /\ (forall key',
         stream_key Scene.watching "video" None <> Some key' ->
         _decoders self' !! key' = _decoders Scene.watching !! key')
  /\ (forall key',
         is_Some (_decoders Scene.watching !! key') ->
         is_Some (_decoders self' !! key')).
Proof.
  assert (image_decode 0 0 (Demo.video_envelope 7 [Byte.x03]) "video" None
            Scene.watching
          = Some (Scene.result_of
                    (image_decode 0 0 (Demo.video_envelope 7 [Byte.x03])
                       "video" None Scene.watching) (Ok None),
                  Scene.after
                    (image_decode 0 0 (Demo.video_envelope 7 [Byte.x03])
                       "video" None Scene.watching) Scene.watching)) as H1
    by reflexivity.
  exact (image_decode_leaves_the_rest 0 0 _ _ _ _ _ _ H1).
Defined.

(** A frame received, a result and an image sent, data that fail to decode:
    the decoder of the video stream is still there, at 7. *)
Lemma last_timestamp_never_goes_back_witness :
  last_timestamps_kept Scene.watching
    (default Scene.watching (invoke_all 0 0 Scene.some_calls Scene.watching)).
Proof.
  exact (last_timestamp_never_goes_back 0 0 _ _ _
           (reached (invoke_all 0 0 Scene.some_calls Scene.watching) _
              eq_refl)).
Defined.

(** The same calls on an object just constructed. *)
Lemma constructed_object_invariants_witness :
  let self' :=
    default (Demo.channels (Demo.client_sio 0))
      (invoke_all 0 0 Scene.some_calls (Demo.channels (Demo.client_sio 0))) in
  _callbacks_info self' = Demo.callbacks
  /\ _back_pressure_size self' = Some 5
  /\ (forall size, _back_pressure_size self' = Some size -> 1 <= size)
  /\ _recreate_h264_attempts_count self' = 5
  /\ _stats self' = false
  /\ (false = false -> _sizes self' = [])
  /\ decoders_of_h264_only self'
  /\ recreations_bounded self'.
Proof.
  assert (Channels_init (Demo.client_sio 0) Demo.callbacks (Some 5) 5 false
          = Ok (Demo.channels (Demo.client_sio 0))) as H1 by reflexivity.
  assert (0 <= 5) as H2 by lia.
  pose proof (reached
                (invoke_all 0 0 Scene.some_calls
                   (Demo.channels (Demo.client_sio 0)))
                (Demo.channels (Demo.client_sio 0)) eq_refl) as H3.
  exact (constructed_object_invariants 0 0 _ _ _ _ _ _ _ _ H1 H2 H3).
Defined.

(** A client that is back after two seconds. *)
Lemma send_data_emits_after_the_wait_witness :
  send_data 3 {["x" := VInt 1]} "results" JSON None false true
    (Demo.channels (Client (Scene.client_back_after 2)))
  = Some (Ok tt,
          set_sio (Client (client_emit
                     {| em_event := "results";
                        em_data := VDict {["x" := VInt 1]};
                        em_namespace := DATA_NAMESPACE; em_to := None |}
                     (slept 2 (Scene.client_back_after 2))))
            (Demo.channels (Client (Scene.client_back_after 2))))
  /\ send_data 3 {["x" := VInt 1]} "results" JSON None false false
       (Demo.channels (Client (Scene.client_back_after 2)))
     = Some (Ok tt,
             set_sio (Client (client_emit
                        {| em_event := "results";
                           em_data := VDict {["x" := VInt 1]};
                           em_namespace := DATA_NAMESPACE; em_to := None |}
                        (Scene.client_back_after 2)))
               (Demo.channels (Client (Scene.client_back_after 2)))).
Proof.
  assert (forall i, (i < 2)%nat ->
                    waiting (c_status (Scene.client_back_after 2)
                               (c_clock (Scene.client_back_after 2) + i)%nat)
                    = true) as H1.
  { intros [|[|i]] Hi; [reflexivity | reflexivity | lia]. }
  assert (waiting (c_status (Scene.client_back_after 2)
                     (c_clock (Scene.client_back_after 2) + 2)%nat) = false)
    as H2 by reflexivity.
  assert (2 <= 3)%nat as H3 by lia.
  exact (send_data_emits_after_the_wait 3 2
           (Demo.channels (Client (Scene.client_back_after 2))) _
           {["x" := VInt 1]} "results" JSON None _ eq_refl eq_refl
           (or_introl eq_refl) H1 H2 H3).
Defined.

(** A photo. *)
Lemma send_image_jpeg_witness :
  let envelope :=
    jpeg_envelope (envelope_head 0 (Some 9) None) [Byte.x07] in
  send_image 0 0 Demo.small_frame "photo" JPEG (Some 9) None None true true
    None (Demo.channels (Demo.client_sio 0))
  = send_data 0 envelope "photo" JSON None true true
      (record_size [Byte.x07] (Demo.channels (Demo.client_sio 0)))
  /\ envelope !! "frame" = Some (VBytes [Byte.x07])
  /\ envelope !! "timestamp" = Some (VInt 9)
  /\ envelope !! "h264" = None
  /\ envelope !! "width" = None
  /\ envelope !! "height" = None.
Proof.
  assert (stream_key (Demo.channels (Demo.client_sio 0)) "photo" None
          = Some Scene.photo_key) as H1 by reflexivity.
  assert (cv2_imencode Demo.small_frame = Ok [Byte.x07]) as H2 by reflexivity.
  exact (send_image_jpeg 0 0 _ _ "photo" (Some 9) None None true true None _ _
           H1 H2).
Defined.

(** A photo that may be dropped, with six packets waiting and a threshold of
    five. *)
Lemma sizes_count_encoded_frames_witness :
  send_image 0 0 Demo.small_frame "photo" JPEG (Some 9) None None true true
    None (Scene.counting (Demo.client_sio 6))
  = Some (Raise BackPressureException,
          set_sizes [1] (Scene.counting (Demo.client_sio 6))).
Proof.
  assert (stream_key (Scene.counting (Demo.client_sio 6)) "photo" None
          = Some Scene.photo_key) as H1 by reflexivity.
  assert (cv2_imencode Demo.small_frame = Ok [Byte.x07]) as H2 by reflexivity.
  assert (5 < 6) as H3 by lia.
  exact (sizes_count_encoded_frames 0 0 _ _ "photo" (Some 9) None None true None
           _ _ 5 6 H1 H2 eq_refl eq_refl eq_refl H3).
Defined.

(** A second video frame that may be dropped, with six packets waiting and a
    threshold of five. *)
Lemma dropped_h264_frame_was_encoded_witness :
  let self := Demo.with_encoder Demo.used_encoder
                (Demo.channels (Demo.client_sio 6)) in
  send_image 0 0 Demo.frame_640x480 "video" H264 (Some 2) None None true true
    None self
  = Some (Raise BackPressureException,
          record_size [Byte.x01; Byte.x02]
            (set_encoders
               (<[Demo.video_key :=
                    (encode_ndarray Demo.used_encoder Demo.frame_640x480).2]>
                  (_encoders self)) self)).
Proof.
  intros self.
  assert (stream_key self "video" None = Some Demo.video_key) as H1
    by reflexivity.
  assert (create_encoder Demo.frame_640x480 Demo.video_key None self
          = Some (Ok tt, self)) as H2 by reflexivity.
  assert (_encoders self !! Demo.video_key = Some Demo.used_encoder) as H3
    by reflexivity.
  assert ((encode_ndarray Demo.used_encoder Demo.frame_640x480).1
          = Ok [Byte.x01; Byte.x02]) as H4 by reflexivity.
  assert (enc_keyframe (encode_ndarray Demo.used_encoder Demo.frame_640x480).2
          = false) as H5 by reflexivity.
  assert (5 < 6) as H6 by lia.
  exact (dropped_h264_frame_was_encoded 0 0 self self Demo.frame_640x480
           "video" (Some 2) None None true None Demo.video_key
           Demo.used_encoder [Byte.x01; Byte.x02] 5 6 H1 H2 H3 H4 H5 eq_refl
           eq_refl H6).
Defined.

(** A photo sent by one client and received by another. *)
Lemma jpeg_frame_arrives_witness :
  let sender := Demo.channels (Demo.client_sio 0) in
  let sender' :=
    Scene.after
      (send_image 0 0 Demo.small_frame "photo" JPEG (Some 9) None None true
         true None sender) sender in
  exists envelope,
    emitted (_sio sender')
    = emitted (_sio sender) ++ [emission sender "photo" (VDict envelope) None]
    /\ forall (fuel' : nat) (receiver : Channels) (event' : string)
         (sid' : option string) (key' : string * string)
         (info' : CallbackInfo) (image : Value),
         stream_key receiver event' sid' = Some key' ->
         _callbacks_info receiver !! event' = Some info' ->
         type info' = JPEG ->
         _decoders receiver !! key' = None ->
         cv2_imdecode (VBytes [Byte.x07]) = Ok image ->
         exists record,
           image_decode 0 fuel' envelope event' sid' receiver
           = Some (Ok (Some record), receiver)
           /\ record !! "frame" = Some image
           /\ record !! "timestamp" = Some (VInt (default 0 (Some 9)))
           /\ record !! "metadata"
              = match @None Dict with
                | Some md => if bool_decide (size md = 0%nat) then None
                             else Some (VDict md)
                | None => None
                end.
Proof.
  intros sender sender'.
  assert (stream_key sender "photo" None = Some Scene.photo_key) as H1
    by reflexivity.
  assert (cv2_imencode Demo.small_frame = Ok [Byte.x07]) as H2 by reflexivity.
  exact (jpeg_frame_arrives 0 0 0 sender sender' Demo.small_frame "photo"
           (Some 9) None None true true None Scene.photo_key [Byte.x07] H1 H2
           (returned
              (send_image 0 0 Demo.small_frame "photo" JPEG (Some 9) None None
                 true true None sender) sender eq_refl)).
Defined.

(** The first video frame, sent by one client and received by another whose
    decoders start at timestamp 0. *)
Lemma h264_first_frame_arrives_witness :
  let sender := Demo.channels (Demo.client_sio 0) in
  exists envelope,
    emitted (_sio Demo.after_first_image)
    = emitted (_sio sender) ++ [emission sender "video" (VDict envelope) None]
    /\ forall (fuel' : nat) (receiver : Channels) (event' : string)
         (sid' : option string) (key' : string * string)
         (info' : CallbackInfo) (dec : H264Decoder) (image : Value),
         stream_key receiver event' sid' = Some key' ->
         _callbacks_info receiver !! event' = Some info' ->
         type info' = H264 ->
         _decoders receiver !! key' = None ->
         H264Decoder_new 0 (VInt (enc_width Demo.new_encoder))
           (VInt (enc_height Demo.new_encoder)) = Ok dec ->
         0 <= default 0 (Some 1) ->
         let started := set_last_timestamp (VInt (default 0 (Some 1))) dec in
         (decode_packet_data started (VBytes [Byte.x01; Byte.x02])).1
         = Ok image ->
         exists record,
           image_decode 0 fuel' envelope event' sid' receiver
           = Some (Ok (Some record),
                   set_decoders
                     (<[key' := (decode_packet_data started
                                   (VBytes [Byte.x01; Byte.x02])).2]>
                        (_decoders receiver)) receiver)
           /\ record !! "frame" = Some image
           /\ record !! "timestamp" = Some (VInt (default 0 (Some 1)))
           /\ record !! "metadata"
              = match @None Dict with
                | Some md => if bool_decide (size md = 0%nat) then None
                             else Some (VDict md)
                | None => None
                end.
Proof.
  intros sender.
  assert (stream_key sender "video" None = Some Demo.video_key) as H1
    by reflexivity.
  assert (create_encoder Demo.frame_640x480 Demo.video_key None sender
          = Some (Ok tt, Demo.with_encoder Demo.new_encoder sender)) as H2
    by reflexivity.
  assert (_encoders (Demo.with_encoder Demo.new_encoder sender)
            !! Demo.video_key = Some Demo.new_encoder) as H3 by reflexivity.
  assert ((encode_ndarray Demo.new_encoder Demo.frame_640x480).1
          = Ok [Byte.x01; Byte.x02]) as H4 by reflexivity.
  assert (send_image 0 0 Demo.frame_640x480 "video" H264 (Some 1) None None
            true true None sender = Some (Ok tt, Demo.after_first_image))
    as H5 by reflexivity.
  exact (h264_first_frame_arrives 0 0 0 sender _ Demo.after_first_image
           Demo.frame_640x480 "video" (Some 1) None None true true None
           Demo.video_key Demo.new_encoder [Byte.x01; Byte.x02]
           H1 H2 H3 H4 H5).
Defined.

(** An event that the channels of [Demo] do not declare. *)
Lemma undeclared_event_raises_key_error_witness :
  let self := Demo.channels (Demo.client_sio 0) in
  (Demo.photo_envelope 5 !! "frame" = None
   \/ is_Some (stream_key self "audio" None) ->
   image_decode 0 0 (Demo.photo_envelope 5) "audio" None self
   = Some (Raise KeyError, self))
  /\ (forall b e,
        lz4_loads b = Raise e ->
        data_lz4_decode 0 (VBytes b) "audio" None self
        = Some (Raise KeyError, self))
  /\ (forall b v,
        lz4_loads b = Ok v ->
        data_lz4_decode 0 (VBytes b) "audio" None self = Some (Ok v, self)).
Proof.
  intros self.
  assert (_callbacks_info self !! "audio" = None) as H1 by reflexivity.
  exact (undeclared_event_raises_key_error 0 0 self (Demo.photo_envelope 5)
           "audio" None H1).
Defined.

(** An envelope with a timestamp and nothing else, on the photo channel. *)
Lemma image_decode_missing_frame_witness :
  rejected_with 0 0 {["timestamp" := VInt 3]} "photo" None DATA_ERROR_EVENT
    "Data does not contain frame." (Demo.channels (Demo.client_sio 0)).
Proof.
  assert (({["timestamp" := VInt 3]} : Dict) !! "frame" = None) as H1
    by reflexivity.
  assert (_callbacks_info (Demo.channels (Demo.client_sio 0)) !! "photo"
          = Some Scene.photo_info) as H2 by reflexivity.
  assert (transport_ready 0 true None (Demo.channels (Demo.client_sio 0))
          = true) as H3 by reflexivity.
  exact (image_decode_missing_frame 0 0 _ _ "photo" None Scene.photo_info
           H1 H2 H3).
Defined.

(** A photo. *)
Lemma image_decode_still_image_witness :
  let self := Demo.channels (Demo.client_sio 0) in
  exists record,
    image_decode 0 0 (Demo.photo_envelope 5) "photo" None self
    = Some (Ok (Some record), self)
    /\ record !! "frame" = Some Demo.photo
    /\ record !! "timestamp"
       = Some (default (VInt 0) (Demo.photo_envelope 5 !! "timestamp"))
    /\ record !! "metadata" = Demo.photo_envelope 5 !! "metadata"
    /\ forall k, k <> "frame" -> k <> "timestamp" -> k <> "metadata" ->
                 record !! k = None.
Proof.
  intros self.
  assert (Demo.photo_envelope 5 !! "frame" = Some (VBytes [Byte.x01])) as H1
    by reflexivity.
  assert (stream_key self "photo" None = Some Scene.photo_key) as H2
    by reflexivity.
  assert (_callbacks_info self !! "photo" = Some Scene.photo_info) as H3
    by reflexivity.
  assert (type Scene.photo_info <> H264) as H4 by discriminate.
  assert (_decoders self !! Scene.photo_key = None) as H5 by reflexivity.
  assert (cv2_imdecode (VBytes [Byte.x01]) = Ok Demo.photo) as H6
    by reflexivity.
  exact (image_decode_still_image 0 0 self (Demo.photo_envelope 5) "photo"
           None (VBytes [Byte.x01]) Demo.photo Scene.photo_key
           Scene.photo_info H1 H2 H3 H4 H5 H6).
Defined.

(** A video frame whose timestamp is a text, on a stream that has its
    decoder. *)
Lemma image_decode_timestamp_not_a_number_witness :
  image_decode 0 0 Scene.misdated_envelope "video" None Scene.watching
  = Some (Raise TypeError, Scene.watching).
Proof.
  assert (Scene.misdated_envelope !! "frame" = Some (VBytes [Byte.x01])) as H1
    by reflexivity.
  assert (stream_key Scene.watching "video" None = Some Demo.video_key) as H2
    by reflexivity.
  assert (_callbacks_info Scene.watching !! "video" = Some Demo.video_info)
    as H3 by reflexivity.
  assert (_decoders Scene.watching !! Demo.video_key
          = Some (Demo.decoder_at 0)) as H4 by reflexivity.
  assert (as_int (default (VInt 0) (Scene.misdated_envelope !! "timestamp"))
          = None) as H5 by reflexivity.
  assert (forall a, Scene.misdated_envelope !! "timestamp" <> Some (VImage a))
    as H6.
  { assert (Scene.misdated_envelope !! "timestamp" = Some (VStr "late")) as ->
      by reflexivity.
    discriminate. }
  exact (image_decode_timestamp_not_a_number 0 0 _ _ "video" None _ _ _ _
           H1 H2 H3 H4 H5 H6).
Defined.

(** Data that are no LZ4 frame, on the results channel. *)
Lemma data_lz4_decode_failure_witness :
  let self := Demo.channels (Demo.client_sio 0) in
  exists self',
    data_lz4_decode 0 (VBytes [Byte.x00]) "results" None self
    = Some (Ok VNone, self')
    /\ emitted (_sio self')
       = emitted (_sio self)
         ++ [emission self DATA_ERROR_EVENT
               (VDict (lz4_error_envelope
                         (OtherException "LZ4F_decompress failed"))) None]
    /\ lz4_error_envelope (OtherException "LZ4F_decompress failed")
         !! "timestamp" = None
    /\ _decoders self' = _decoders self.
Proof.
  intros self.
  assert (lz4_loads [Byte.x00]
          = Raise (OtherException "LZ4F_decompress failed")) as H1
    by reflexivity.
  assert (_callbacks_info self !! "results" = Some Scene.results_info) as H2
    by reflexivity.
  assert (transport_ready 0 true None self = true) as H3 by reflexivity.
  exact (proj2 (data_lz4_decode_failure 0 self "results" None) [Byte.x00]
           (OtherException "LZ4F_decompress failed") Scene.results_info
           H1 H2 H3).
Defined.

(** A video frame of timestamp 3 on a stream that is at 5. *)
Lemma late_frame_never_delivered_witness :
  let data := Demo.video_envelope 3 [Byte.x02] in
  exists self',
    (forall callback : string -> Value -> M unit,
        image_callback 0 callback 0 data "video" Scene.watching
        = Some (Ok tt, self'))
    /\ emitted (_sio self')
       = emitted (_sio Scene.watching)
         ++ [emission Scene.watching "video_error"
               (VDict (error_envelope (envelope_timestamp data)
                         (older_timestamp_msg (envelope_timestamp data)
                            (VInt 5) (3 - 5)))) None]
    /\ _decoders self' = _decoders Scene.watching.
Proof.
  intros data.
  assert (data !! "frame" = Some (VBytes [Byte.x02])) as H1 by reflexivity.
  assert (stream_key Scene.watching "video" None = Some Demo.video_key) as H2
    by reflexivity.
  assert (_callbacks_info Scene.watching !! "video" = Some Demo.video_info)
    as H3 by reflexivity.
  assert (_decoders Scene.watching !! Demo.video_key
          = Some (Demo.decoder_at 0)) as H4 by reflexivity.
  assert (transport_ready 0 true None Scene.watching = true) as H5
    by reflexivity.
  assert (as_int (envelope_timestamp data) = Some 3) as H6 by reflexivity.
  assert (as_int (last_timestamp (Demo.decoder_at 0)) = Some 5) as H7
    by reflexivity.
  assert (3 < 5) as H8 by lia.
  exact (late_frame_never_delivered 0 0 Scene.watching data "video"
           (VBytes [Byte.x02]) Demo.video_key Demo.video_info
           (Demo.decoder_at 0) 3 5 H1 H2 H3 H4 H5 H6 H7 H8).
Defined.

(** The results channel of a client. *)
Lemma json_lz4_callback_delivers_witness :
  let self := Demo.channels (Demo.client_sio 0) in
  json_lz4_callback Scene.ignore 0 (VBytes Scene.results_frame) "results" self
  = Scene.ignore "results" (VDict {["x" := VInt 1]}) self.
Proof.
  intros self.
  assert (_callbacks_info self !! "results" = Some Scene.results_info) as H1
    by reflexivity.
  assert (lz4_loads Scene.results_frame = Ok (VDict {["x" := VInt 1]})) as H2
    by reflexivity.
  assert (({["x" := VInt 1]} : Dict) <> ∅) as H3
    by apply map_non_empty_singleton.
  exact (proj1 (json_lz4_callback_delivers 0 self Scene.results_frame
                  "results" Scene.results_info H1)
           Scene.ignore {["x" := VInt 1]} H2 H3).
Defined.

(** The client of [Scene] constructed on the channels of [Demo]. *)
Lemma ClientChannels_init_handlers_witness :
  exists handler,
    Scene.handlers !! "results" = Some handler
    /\ forall (callback : string -> Value -> M unit) (fuel : nat),
         (forall data,
             call_handler 0 callback fuel handler [data]
             = Some (raise TypeError))
         /\ (forall sid data,
               call_handler 0 callback fuel handler [sid; data]
               = Some (json_lz4_callback callback fuel data "results")).
Proof.
  assert (ClientChannels_init Scene.client Demo.callbacks (Some 5) 5 false
          = Ok (Demo.channels (Demo.client_sio 0), Scene.handlers)) as H1
    by reflexivity.
  assert (Demo.callbacks !! "results" = Some Scene.results_info) as H2
    by reflexivity.
  exact (proj1 (proj2 (ClientChannels_init_handlers 0 _ _ _ _ _ _ _ H1))
           "results" Scene.results_info H2).
Defined.
